(** * myTradingBot: a shallow embedding of the trading core

    The Python sources under [bot/] are embedded module by module:
    [bot/config.py] as [Config], [bot/risk.py] as [Risk], [bot/strategy.py]
    as [Strategy], [bot/state.py] as [State], [bot/execution.py] as
    [Execution], the helpers of [bot/data.py] that the loop calls as [Data],
    its ranking of the universe as [Ranking] and the trading loop of
    [bot/main.py] as [Main].  [State] is the state object over a state file
    of the shape [save()] writes and a disk that takes every write;
    [Persistence] is its start-up over a file of any content and a disk that
    may refuse the write, and [Encoding] relates the two.

    Numbers.  A finite Python [float] is embedded as an exact rational [Q]:
    sums, products and quotients are the exact ones, [math.floor] is
    [Qfloor], [int(x)] truncates toward zero and [round(x, n)] rounds the
    exact value half-to-even at [n] decimals.  Python [int]s are [Z].
    Not-a-number and the infinities are outside the embedding; where numpy
    yields them silently (a division by [0.0]) the comparison that follows
    is written out with the value it has there. *)

From Stdlib Require Import ZArith QArith Qround Qabs Lia Lqa Bool List.
From stdpp Require Import gmap strings sorting.

Local Open Scope Q_scope.

(** ** Python numerics *)

Module Py.

(** [x < y] on floats, as a boolean. *)
Definition Qlt_bool (x y : Q) : bool := negb (Qle_bool y x).

(** Python's [max(a, b)]: [b] when [b > a], else [a]. *)
Definition max (a b : Q) : Q := if Qlt_bool a b then b else a.

(** Python's [min(a, b)]: [b] when [b < a], else [a]. *)
Definition min (a b : Q) : Q := if Qlt_bool b a then b else a.

(** [int(x)] for a float [x]: truncation toward zero. *)
Definition int (x : Q) : Z := Z.quot (Qnum x) (Zpos (Qden x)).

(** Rounding to the nearest integer, ties to the even neighbour. *)
Definition round_half_even (x : Q) : Z :=
  let f := Qfloor x in
  match Qcompare (x - inject_Z f) (1 # 2) with
  | Lt => f
  | Gt => (f + 1)%Z
  | Eq => if Z.even f then f else (f + 1)%Z
  end.

(** [round(x, ndigits)] for a float [x] and [ndigits >= 0]. *)
Definition round (x : Q) (ndigits : nat) : Q :=
  let scale := Z.pow 10 (Z.of_nat ndigits) in
  Qmake (round_half_even (x * inject_Z scale)) (Z.to_pos scale).

(** Truthiness of a float: every value but [0.0]. *)
Definition truthy (x : Q) : bool := negb (Qeq_bool x 0).

(** [a or b] where [a] is an optional float: [b] when [a] is [None] or
    [0.0]. *)
Definition or_else (a : option Q) (b : Q) : Q :=
  match a with
  | Some x => if truthy x then x else b
  | None => b
  end.

(** The exceptions the embedded code can raise. *)
Inductive exn : Type :=
  | IndexError
  | TypeError
  | ValueError
  | OSError
  | UnboundLocalError
  | APIError.

(** The outcome of a call: a returned value or a raised exception. *)
Inductive result (A : Type) : Type :=
  | Return (a : A)
  | Raise (e : exn).
Arguments Return {A} a.
Arguments Raise {A} e.

(** Code with effects on a store [S]: what was written before an exception
    is raised stays written. *)
Definition M (S A : Type) : Type := S -> result A * S.

Definition ret {S A} (a : A) : M S A := fun s => (Return a, s).
Definition raise {S A} (e : exn) : M S A := fun s => (Raise e, s).
Definition bind {S A B} (m : M S A) (k : A -> M S B) : M S B :=
  fun s =>
    match m s with
    | (Return a, s') => k a s'
    | (Raise e, s') => (Raise e, s')
    end.
Definition get {S} : M S S := fun s => (Return s, s).
Definition modify {S} (f : S -> S) : M S unit := fun s => (Return tt, f s).

(** [try: m  except Exception: h]. *)
Definition try_except {S A} (m : M S A) (h : M S A) : M S A :=
  fun s =>
    match m s with
    | (Return a, s') => (Return a, s')
    | (Raise _, s') => h s'
    end.

(** A [for] loop whose body has no [break]. *)
Fixpoint for_each {S A} (xs : list A) (body : A -> M S unit) : M S unit :=
  match xs with
  | [] => ret tt
  | x :: xs' => bind (body x) (fun _ => for_each xs' body)
  end.

End Py.

Notation "'let*' x := m 'in' k" := (Py.bind m (fun x => k))
  (at level 10, x name, k at level 200).
Notation "m ;; k" := (Py.bind m (fun _ => k))
  (at level 100, right associativity).

(** ** bot/config.py: the trading constants *)

Module Config.

Definition EMA_FAST : Z := 21.
Definition EMA_SLOW : Z := 50.
Definition PULLBACK_TOLERANCE_PCT : Q := 3 # 1000.
Definition SYMBOL_COOLDOWN_MIN : Z := 60.

Definition STOP_LOSS_PCT : Q := 7 # 1000.
Definition TRAIL_TRIGGER_PCT : Q := 1 # 100.
Definition TRAIL_OFFSET_PCT : Q := 12 # 1000.
Definition RISK_PER_TRADE_PCT : Q := 75 # 10000.
Definition MAX_POSITION_PCT : Q := 1 # 10.
Definition DAILY_LOSS_LIMIT : Q := 2 # 100.
Definition INTRADAY_EQUITY_GUARD : Q := 15 # 1000.

Definition BENCHMARKS : list string := ["SPY"; "QQQ"]%string.

(** Times of day, in microseconds since midnight. *)
Definition dt_time (hour minute : Z) : Z :=
  ((hour * 3600 + minute * 60) * 1000000)%Z.
Definition TRADING_WINDOW_START : Z := dt_time 9 45.
Definition TRADING_WINDOW_END : Z := dt_time 15 30.

(** The constants an environment variable can override, with the defaults
    of the module text. *)
Record Env : Type := {
  MAX_SPREAD_PCT : Q;
  MAX_SPREAD_ABS : Q;
  MIN_BAR_DOLLAR_VOL : Q;
  MAX_TOTAL_EXPOSURE_PCT : Q
}.

Definition default_env : Env :=
  {| MAX_SPREAD_PCT := 15 # 10000;
     MAX_SPREAD_ABS := 5 # 100;
     MIN_BAR_DOLLAR_VOL := 2000000;
     MAX_TOTAL_EXPOSURE_PCT := 1 # 2 |}.

End Config.

(** ** bot/risk.py *)

Module Risk.
Import Config.

(** [calculate_stop_price(entry_price)]: no guard on the sign of the
    argument, the result is always a float. *)
Definition calculate_stop_price (entry_price : Q) : Q :=
  Py.round (entry_price * (1 - STOP_LOSS_PCT)) 4.

(** [calculate_position_size(account_equity, entry_price, aggressive)]. *)
Definition calculate_position_size
    (account_equity entry_price : Q) (aggressive : bool) : Z :=
  if Qle_bool account_equity 0 || Qle_bool entry_price 0 then 0%Z
  else
    let risk_pct :=
      if negb aggressive then RISK_PER_TRADE_PCT
      else Py.max RISK_PER_TRADE_PCT (1 # 100) in
    let risk_capital := account_equity * risk_pct in
    let stop_distance := entry_price * STOP_LOSS_PCT in
    if Qle_bool stop_distance 0 then 0%Z
    else
      let qty := Qfloor (risk_capital / stop_distance) in
      let position_value := inject_Z qty * entry_price in
      let max_value := account_equity * MAX_POSITION_PCT in
      let qty :=
        if Py.Qlt_bool max_value position_value && Py.Qlt_bool 0 entry_price
        then Qfloor (max_value / entry_price)
        else qty in
      Z.max qty 0.

(** [trailing_stop_price(entry_price, highest_price)]; [None] is Python's
    [None]. *)
Definition trailing_stop_price (entry_price highest_price : Q) : option Q :=
  if Qle_bool highest_price 0 || Qle_bool entry_price 0 then None
  else if Py.Qlt_bool highest_price (entry_price * (1 + TRAIL_TRIGGER_PCT))
  then None
  else Some (Py.round (highest_price * (1 - TRAIL_OFFSET_PCT)) 4).

(** The stop price as the specification words it: a price for a positive
    entry and no price otherwise.  Used only for comparison with
    [calculate_stop_price]. *)
Definition stop_price_spec (entry : Q) : option Q :=
  if Py.Qlt_bool 0 entry
  then Some (Py.round (entry * (1 - STOP_LOSS_PCT)) 4)
  else None.

End Risk.

(** ** bot/strategy.py *)

Module Strategy.
Import Config.

(** One row of the bar frame; [b_time] is the row's index (an instant, in
    microseconds). *)
Record Bar : Type := {
  b_time : Z;
  b_open : Q;
  b_high : Q;
  b_low : Q;
  b_close : Q;
  b_volume : Q
}.

(** [series.ewm(span=span, adjust=False).mean()]: the first value seeds the
    average, each later one is blended in with weight [2 / (span + 1)]. *)
Fixpoint ewm_from (alpha prev : Q) (xs : list Q) : list Q :=
  match xs with
  | [] => []
  | x :: xs' =>
      let y := (1 - alpha) * prev + alpha * x in
      y :: ewm_from alpha y xs'
  end.

Definition ewm_mean (span : Z) (xs : list Q) : list Q :=
  match xs with
  | [] => []
  | x :: xs' => x :: ewm_from (2 / (inject_Z span + 1)) x xs'
  end.

(** A row of the enriched frame. *)
Record TrendBar : Type := {
  row : Bar;
  ema21 : Q;
  ema50 : Q
}.

Definition add_trend_columns (bars : list Bar) : list TrendBar :=
  let closes := map b_close bars in
  zip_with (fun r emas => {| row := r; ema21 := fst emas; ema50 := snd emas |})
    bars (zip (ewm_mean EMA_FAST closes) (ewm_mean EMA_SLOW closes)).

(** [frame.iloc[-k]] for [k >= 1]; [None] stands for [IndexError]. *)
Definition iloc_back {A} (l : list A) (k : nat) : option A :=
  if (length l <? k)%nat then None else l !! (length l - k)%nat.

(** [recent_metrics.get("ret_day") or 0.0]. *)
Definition day_return (recent_metrics : gmap string (option Q)) : Q :=
  Py.or_else (mjoin (recent_metrics !! "ret_day"%string)) 0.

(** [abs(low - ema) / ema <= PULLBACK_TOLERANCE_PCT] on numpy floats: for
    [ema = 0.0] the quotient is [inf] or [nan] and the comparison is
    false. *)
Definition pullback_ok (low ema : Q) : bool :=
  if Qeq_bool ema 0 then false
  else Qle_bool (Qabs (low - ema) / ema) PULLBACK_TOLERANCE_PCT.

(** The [reason] text of a confirmed signal. *)
Definition confirmed_reason : string :=
  "Uptrend (21>50), pullback to 21, break above prior high, RS > benchmark, volume confirmed.".

(** [check_entry_signal(bars, benchmark_perf, recent_metrics,
    volume_ratio)]. *)
Definition check_entry_signal
    (bars : option (list Bar)) (benchmark_perf : Q)
    (recent_metrics : gmap string (option Q)) (volume_ratio : option Q)
  : Py.result (bool * option Q * string) :=
  match bars with
  | None => Py.Return (false, None, "No market data."%string)
  | Some bars =>
    if (Z.of_nat (length bars) <? EMA_SLOW + 2)%Z
    then Py.Return (false, None, "Not enough candles for EMAs."%string)
    else
      let enriched := add_trend_columns bars in
      match iloc_back enriched 1, iloc_back enriched 2 with
      | Some last, Some prev =>
        if Qle_bool (ema21 last) (ema50 last)
           || Qle_bool (b_close (row last)) (ema50 last)
        then Py.Return (false, None, "Trend not strong enough."%string)
        else
          let pullback := pullback_ok (b_low (row prev)) (ema21 prev) in
          let break_confirmation :=
            Py.Qlt_bool (b_high (row prev)) (b_close (row last)) in
          if negb (pullback && break_confirmation)
          then Py.Return
                 (false, None, "No pullback + break confirmation."%string)
          else
            match volume_ratio with
            | None =>
              Py.Return (false, None, "Volume not above recent average."%string)
            | Some vr =>
              if Py.Qlt_bool vr (12 # 10)
              then Py.Return
                     (false, None, "Volume not above recent average."%string)
              else
                let day_ret := day_return recent_metrics in
                if Qle_bool day_ret benchmark_perf
                then Py.Return
                       (false, None,
                        "Fails relative strength vs benchmark."%string)
                else Py.Return
                       (true, Some (b_close (row last)), confirmed_reason)
            end
      | _, _ => Py.Raise Py.IndexError
      end
  end.

End Strategy.

(** ** bot/state.py *)

Module State.

(** The text of a timestamp: the [isoformat()] of an instant (microseconds
    since the epoch), or a text [datetime.fromisoformat] rejects. *)
Inductive iso_text : Type :=
  | Iso (instant : Z)
  | NotIso (text : string).

Definition fromisoformat (t : iso_text) : option Z :=
  match t with
  | Iso i => Some i
  | NotIso _ => None
  end.

(** A value of the [traded_symbols] ledger: [True] as written by
    [record_symbol_trade], or a dict such as [{"last_loss_at": ...}] as
    written by [update_metrics]. *)
Inductive ledger_entry : Type :=
  | EBool (b : bool)
  | EDict (d : gmap string iso_text).

(** [bool(entry)]. *)
Definition entry_truthy (e : ledger_entry) : bool :=
  match e with
  | EBool b => b
  | EDict d => negb (bool_decide (d = ∅))
  end.

(** The [metrics] dict. *)
Record Metrics : Type := {
  total_trades : Z;
  wins : Z;
  losses : Z;
  gross_profit : Q;
  gross_loss : Q;
  pnl_by_symbol : gmap string Q;
  max_equity : option Q;
  max_drawdown : Q
}.

(** What [self.state] holds under a dict-valued key: the very object that
    [DEFAULT_STATE] holds under that key ([DEFAULT_STATE.copy()] is a shallow
    copy), or an object of its own. *)
Inductive slot (A : Type) : Type :=
  | Shared
  | Owned (a : A).
Arguments Shared {A}.
Arguments Owned {A} a.

(** The dict [self.state]; [trading_day] is the ISO text of a date. *)
Record StateDict : Type := {
  trading_day : option string;
  start_equity : option Q;
  trades_executed : Z;
  trading_halted : bool;
  traded_symbols : slot (gmap string ledger_entry);
  metrics : slot Metrics
}.

(** The parsed content of a state file that holds a JSON object in which
    each key of [DEFAULT_STATE] may be missing and each present key has a
    value of the shape [save()] writes.  Content of any other shape (a
    [metrics] dict without some of its keys, a [null] ledger) is in
    [Persistence]. *)
Record Stored : Type := {
  st_trading_day : option (option string);
  st_start_equity : option (option Q);
  st_trades_executed : option Z;
  st_trading_halted : option bool;
  st_traded_symbols : option (gmap string ledger_entry);
  st_metrics : option Metrics
}.

(** The state file as [load] finds it.  [Unreadable]: [open] or the decoding
    raises; [Unparsable]: [json.load] raises, or the content is JSON on
    which [key in stored] or [stored[key]] raises. *)
Inductive File : Type :=
  | NoFile
  | Unreadable
  | Unparsable
  | Json (stored : Stored).

(** The module's mutable objects, the one [BotState] instance and the
    state file, on a disk that takes every write: the methods below are the
    methods as they run when [open(STATE_FILE, "w")] succeeds.  The disk
    that refuses the write is in [Persistence]. *)
Record World : Type := {
  DEFAULT_traded_symbols : gmap string ledger_entry;
  DEFAULT_metrics : Metrics;
  state : StateDict;
  STATE_FILE : File
}.

(** The literal [DEFAULT_STATE["metrics"]] of the module text. *)
Definition metrics_literal : Metrics :=
  {| total_trades := 0; wins := 0; losses := 0;
     gross_profit := 0; gross_loss := 0; pnl_by_symbol := ∅;
     max_equity := None; max_drawdown := 0 |}.

(** [DEFAULT_STATE.copy()]: fresh top-level dict, nested dicts shared. *)
Definition DEFAULT_STATE_copy : StateDict :=
  {| trading_day := None; start_equity := None; trades_executed := 0;
     trading_halted := false; traded_symbols := Shared; metrics := Shared |}.

(** Reading and mutating the object behind a slot. *)
Definition get_metrics (w : World) : Metrics :=
  match metrics (state w) with
  | Shared => DEFAULT_metrics w
  | Owned m => m
  end.

Definition get_traded_symbols (w : World) : gmap string ledger_entry :=
  match traded_symbols (state w) with
  | Shared => DEFAULT_traded_symbols w
  | Owned t => t
  end.

Definition set_state (st : StateDict) (w : World) : World :=
  {| DEFAULT_traded_symbols := DEFAULT_traded_symbols w;
     DEFAULT_metrics := DEFAULT_metrics w;
     state := st;
     STATE_FILE := STATE_FILE w |}.

(** In-place mutation of the dict [self.state["metrics"]] refers to. *)
Definition mutate_metrics (f : Metrics -> Metrics) (w : World) : World :=
  match metrics (state w) with
  | Shared =>
      {| DEFAULT_traded_symbols := DEFAULT_traded_symbols w;
         DEFAULT_metrics := f (DEFAULT_metrics w);
         state := state w;
         STATE_FILE := STATE_FILE w |}
  | Owned m =>
      set_state
        {| trading_day := trading_day (state w);
           start_equity := start_equity (state w);
           trades_executed := trades_executed (state w);
           trading_halted := trading_halted (state w);
           traded_symbols := traded_symbols (state w);
           metrics := Owned (f m) |} w
  end.

(** In-place mutation of the dict [self.state["traded_symbols"]] refers
    to. *)
Definition mutate_traded_symbols
    (f : gmap string ledger_entry -> gmap string ledger_entry) (w : World)
  : World :=
  match traded_symbols (state w) with
  | Shared =>
      {| DEFAULT_traded_symbols := f (DEFAULT_traded_symbols w);
         DEFAULT_metrics := DEFAULT_metrics w;
         state := state w;
         STATE_FILE := STATE_FILE w |}
  | Owned t =>
      set_state
        {| trading_day := trading_day (state w);
           start_equity := start_equity (state w);
           trades_executed := trades_executed (state w);
           trading_halted := trading_halted (state w);
           traded_symbols := Owned (f t);
           metrics := metrics (state w) |} w
  end.

(** [save()] on a disk that takes the write: [json.dump(self.state, f)]
    writes every key with the value it refers to. *)
Definition save (w : World) : World :=
  {| DEFAULT_traded_symbols := DEFAULT_traded_symbols w;
     DEFAULT_metrics := DEFAULT_metrics w;
     state := state w;
     STATE_FILE :=
       Json {| st_trading_day := Some (trading_day (state w));
               st_start_equity := Some (start_equity (state w));
               st_trades_executed := Some (trades_executed (state w));
               st_trading_halted := Some (trading_halted (state w));
               st_traded_symbols := Some (get_traded_symbols w);
               st_metrics := Some (get_metrics w) |} |}.

(** The loop of [load]: [for key in DEFAULT_STATE: if key in stored:
    self.state[key] = stored[key]]. *)
Definition merge_stored (s : Stored) (st : StateDict) : StateDict :=
  {| trading_day := default (trading_day st) (st_trading_day s);
     start_equity := default (start_equity st) (st_start_equity s);
     trades_executed := default (trades_executed st) (st_trades_executed s);
     trading_halted := default (trading_halted st) (st_trading_halted s);
     traded_symbols :=
       match st_traded_symbols s with
       | Some t => Owned t
       | None => traded_symbols st
       end;
     metrics :=
       match st_metrics s with
       | Some m => Owned m
       | None => metrics st
       end |}.

(** [json.load] on the opened state file. *)
Definition read_state_file (w : World) : Py.result Stored :=
  match STATE_FILE w with
  | Json stored => Py.Return stored
  | Unparsable => Py.Raise Py.ValueError
  | Unreadable | NoFile => Py.Raise Py.OSError
  end.

(** [load()]: the [try] covers reading and merging, the final [save] is
    outside it (and succeeds, on this disk). *)
Definition load : Py.M World unit :=
  (fun w =>
     match STATE_FILE w with
     | NoFile => Py.ret tt w
     | _ =>
         Py.try_except
           (let* stored := (fun w => (read_state_file w, w)) in
            Py.modify (fun w => set_state (merge_stored stored (state w)) w))
           (Py.modify (set_state DEFAULT_STATE_copy))
           w
     end) ;;
  Py.modify save.

(** The module right after import, before any [BotState] exists, with
    [disk] as the state file. *)
Definition imported (disk : File) : World :=
  {| DEFAULT_traded_symbols := ∅;
     DEFAULT_metrics := metrics_literal;
     state := DEFAULT_STATE_copy;
     STATE_FILE := disk |}.

(** [BotState.__init__]: [self.state = DEFAULT_STATE.copy()], then
    [self.load()]. *)
Definition BotState_init : Py.M World unit :=
  Py.modify (set_state DEFAULT_STATE_copy) ;; load.

(** [BotState()] in a freshly imported module. *)
Definition BotState_new (disk : File) : Py.result unit * World :=
  BotState_init (imported disk).

(** [reset_for_day(today, start_equity)]; [today] is [today.isoformat()]. *)
Definition reset_for_day (today : string) (equity : Q) (w : World) : World :=
  if bool_decide (trading_day (state w) = Some today) then w
  else
    save (set_state
            {| trading_day := Some today;
               start_equity := Some equity;
               trades_executed := 0;
               trading_halted := false;
               traded_symbols := Owned ∅;
               metrics := Owned (DEFAULT_metrics w) |} w).

Definition with_trades_executed (n : Z) (st : StateDict) : StateDict :=
  {| trading_day := trading_day st; start_equity := start_equity st;
     trades_executed := n; trading_halted := trading_halted st;
     traded_symbols := traded_symbols st; metrics := metrics st |}.

Definition with_trading_halted (b : bool) (st : StateDict) : StateDict :=
  {| trading_day := trading_day st; start_equity := start_equity st;
     trades_executed := trades_executed st; trading_halted := b;
     traded_symbols := traded_symbols st; metrics := metrics st |}.

Definition record_trade (w : World) : World :=
  save (set_state
          (with_trades_executed (trades_executed (state w) + 1) (state w)) w).

Definition record_symbol_trade (symbol : string) (w : World) : World :=
  save (mutate_traded_symbols (fun t => <[symbol := EBool true]> t) w).

Definition has_traded_symbol (symbol : string) (w : World) : bool :=
  match get_traded_symbols w !! symbol with
  | Some e => entry_truthy e
  | None => false
  end.

Definition halt_trading (w : World) : World :=
  save (set_state (with_trading_halted true (state w)) w).

(** [trading_day_start()]; [midnight] gives the instant at which a day
    starts in the trading timezone, [None] for a text that is no date. *)
Definition trading_day_start (midnight : string -> option Z) (w : World)
  : Py.result (option Z) :=
  match trading_day (state w) with
  | None => Py.Return None
  | Some day =>
      if bool_decide (day = ""%string) then Py.Return None
      else match midnight day with
           | Some t => Py.Return (Some t)
           | None => Py.Raise Py.ValueError
           end
  end.

(** The body of [update_metrics] up to its first [save]. *)
Definition count_trade (symbol : string) (pnl_dollars : Q) (m : Metrics)
  : Metrics :=
  let win := Qle_bool 0 pnl_dollars in
  {| total_trades := total_trades m + 1;
     wins := if win then wins m + 1 else wins m;
     losses := if win then losses m else losses m + 1;
     gross_profit := if win then gross_profit m + pnl_dollars
                     else gross_profit m;
     gross_loss := if win then gross_loss m else gross_loss m + pnl_dollars;
     pnl_by_symbol :=
       <[symbol := default 0 (pnl_by_symbol m !! symbol) + pnl_dollars]>
         (pnl_by_symbol m);
     max_equity := max_equity m;
     max_drawdown := max_drawdown m |}.

(** [update_metrics(symbol, pnl_dollars, entry, exit)]; [now] is the clock
    read by [datetime.now(TIMEZONE)]. *)
Definition update_metrics
    (now : Z) (symbol : string) (pnl_dollars entry exit : Q) (w : World)
  : World :=
  let w := save (mutate_metrics (count_trade symbol pnl_dollars) w) in
  if Py.Qlt_bool pnl_dollars 0
  then save (mutate_traded_symbols
               (fun t =>
                  <[symbol := EDict {[ "last_loss_at"%string := Iso now ]}]> t)
               w)
  else w.

(** The mutation [update_drawdown] applies to the metrics dict. *)
Definition track_drawdown (equity : Q) (m : Metrics) : Metrics :=
  let peak :=
    match max_equity m with
    | None => equity
    | Some e => if Py.Qlt_bool e equity then equity else e
    end in
  {| total_trades := total_trades m; wins := wins m; losses := losses m;
     gross_profit := gross_profit m; gross_loss := gross_loss m;
     pnl_by_symbol := pnl_by_symbol m;
     max_equity := Some peak;
     max_drawdown :=
       if Py.truthy peak
       then Py.min (max_drawdown m) ((equity - peak) / peak)
       else max_drawdown m |}.

(** [update_drawdown(equity)]. *)
Definition update_drawdown (equity : Q) (w : World) : World :=
  save (mutate_metrics (track_drawdown equity) w).

(** [symbol_in_cooldown(symbol, cooldown_minutes)]; [now] is the clock, in
    microseconds.  For an entry [True] the test ["last_loss_at" not in
    info] raises [TypeError]. *)
Definition symbol_in_cooldown
    (now : Z) (symbol : string) (cooldown_minutes : Z) (w : World)
  : Py.result bool :=
  match get_traded_symbols w !! symbol with
  | None => Py.Return false
  | Some (EBool false) => Py.Return false
  | Some (EBool true) => Py.Raise Py.TypeError
  | Some (EDict d) =>
      match d !! "last_loss_at"%string with
      | None => Py.Return false
      | Some text =>
          match fromisoformat text with
          | None => Py.Return false
          | Some ts =>
              let total_seconds := inject_Z (now - ts) / 1000000 in
              Py.Return
                (Py.Qlt_bool total_seconds (inject_Z (cooldown_minutes * 60)))
          end
      end
  end.

End State.

(** ** bot/state.py: start-up over a disk that may refuse the write *)

Module Persistence.

(** A value as [json.load] returns it and [json.dump] writes it. *)
#[warnings="-register-all"]
Inductive json : Type :=
  | JNull
  | JBool (b : bool)
  | JInt (n : Z)
  | JFloat (x : Q)
  | JStr (text : string)
  | JList (items : list json)
  | JDict (items : gmap string json).

(** What [self.state] holds under a key: the very object that
    [DEFAULT_STATE] holds under that key ([DEFAULT_STATE.copy()] is a
    shallow copy), or a value read from the state file. *)
Inductive object : Type :=
  | Default (key : string)
  | Loaded (value : json).

(** The state file as [load] finds it: no file; a file on which [open], the
    decoding or [json.load] raises; or a file with the value [json.load]
    returns. *)
Inductive Content : Type :=
  | Missing
  | Failing (e : Py.exn)
  | Parsed (stored : json).

(** The disk: the state file, and whether [open(STATE_FILE, "w")]
    succeeds. *)
Record Disk : Type := {
  content : Content;
  writable : bool
}.

(** The module dict [DEFAULT_STATE] with its keys in the order of the module
    text, the dict [self.state], and the disk. *)
Record Process : Type := {
  DEFAULT_STATE : list (string * json);
  state : gmap string object;
  disk : Disk
}.

(** [DEFAULT_STATE] as the module text defines it. *)
Definition DEFAULT_STATE_literal : list (string * json) :=
  [ ("trading_day", JNull);
    ("start_equity", JNull);
    ("trades_executed", JInt 0);
    ("trading_halted", JBool false);
    ("traded_symbols", JDict ∅);
    ("metrics",
     JDict (list_to_map
              [ ("total_trades", JInt 0);
                ("wins", JInt 0);
                ("losses", JInt 0);
                ("gross_profit", JFloat 0);
                ("gross_loss", JFloat 0);
                ("pnl_by_symbol", JDict ∅);
                ("max_equity", JNull);
                ("max_drawdown", JFloat 0) ]%string)) ]%string.

Definition with_state (st : gmap string object) (p : Process) : Process :=
  {| DEFAULT_STATE := DEFAULT_STATE p; state := st; disk := disk p |}.

(** [DEFAULT_STATE.copy()]: every key with the object [DEFAULT_STATE] holds
    under it. *)
Definition DEFAULT_STATE_copy (p : Process) : gmap string object :=
  list_to_map ((fun entry => (entry.1, Default entry.1)) <$> DEFAULT_STATE p).

(** The value an object of [self.state] has. *)
Definition value (p : Process) (o : object) : option json :=
  match o with
  | Default key => (list_to_map (DEFAULT_STATE p) : gmap string json) !! key
  | Loaded v => Some v
  end.

(** What [json.dump(self.state, f)] writes. *)
Definition dump (p : Process) : json := JDict (omap (value p) (state p)).

(** [save()]: [open(STATE_FILE, "w")] raises on a disk that refuses the
    write, and then the file stays as it was. *)
Definition save : Py.M Process unit :=
  fun p =>
    if writable (disk p)
    then (Py.Return tt,
          {| DEFAULT_STATE := DEFAULT_STATE p;
             state := state p;
             disk := {| content := Parsed (dump p); writable := true |} |})
    else (Py.Raise Py.OSError, p).

(** [key in text] for two strings. *)
Definition contains_text (key text : string) : bool :=
  bool_decide (is_Some (String.index 0 key text)).

(** [key in stored] followed, where it holds, by [stored[key]]: [Some] of
    the value under a key of a dict, [None] for an absent key.  A number,
    a boolean and [None] are no containers; a list or a text that contains
    the key cannot be subscripted by it. *)
Definition item (stored : json) (key : string) : Py.result (option json) :=
  match stored with
  | JDict items => Py.Return (items !! key)
  | JList items =>
      if existsb (fun j => match j with
                           | JStr text => bool_decide (text = key)
                           | _ => false
                           end) items
      then Py.Raise Py.TypeError
      else Py.Return None
  | JStr text =>
      if contains_text key text then Py.Raise Py.TypeError
      else Py.Return None
  | JNull | JBool _ | JInt _ | JFloat _ => Py.Raise Py.TypeError
  end.

(** [if key in stored: self.state[key] = stored[key]]. *)
Definition merge_key (stored : json) (key : string) : Py.M Process unit :=
  let* found := (fun p => (item stored key, p)) in
  match found with
  | Some v => Py.modify (fun p => with_state (<[key := Loaded v]> (state p)) p)
  | None => Py.ret tt
  end.

(** [json.load(f)] on the opened state file. *)
Definition read_state_file : Py.M Process json :=
  fun p =>
    (match content (disk p) with
     | Parsed stored => Py.Return stored
     | Failing e => Py.Raise e
     | Missing => Py.Raise Py.OSError
     end, p).

(** The body of [load()] before its last statement: [if
    os.path.exists(STATE_FILE): try: ... except Exception: self.state =
    DEFAULT_STATE.copy()]. *)
Definition restore : Py.M Process unit :=
  fun p =>
    match content (disk p) with
    | Missing => Py.ret tt p
    | _ =>
        Py.try_except
          (let* stored := read_state_file in
           Py.for_each (DEFAULT_STATE p).*1 (merge_key stored))
          (Py.modify (fun p => with_state (DEFAULT_STATE_copy p) p))
          p
    end.

(** [load()]: the final [save()] is outside the [try]. *)
Definition load : Py.M Process unit := restore ;; save.

(** [BotState.__init__]. *)
Definition BotState_init : Py.M Process unit :=
  Py.modify (fun p => with_state (DEFAULT_STATE_copy p) p) ;; load.

(** [BotState()] in a freshly imported module. *)
Definition BotState_new (disk : Disk) : Py.result unit * Process :=
  BotState_init
    {| DEFAULT_STATE := DEFAULT_STATE_literal; state := ∅; disk := disk |}.

(** The keys of [DEFAULT_STATE]. *)
Definition keys : list string := DEFAULT_STATE_literal.*1.

End Persistence.

(** ** bot/state.py: the state file as [save()] writes it *)

Module Encoding.
Import State Persistence.

Section Encoding.
(** The text [isoformat()] gives for an instant. *)
Variable isoformat : Z -> string.

Definition of_text (t : iso_text) : json :=
  match t with
  | Iso instant => JStr (isoformat instant)
  | NotIso text => JStr text
  end.

Definition of_entry (e : ledger_entry) : json :=
  match e with
  | EBool b => JBool b
  | EDict d => JDict (of_text <$> d)
  end.

Definition of_ledger (t : gmap string ledger_entry) : json :=
  JDict (of_entry <$> t).

(** A value that may be [None]. *)
Definition of_option {A} (f : A -> json) (o : option A) : json :=
  match o with
  | Some a => f a
  | None => JNull
  end.

Definition of_metrics (m : Metrics) : json :=
  JDict (list_to_map
           [ ("total_trades", JInt (total_trades m));
             ("wins", JInt (wins m));
             ("losses", JInt (losses m));
             ("gross_profit", JFloat (gross_profit m));
             ("gross_loss", JFloat (gross_loss m));
             ("pnl_by_symbol", JDict (JFloat <$> pnl_by_symbol m));
             ("max_equity", of_option JFloat (max_equity m));
             ("max_drawdown", JFloat (max_drawdown m)) ]%string).

(** A dict with one more key, when there is a value for it. *)
Definition put (key : string) (v : option json) (d : gmap string json)
  : gmap string json :=
  match v with
  | Some v => <[key := v]> d
  | None => d
  end.

(** A state file that holds some of the keys of [DEFAULT_STATE], each with
    a value of the shape [save()] writes. *)
Definition of_stored (s : Stored) : json :=
  JDict (put "trading_day" (of_option JStr <$> st_trading_day s)
        (put "start_equity" (of_option JFloat <$> st_start_equity s)
        (put "trades_executed" (JInt <$> st_trades_executed s)
        (put "trading_halted" (JBool <$> st_trading_halted s)
        (put "traded_symbols" (of_ledger <$> st_traded_symbols s)
        (put "metrics" (of_metrics <$> st_metrics s) ∅)))))).

Definition of_file (f : File) : Content :=
  match f with
  | NoFile => Missing
  | Unreadable => Failing Py.OSError
  | Unparsable => Failing Py.ValueError
  | Json stored => Parsed (of_stored stored)
  end.

(** The dict-valued keys: the shared object of [DEFAULT_STATE], or an own
    object with the given content. *)
Definition of_slot {A} (key : string) (f : A -> json) (s : slot A) : object :=
  match s with
  | Shared => Default key
  | Owned a => Loaded (f a)
  end.

(** The dict [self.state] of a process holds, key by key, what the typed
    state [st] holds. *)
Definition represents (st : StateDict) (p : Process) : Prop :=
  (Persistence.state p !! "trading_day"%string) ≫= value p
  = Some (of_option JStr (trading_day st))
  /\ (Persistence.state p !! "start_equity"%string) ≫= value p
     = Some (of_option JFloat (start_equity st))
  /\ (Persistence.state p !! "trades_executed"%string) ≫= value p
     = Some (JInt (trades_executed st))
  /\ (Persistence.state p !! "trading_halted"%string) ≫= value p
     = Some (JBool (trading_halted st))
  /\ Persistence.state p !! "traded_symbols"%string
     = Some (of_slot "traded_symbols" of_ledger (traded_symbols st))
  /\ Persistence.state p !! "metrics"%string
     = Some (of_slot "metrics" of_metrics (metrics st)).

End Encoding.
End Encoding.

(** ** bot/execution.py *)

Module Execution.
Import Strategy.

(** A position as the gateway reports it; the numeric fields are the
    [float(...)] of the reported texts. *)
Record Position : Type := {
  pos_symbol : string;
  pos_qty : Q;
  pos_avg_entry_price : Q;
  pos_market_value : Q
}.

(** An order as the gateway lists it; an absent text is [None]. *)
Record Order : Type := {
  o_symbol : string;
  o_side : string;
  o_filled_at : option Z;
  o_filled_avg_price : option Q;
  o_limit_price : option Q;
  o_stop_price : option Q
}.

(** A market order handed to [api.submit_order]. *)
Record Submission : Type := {
  sub_symbol : string;
  sub_qty : Z;
  sub_side : string
}.

(** The gateway during one tick: what each call answers, an exception
    included.  [api_submit_order] tells whether the gateway accepts. *)
Record Api : Type := {
  api_get_position : string -> Py.result Position;
  api_list_positions : Py.result (list Position);
  api_list_open_orders : Py.result (list Order);
  api_list_all_orders : option Z -> Py.result (list Order);
  api_submit_order : Submission -> Py.result unit;
  api_get_latest_quote : string -> Py.result (Q * Q)
}.

(** [get_position(api, symbol)]. *)
Definition get_position (api : Api) (symbol : string) : option Position :=
  match api_get_position api symbol with
  | Py.Return p => Some p
  | Py.Raise _ => None
  end.

(** [api.submit_order(...)].  The store of this module's effects is the
    list of orders the gateway accepted, oldest first. *)
Definition submit (api : Api) (o : Submission)
  : Py.M (list Submission) unit :=
  fun accepted =>
    match api_submit_order api o with
    | Py.Return _ => (Py.Return tt, accepted ++ [o])
    | Py.Raise e => (Py.Raise e, accepted)
    end.

Definition submit_market_buy (api : Api) (symbol : string) (qty : Z)
  : Py.M (list Submission) unit :=
  submit api {| sub_symbol := symbol; sub_qty := qty; sub_side := "buy" |}.

Definition submit_market_sell (api : Api) (symbol : string) (qty : Z)
  : Py.M (list Submission) unit :=
  submit api {| sub_symbol := symbol; sub_qty := qty; sub_side := "sell" |}.

(** [has_open_order(api, symbol)]. *)
Definition has_open_order (api : Api) (symbol : string) : bool :=
  match api_list_open_orders api with
  | Py.Return orders =>
      existsb (fun o => bool_decide (o_symbol o = symbol)) orders
  | Py.Raise _ => false
  end.

(** [abs(int(float(pos.qty)))]. *)
Definition whole_shares (p : Position) : Z := Z.abs (Py.int (pos_qty p)).

(** [close_symbol(api, symbol, reason)]. *)
Definition close_symbol (api : Api) (symbol : string)
  : Py.M (list Submission) unit :=
  match get_position api symbol with
  | Some pos => submit_market_sell api symbol (whole_shares pos)
  | None => Py.ret tt
  end.

(** [close_all_positions(api, reason)]. *)
Definition close_all_positions (api : Api) : Py.M (list Submission) unit :=
  match api_list_positions api with
  | Py.Raise _ => Py.ret tt
  | Py.Return positions =>
      Py.for_each positions (fun pos => close_symbol api (pos_symbol pos))
  end.

(** The price of a listed order: the first present one of the average fill,
    limit and stop prices. *)
Definition order_price (o : Order) : option Q :=
  match o_filled_avg_price o with
  | Some p => Some p
  | None =>
      match o_limit_price o with
      | Some p => Some p
      | None => o_stop_price o
      end
  end.

(** The loop of [latest_buy_fill] over the listed orders. *)
Fixpoint first_buy_fill (symbol : string) (after : option Z)
    (orders : list Order) : option Q * option Z :=
  match orders with
  | [] => (None, None)
  | order :: rest =>
      if negb (bool_decide (o_symbol order = symbol))
         || negb (bool_decide (o_side order = "buy"%string))
      then first_buy_fill symbol after rest
      else
        match o_filled_at order with
        | None => first_buy_fill symbol after rest
        | Some filled_at =>
            if match after with
               | Some a => (filled_at <? a)%Z
               | None => false
               end
            then first_buy_fill symbol after rest
            else (order_price order, Some filled_at)
        end
  end.

(** [latest_buy_fill(api, symbol, day_start)]. *)
Definition latest_buy_fill (api : Api) (symbol : string)
    (day_start : option Z) : option Q * option Z :=
  match api_list_all_orders api day_start with
  | Py.Raise _ => (None, None)
  | Py.Return orders => first_buy_fill symbol day_start orders
  end.

(** [float(recent["high"].max())] of a frame with first row [b]. *)
Definition highest (b : Bar) (rest : list Bar) : Q :=
  fold_left (fun acc r => Py.max acc (b_high r)) rest (b_high b).

(** The last value of [bars["close"].ewm(span=span, adjust=False).mean()]. *)
Definition last_ema (span : Z) (bars : list Bar) : option Q :=
  iloc_back (ewm_mean span (map b_close bars)) 1.

Definition exit_info : Type := (string * Q * Q * Z)%type.

(** [manage_open_position(api, symbol, bars, day_start)]. *)
Definition manage_open_position
    (api : Api) (symbol : string) (bars : list Bar) (day_start : option Z)
  : Py.M (list Submission) (option exit_info) :=
  match get_position api symbol with
  | None => Py.ret None
  | Some position =>
    let entry_price := pos_avg_entry_price position in
    match iloc_back bars 1, bars with
    | Some last_bar, first_bar :: _ =>
      let last_price := b_close last_bar in
      let '(filled_price, filled_at) :=
        latest_buy_fill api symbol day_start in
      let anchor_price := Py.or_else filled_price entry_price in
      let entry_time := default (b_time first_bar) filled_at in
      let recent := List.filter (fun r => (entry_time <=? b_time r)%Z) bars in
      let recent := match recent with [] => bars | _ => recent end in
      let highest_since_entry :=
        match recent with
        | r :: rs => highest r rs
        | [] => 0 (* not reached: [bars] has a row *)
        end in
      let stop_price := Risk.calculate_stop_price anchor_price in
      let trailing_price :=
        Risk.trailing_stop_price anchor_price highest_since_entry in
      let qty := whole_shares position in
      if Qle_bool last_price stop_price
      then submit_market_sell api symbol qty ;;
           Py.ret (Some ("stop"%string, anchor_price, last_price, qty))
      else if match trailing_price with
              | Some t => Py.truthy t && Qle_bool last_price t
              | None => false
              end
      then submit_market_sell api symbol qty ;;
           Py.ret (Some ("trail"%string, anchor_price, last_price, qty))
      else
        match last_ema 21 bars, last_ema 50 bars with
        | Some e21, Some e50 =>
          if Py.Qlt_bool e21 e50
          then submit_market_sell api symbol qty ;;
               Py.ret
                 (Some ("trend_flip"%string, anchor_price, last_price, qty))
          else Py.ret None
        | _, _ => Py.raise Py.IndexError
        end
    | _, _ => Py.raise Py.IndexError
    end
  end.

(** The anchor price [manage_open_position] derives for a position. *)
Definition anchor_price (api : Api) (symbol : string) (day_start : option Z)
    (position : Position) : Q :=
  Py.or_else (fst (latest_buy_fill api symbol day_start))
             (pos_avg_entry_price position).

(** The running high [manage_open_position] derives from the bars. *)
Definition highest_since_entry (api : Api) (symbol : string)
    (day_start : option Z) (bars : list Bar) : Q :=
  match bars with
  | [] => 0
  | first_bar :: _ =>
      let entry_time :=
        default (b_time first_bar) (snd (latest_buy_fill api symbol day_start)) in
      let recent := List.filter (fun r => (entry_time <=? b_time r)%Z) bars in
      match match recent with [] => bars | _ => recent end with
      | r :: rs => highest r rs
      | [] => 0
      end
  end.

(** The market sell that liquidates a position. *)
Definition liquidation (symbol : string) (position : Position) : Submission :=
  {| sub_symbol := symbol; sub_qty := whole_shares position;
     sub_side := "sell" |}.

End Execution.

(** ** bot/data.py: the helpers the loop calls *)

Module Data.
Import Config Strategy.

(** [is_market_open(api)], from what [api.get_clock()] answers. *)
Definition is_market_open (clock_is_open : Py.result bool) : bool :=
  match clock_is_open with
  | Py.Return b => b
  | Py.Raise _ => false
  end.

(** [within_trading_window(now)], from [now.time()]. *)
Definition within_trading_window (time_of_day : Z) : bool :=
  (TRADING_WINDOW_START <=? time_of_day)%Z
  && (time_of_day <=? TRADING_WINDOW_END)%Z.

(** [fetch_recent_bars(api, symbol, limit)], from what [api.get_bars]
    answers for the symbol. *)
Definition fetch_recent_bars (get_bars : string -> Py.result (list Bar))
    (symbol : string) : option (list Bar) :=
  match get_bars symbol with
  | Py.Return [] => None
  | Py.Return bars => Some bars
  | Py.Raise _ => None
  end.

(** [latest_spread_ok(api, symbol)]. *)
Definition latest_spread_ok (env : Env) (api : Execution.Api)
    (symbol : string) : bool :=
  match Execution.api_get_latest_quote api symbol with
  | Py.Raise _ => false
  | Py.Return (bid, ask) =>
      if Qle_bool bid 0 || Qle_bool ask 0 || Py.Qlt_bool ask bid then false
      else
        let spread := ask - bid in
        let pct := spread / bid in
        Qle_bool spread (MAX_SPREAD_ABS env) && Qle_bool pct (MAX_SPREAD_PCT env)
  end.

(** [bar_meets_dollar_volume(bars)]. *)
Definition bar_meets_dollar_volume (env : Env) (bars : list Bar) : bool :=
  match iloc_back bars 1 with
  | None => false
  | Some last =>
      Qle_bool (MIN_BAR_DOLLAR_VOL env) (b_close last * b_volume last)
  end.

(** [benchmark_performance(api)]: the values of the returned dict, in
    insertion order. *)
Definition benchmark_performance (get_bars : string -> Py.result (list Bar))
  : list Q :=
  omap (fun sym =>
          match fetch_recent_bars get_bars sym with
          | Some (first :: rest) =>
              let day_open := b_open first in
              let last := b_close (List.last rest first) in
              Some (if Py.Qlt_bool 0 day_open
                    then (last - day_open) / day_open else 0)
          | _ => None
          end)
       BENCHMARKS.

(** One element of the list [build_trending_universe] returns. *)
Record Candidate : Type := {
  c_symbol : string;
  c_score : Q;
  c_bars : list Bar;
  c_ret_day : Q;
  c_ret_1h : option Q;
  c_ret_3h : option Q;
  c_vol_ratio : Q
}.

End Data.

(** ** bot/data.py: ranking the universe *)

Module Ranking.
Import Config Strategy.

Definition UNIVERSE_SCAN_LIMIT : nat := 40.
Definition VOLUME_ACCEL_THRESHOLD : Q := 15 # 10.
Definition TOP_TRENDING_LIMIT : nat := 20.

(** [_returns_from_bars(bars, bars_back)]. *)
Definition _returns_from_bars (bars : list Bar) (bars_back : nat)
  : Py.result (option Q) :=
  if (length bars <? bars_back + 1)%nat then Py.Return None
  else
    match iloc_back bars 1, iloc_back bars (bars_back + 1) with
    | Some last, Some back =>
        let now := b_close last in
        let past := b_close back in
        if Qle_bool past 0 then Py.Return None
        else Py.Return (Some ((now - past) / past))
    | _, _ => Py.Raise Py.IndexError
    end.

(** The dict [compute_intraday_performance] returns. *)
Record Performance : Type := {
  ret_1h : option Q;
  ret_3h : option Q;
  ret_day : option Q
}.

(** [compute_intraday_performance(bars)]; [bars["open"].iloc[0]] raises on
    a frame without rows. *)
Definition compute_intraday_performance (bars : list Bar)
  : Py.result Performance :=
  match _returns_from_bars bars 12, _returns_from_bars bars 36 with
  | Py.Return r1, Py.Return r3 =>
      match bars, iloc_back bars 1 with
      | first :: _, Some last_bar =>
          let day_open := b_open first in
          let last := b_close last_bar in
          Py.Return
            {| ret_1h := r1; ret_3h := r3;
               ret_day := if Py.Qlt_bool 0 day_open
                          then Some ((last - day_open) / day_open)
                          else None |}
      | _, _ => Py.Raise Py.IndexError
      end
  | Py.Raise e, _ => Py.Raise e
  | _, Py.Raise e => Py.Raise e
  end.

(** [series.iloc[-21:-1]] of a series of at least 21 values: the 20 values
    before the last one. *)
Definition previous_20 {A} (l : list A) : list A :=
  take 20 (drop (length l - 21) l).

(** [series.mean()]. *)
Definition mean (xs : list Q) : Q :=
  fold_left Qplus xs 0 / inject_Z (Z.of_nat (length xs)).

(** [compute_volume_ratio(bars)]. *)
Definition compute_volume_ratio (bars : list Bar) : Py.result (option Q) :=
  if (length bars <? 21)%nat then Py.Return None
  else
    match iloc_back bars 1 with
    | Some last =>
        let current_vol := b_volume last in
        let avg_vol := mean (previous_20 (map b_volume bars)) in
        if Qle_bool avg_vol 0 then Py.Return None
        else Py.Return (Some (current_vol / avg_vol))
    | None => Py.Raise Py.IndexError
    end.

(** [compute_trend(bars)]. *)
Definition compute_trend (bars : list Bar) : Py.result (bool * Q * Q) :=
  let closes := map b_close bars in
  match iloc_back (ewm_mean 21 closes) 1, iloc_back (ewm_mean 50 closes) 1,
        iloc_back bars 1 with
  | Some e21, Some e50, Some last =>
      Py.Return
        (Py.Qlt_bool e50 e21 && Py.Qlt_bool e21 (b_close last), e21, e50)
  | _, _, _ => Py.Raise Py.IndexError
  end.

(** An asset as [api.list_assets] lists it. *)
Record Asset : Type := {
  a_tradable : bool;
  a_shortable : bool;
  a_easy_to_borrow : bool;
  a_symbol : option string
}.

(** The tests an asset passes before its symbol is appended. *)
Definition eligible (asset : Asset) : option string :=
  if negb (a_tradable asset) || negb (a_shortable asset)
     || negb (a_easy_to_borrow asset)
  then None
  else
    match a_symbol asset with
    | None => None
    | Some symbol =>
        if (4 <? String.length symbol)%nat then None else Some symbol
    end.

(** The first loop of [build_trending_universe]: [candidates] grows until it
    holds [UNIVERSE_SCAN_LIMIT] symbols, then the loop breaks. *)
Fixpoint scan_assets (assets : list Asset) (candidates : list string)
  : list string :=
  match assets with
  | [] => candidates
  | asset :: rest =>
      if (UNIVERSE_SCAN_LIMIT <=? length candidates)%nat then candidates
      else
        match eligible asset with
        | Some symbol => scan_assets rest (candidates ++ [symbol])
        | None => scan_assets rest candidates
        end
  end.

(** The score of a symbol that passed the trend and volume tests. *)
Definition score (perf : Performance) (vol_ratio ema21 ema50 : Q) : Q :=
  let r1 := Py.or_else (ret_1h perf) 0 in
  let r3 := Py.or_else (ret_3h perf) 0 in
  let rd := Py.or_else (ret_day perf) 0 in
  let trend_slope := if Py.truthy ema50 then ema21 / ema50 - 1 else 0 in
  (r1 * 100) * (4 # 10) + (r3 * 100) * (35 # 100) + (rd * 100) * (25 # 100)
  + (vol_ratio - 1) * 10 + trend_slope * 200.

(** The body of [for sym in candidates]: [None] where the source
    [continue]s, else the dict appended to [ranked] (its [ema21] and
    [ema50] entries, which no caller reads, are not carried). *)
Definition rank_symbol (get_bars : string -> Py.result (list Bar))
    (sym : string) : Py.result (option Data.Candidate) :=
  match Data.fetch_recent_bars get_bars sym with
  | None => Py.Return None
  | Some bars =>
      if (length bars <? 60)%nat then Py.Return None
      else
        match compute_intraday_performance bars with
        | Py.Raise e => Py.Raise e
        | Py.Return perf =>
          match compute_volume_ratio bars with
          | Py.Raise e => Py.Raise e
          | Py.Return vol_ratio =>
            match compute_trend bars with
            | Py.Raise e => Py.Raise e
            | Py.Return (strong_trend, ema21, ema50) =>
              match vol_ratio with
              | None => Py.Return None
              | Some vr =>
                if negb strong_trend || Py.Qlt_bool vr VOLUME_ACCEL_THRESHOLD
                then Py.Return None
                else
                  Py.Return
                    (Some {| Data.c_symbol := sym;
                             Data.c_score := score perf vr ema21 ema50;
                             Data.c_bars := bars;
                             Data.c_ret_day := Py.or_else (ret_day perf) 0;
                             Data.c_ret_1h := ret_1h perf;
                             Data.c_ret_3h := ret_3h perf;
                             Data.c_vol_ratio := vr |})
              end
            end
          end
        end
  end.

(** The second loop of [build_trending_universe]. *)
Fixpoint rank_symbols (get_bars : string -> Py.result (list Bar))
    (candidates : list string) : Py.result (list Data.Candidate) :=
  match candidates with
  | [] => Py.Return []
  | sym :: rest =>
      match rank_symbol get_bars sym with
      | Py.Raise e => Py.Raise e
      | Py.Return ranked =>
          match rank_symbols get_bars rest with
          | Py.Raise e => Py.Raise e
          | Py.Return more =>
              Py.Return (match ranked with
                         | Some c => c :: more
                         | None => more
                         end)
          end
      end
  end.

(** [ranked.sort(key=lambda x: x["score"], reverse=True)]: a stable sort by
    falling score; an element goes before the first one whose score is not
    above its own. *)
Fixpoint insert_by_score (c : Data.Candidate) (sorted : list Data.Candidate)
  : list Data.Candidate :=
  match sorted with
  | [] => [c]
  | d :: rest =>
      if Py.Qlt_bool (Data.c_score c) (Data.c_score d)
      then d :: insert_by_score c rest
      else c :: d :: rest
  end.

Definition sort_by_score (ranked : list Data.Candidate)
  : list Data.Candidate :=
  fold_right insert_by_score [] ranked.

(** [build_trending_universe(api)], from what [api.list_assets] and
    [api.get_bars] answer. *)
Definition build_trending_universe
    (list_assets : Py.result (list Asset))
    (get_bars : string -> Py.result (list Bar))
  : Py.result (list Data.Candidate) :=
  match list_assets with
  | Py.Raise _ => Py.Return []
  | Py.Return assets =>
      match rank_symbols get_bars (scan_assets assets []) with
      | Py.Raise e => Py.Raise e
      | Py.Return ranked =>
          Py.Return (take TOP_TRENDING_LIMIT (sort_by_score ranked))
      end
  end.

End Ranking.

(** ** bot/main.py: the trading loop *)

Module Main.
Import Config Strategy.

(** What the world answers during one pass of the [while] loop.  The clock
    is read once per pass; [get_bars symbol limit] is the frame of
    [api.get_bars(symbol, TIMEFRAME, limit=limit)]. *)
Record Tick : Type := {
  now : Z;
  today : string;
  time_of_day : Z;
  midnight : string -> option Z;
  api : Execution.Api;
  account_equity : Py.result Q;
  clock_is_open : Py.result bool;
  get_bars : string -> Z -> Py.result (list Bar);
  list_assets : Py.result (list Ranking.Asset)
}.

(** The store of [trading_loop]: the state object with the module's
    globals and the disk, the orders the gateway accepted, and the local
    variable [qty], which is unbound ([None]) until an assignment binds
    it. *)
Record Loop : Type := {
  world : State.World;
  accepted : list Execution.Submission;
  qty : option Z
}.

Definition on_world (f : State.World -> State.World) : Py.M Loop unit :=
  Py.modify (fun s =>
    {| world := f (world s); accepted := accepted s; qty := qty s |}).

Definition bind_qty (q : Z) : Py.M Loop unit :=
  Py.modify (fun s =>
    {| world := world s; accepted := accepted s; qty := Some q |}).

(** Reading the local [qty]. *)
Definition read_qty : Py.M Loop Z :=
  fun s =>
    match qty s with
    | Some q => (Py.Return q, s)
    | None => (Py.Raise Py.UnboundLocalError, s)
    end.

(** A call into [bot/execution.py]. *)
Definition gateway {A} (m : Py.M (list Execution.Submission) A)
  : Py.M Loop A :=
  fun s =>
    let '(r, acc) := m (accepted s) in
    (r, {| world := world s; accepted := acc; qty := qty s |}).

(** A method of the state object that can raise. *)
Definition on_state_object {A} (m : Py.M State.World A) : Py.M Loop A :=
  fun s =>
    let '(r, w) := m (world s) in
    (r, {| world := w; accepted := accepted s; qty := qty s |}).

(** A method of the state object that returns a value. *)
Definition ask {A} (f : State.World -> Py.result A) : Py.M Loop A :=
  fun s => (f (world s), s).

(** A call into [bot/data.py] or [bot/strategy.py], which write nothing the
    loop reads. *)
Definition call {A} (r : Py.result A) : Py.M Loop A :=
  fun s => (r, s).

Definition when (b : bool) (m : Py.M Loop unit) : Py.M Loop unit :=
  if b then m else Py.ret tt.

(** The body of [for candidate in universe]; every [continue] is a
    [Py.ret tt]. *)
Definition evaluate_candidate (env : Env) (t : Tick) (equity : Q)
    (benchmark_perf : Q) (candidate : Data.Candidate) : Py.M Loop unit :=
  let symbol := Data.c_symbol candidate in
  let* traded := ask (fun w => Py.Return (State.has_traded_symbol symbol w)) in
  if traded then Py.ret tt
  else if bool_decide (is_Some (Execution.get_position (api t) symbol))
  then Py.ret tt
  else
    let* cooling :=
      ask (State.symbol_in_cooldown (now t) symbol SYMBOL_COOLDOWN_MIN) in
    if cooling then Py.ret tt
    else
      let bars := Data.c_bars candidate in
      let metrics : gmap string (option Q) :=
        <[ "ret_day"%string := Some (Data.c_ret_day candidate) ]>
        (<[ "ret_1h"%string := Data.c_ret_1h candidate ]>
        (<[ "ret_3h"%string := Data.c_ret_3h candidate ]> ∅)) in
      let* verdict :=
        ask (fun _ =>
               check_entry_signal (Some bars) benchmark_perf metrics
                 (Some (Data.c_vol_ratio candidate))) in
      match verdict with
      | (true, Some entry_price, reason) =>
        if negb (Data.bar_meets_dollar_volume env bars) then Py.ret tt
        else if negb (Data.latest_spread_ok env (api t) symbol) then Py.ret tt
        else if Execution.has_open_order (api t) symbol then Py.ret tt
        else
          let positions :=
            match Execution.api_list_positions (api t) with
            | Py.Return ps => ps
            | Py.Raise _ => []
            end in
          let current_exposure :=
            fold_left Qplus (map Execution.pos_market_value positions) 0 in
          let* stale_qty := read_qty in
          let prospective_value := inject_Z stale_qty * entry_price in
          if Py.Qlt_bool (equity * MAX_TOTAL_EXPOSURE_PCT env)
                         (current_exposure + prospective_value)
          then Py.ret tt
          else
            let size := Risk.calculate_position_size equity entry_price false in
            bind_qty size ;;
            if (size <=? 0)%Z then Py.ret tt
            else
              Py.try_except
                (gateway (Execution.submit_market_buy (api t) symbol size) ;;
                 on_world State.record_trade ;;
                 on_world (State.record_symbol_trade symbol))
                (Py.ret tt)
      | _ => Py.ret tt
      end.

(** The body of [for pos in positions]. *)
Definition manage_position (t : Tick) (day_start : option Z)
    (pos : Execution.Position) : Py.M Loop unit :=
  let symbol := Execution.pos_symbol pos in
  match Data.fetch_recent_bars (fun sym => get_bars t sym 150) symbol with
  | None => Py.ret tt
  | Some bars =>
      let* exit :=
        gateway (Execution.manage_open_position (api t) symbol bars day_start) in
      match exit with
      | Some (reason, entry_px, exit_px, q) =>
          bind_qty q ;;
          let pnl := (exit_px - entry_px) * inject_Z q in
          on_world (State.update_metrics (now t) symbol pnl entry_px exit_px)
      | None => Py.ret tt
      end
  end.

(** [max(benchmarks.values()) if benchmarks else 0.0]. *)
Definition best_benchmark (perfs : list Q) : Q :=
  match perfs with
  | [] => 0
  | p :: ps => fold_left Py.max ps p
  end.

(** The halt checks on the day's change of equity. *)
Definition check_limits (t : Tick) (equity : Q) : Py.M Loop unit :=
  let* s := Py.get in
  match State.start_equity (State.state (world s)) with
  | None => Py.ret tt
  | Some start =>
    if negb (Py.truthy start) then Py.ret tt
    else
      let daily_change := (equity - start) / start in
      when (Qle_bool daily_change (- INTRADAY_EQUITY_GUARD)
            && negb (State.trading_halted (State.state (world s))))
           (on_world State.halt_trading) ;;
      when (Qle_bool daily_change (- DAILY_LOSS_LIMIT))
           (let* s := Py.get in
            when (negb (State.trading_halted (State.state (world s))))
                 (on_world State.halt_trading) ;;
            gateway (Execution.close_all_positions (api t)))
  end.

(** One pass of the [while True] loop; [time.sleep] and the telemetry
    calls ([log_status], [display_dashboard], [SNAPSHOTS.update]) write
    nothing the loop reads and are left out. *)
Definition iteration (env : Env) (t : Tick) : Py.M Loop unit :=
  match account_equity t with
  | Py.Raise _ => Py.ret tt
  | Py.Return equity =>
    on_world (State.update_drawdown equity) ;;
    on_world (State.reset_for_day (today t) equity) ;;
    let* day_start := ask (State.trading_day_start (midnight t)) in
    check_limits t equity ;;
    if (TRADING_WINDOW_END <=? time_of_day t)%Z
    then gateway (Execution.close_all_positions (api t)) ;;
         on_world State.halt_trading
    else if negb (Data.is_market_open (clock_is_open t)) then Py.ret tt
    else if negb (Data.within_trading_window (time_of_day t)) then Py.ret tt
    else
      match Execution.api_list_positions (api t) with
      | Py.Raise _ => Py.ret tt
      | Py.Return positions =>
        Py.for_each positions (manage_position t day_start) ;;
        let* s := Py.get in
        if State.trading_halted (State.state (world s)) then Py.ret tt
        else
          let benchmark_perf :=
            best_benchmark
              (Data.benchmark_performance (fun sym => get_bars t sym 120)) in
          let* universe :=
            call (Ranking.build_trending_universe
                    (list_assets t) (fun sym => get_bars t sym 120)) in
          Py.for_each universe
            (evaluate_candidate env t equity benchmark_perf)
      end
  end.

(** [trading_loop()] over the first passes of its loop: the state object is
    built first, no local is bound, and a raised exception ends the
    loop. *)
Definition trading_loop (env : Env) (disk : State.File) (ticks : list Tick)
  : Py.result unit * Loop :=
  (on_state_object State.BotState_init ;; Py.for_each ticks (iteration env))
    {| world := State.imported disk; accepted := []; qty := None |}.

End Main.

(** ** Sample inputs *)

Module Scenario.
Import Config Strategy Execution.

(** 52 bars rising by one per bar from 100 to 151. *)
Definition rising_bar (i : Z) : Bar :=
  {| b_time := i;
     b_open := inject_Z (100 + i);
     b_high := inject_Z (100 + i) + (1 # 2);
     b_low := inject_Z (100 + i) - 10;
     b_close := inject_Z (100 + i);
     b_volume := 20000 |}.

Definition rising : list Bar :=
  map (fun n => rising_bar (Z.of_nat n)) (seq 0 52).

(** 52 bars falling by one per bar from 151 to 100. *)
Definition falling_bar (i : Z) : Bar :=
  {| b_time := i;
     b_open := inject_Z (151 - i);
     b_high := inject_Z (151 - i) + (1 # 2);
     b_low := inject_Z (151 - i) - (1 # 2);
     b_close := inject_Z (151 - i);
     b_volume := 20000 |}.

Definition falling : list Bar :=
  map (fun n => falling_bar (Z.of_nat n)) (seq 0 52).

(** A gateway without positions or orders that takes every order and
    quotes 158.99 to 159.00. *)
Definition flat_api : Api :=
  {| api_get_position := fun _ => Py.Raise Py.APIError;
     api_list_positions := Py.Return [];
     api_list_open_orders := Py.Return [];
     api_list_all_orders := fun _ => Py.Return [];
     api_submit_order := fun _ => Py.Return tt;
     api_get_latest_quote := fun _ => Py.Return (15899 # 100, 159) |}.

(** Ten shares of XYZ bought at 98 at the time of the last falling bar. *)
Definition xyz_position : Position :=
  {| pos_symbol := "XYZ"; pos_qty := 10; pos_avg_entry_price := 98;
     pos_market_value := 1000 |}.

Definition xyz_fill : Order :=
  {| o_symbol := "XYZ"; o_side := "buy"; o_filled_at := Some 51%Z;
     o_filled_avg_price := Some 98; o_limit_price := None;
     o_stop_price := None |}.

Definition holding_api : Api :=
  {| api_get_position :=
       fun symbol =>
         if bool_decide (symbol = "XYZ"%string) then Py.Return xyz_position
         else Py.Raise Py.APIError;
     api_list_positions := Py.Return [xyz_position];
     api_list_open_orders := Py.Return [];
     api_list_all_orders := fun _ => Py.Return [xyz_fill];
     api_submit_order := fun _ => Py.Return tt;
     api_get_latest_quote := fun _ => Py.Return (15099 # 100, 151) |}.

(** Sixty bars rising by one per bar from 100 to 159, the last with twice
    the volume of the others. *)
Definition surging_bar (i : Z) : Bar :=
  {| b_time := i;
     b_open := inject_Z (100 + i);
     b_high := inject_Z (100 + i) + (1 # 2);
     b_low := inject_Z (100 + i) - 10;
     b_close := inject_Z (100 + i);
     b_volume := if (i =? 59)%Z then 40000 else 20000 |}.

Definition surging : list Bar :=
  map (fun n => surging_bar (Z.of_nat n)) (seq 0 60).

(** The one asset the gateway of [first_pass] lists. *)
Definition up_asset : Ranking.Asset :=
  {| Ranking.a_tradable := true; Ranking.a_shortable := true;
     Ranking.a_easy_to_borrow := true; Ranking.a_symbol := Some "UP"%string |}.

(** A pass at ten in the morning of 2024-01-02 with the market open, an
    equity of 100000 and no position, over a gateway that lists the asset
    UP, answers the surging bars for it and the falling bars for every
    other symbol, the benchmarks included. *)
Definition first_pass : Main.Tick :=
  {| Main.now := 36000000000;
     Main.today := "2024-01-02";
     Main.time_of_day := dt_time 10 0;
     Main.midnight := fun _ => Some 0%Z;
     Main.api := flat_api;
     Main.account_equity := Py.Return 100000;
     Main.clock_is_open := Py.Return true;
     Main.get_bars :=
       fun symbol _ =>
         if bool_decide (symbol = "UP"%string) then Py.Return surging
         else Py.Return falling;
     Main.list_assets := Py.Return [up_asset] |}.

(** The universe [build_trending_universe] returns during [first_pass]. *)
Definition first_universe : list Data.Candidate :=
  match Ranking.build_trending_universe
          (Main.list_assets first_pass)
          (fun sym => Main.get_bars first_pass sym 120) with
  | Py.Return ranked => ranked
  | Py.Raise _ => []
  end.

(** A pass before the trading window, with the market closed. *)
Definition idle_pass (day : string) (equity : Q) : Main.Tick :=
  {| Main.now := 0;
     Main.today := day;
     Main.time_of_day := dt_time 8 0;
     Main.midnight := fun _ => Some 0%Z;
     Main.api := flat_api;
     Main.account_equity := Py.Return equity;
     Main.clock_is_open := Py.Return false;
     Main.get_bars := fun _ _ => Py.Raise Py.APIError;
     Main.list_assets := Py.Return [] |}.

(** A state file written before the metrics were persisted: the day and
    its starting equity only. *)
Definition old_state_file : State.File :=
  State.Json
    {| State.st_trading_day := Some (Some "2024-01-02"%string);
       State.st_start_equity := Some (Some 100000);
       State.st_trades_executed := None;
       State.st_trading_halted := None;
       State.st_traded_symbols := None;
       State.st_metrics := None |}.

End Scenario.

(** ** bot/main.py: the figures of the dashboard *)

Module Dashboard.

(** A float that may be [float("inf")]. *)
Inductive extended : Type :=
  | Finite (q : Q)
  | Infinity.

(** The [metrics] snapshot [display_dashboard] publishes. *)
Record Figures : Type := {
  f_equity : Q;
  f_trades : Z;
  f_wins : Z;
  f_losses : Z;
  f_win_rate : Q;
  f_avg_win : Q;
  f_avg_loss : Q;
  f_expectancy : Q;
  f_profit_factor : extended;
  f_max_drawdown_pct : Q;
  f_pnl_by_symbol : gmap string Q
}.

(** Truthiness of an int. *)
Definition nonzero (n : Z) : bool := negb (n =? 0)%Z.

(** The figures [display_dashboard(state, equity)] computes from
    [state.state["metrics"]]; [/] between ints is the true division. *)
Definition figures (m : State.Metrics) (equity : Q) : Figures :=
  let total := State.total_trades m in
  let wins := State.wins m in
  let losses := State.losses m in
  let win_rate :=
    if nonzero total then inject_Z wins / inject_Z total * 100 else 0 in
  let avg_win :=
    if nonzero wins then State.gross_profit m / inject_Z wins else 0 in
  let avg_loss :=
    if nonzero losses then State.gross_loss m / inject_Z losses else 0 in
  let loss_rate :=
    if nonzero total then inject_Z losses / inject_Z total else 0 in
  let expectancy := (win_rate / 100) * avg_win + loss_rate * avg_loss in
  let profit_factor :=
    if Py.truthy (State.gross_loss m)
    then Finite (State.gross_profit m / Qabs (State.gross_loss m))
    else if nonzero wins then Infinity else Finite 0 in
  let dd_pct :=
    if Py.truthy (State.max_drawdown m) then State.max_drawdown m * 100
    else 0 in
  {| f_equity := equity; f_trades := total; f_wins := wins;
     f_losses := losses; f_win_rate := win_rate; f_avg_win := avg_win;
     f_avg_loss := avg_loss; f_expectancy := expectancy;
     f_profit_factor := profit_factor; f_max_drawdown_pct := dd_pct;
     f_pnl_by_symbol := State.pnl_by_symbol m |}.

(** The bookkeeping [update_metrics] keeps in the metrics dict. *)
Definition accounts_ok (m : State.Metrics) : Prop :=
  (0 <= State.wins m)%Z
  /\ (0 <= State.losses m)%Z
  /\ State.total_trades m = (State.wins m + State.losses m)%Z
  /\ 0 <= State.gross_profit m
  /\ State.gross_loss m <= 0
  /\ (State.wins m = 0%Z -> State.gross_profit m == 0)
  /\ (State.losses m = 0%Z -> State.gross_loss m == 0).

End Dashboard.

(** ** bot/shared.py *)

Module Shared.

(** One record of the log buffer. *)
Record LogRecord : Type := {
  log_ts : Z;
  log_level : string;
  log_message : string
}.

(** [LogBuffer]: a [deque(maxlen=maxlen)], oldest record first. *)
Record LogBuffer : Type := {
  maxlen : nat;
  buf : list LogRecord
}.

(** [LogBuffer(maxlen)]. *)
Definition LogBuffer_new (maxlen : nat) : LogBuffer :=
  {| maxlen := maxlen; buf := [] |}.

(** [deque.append]: a full deque drops its oldest element. *)
Definition deque_append {A} (maxlen : nat) (d : list A) (x : A) : list A :=
  let d' := d ++ [x] in
  drop (length d' - maxlen) d'.

(** [add(level, message)]; [now] is the clock. *)
Definition add (now : Z) (level message : string) (b : LogBuffer)
  : LogBuffer :=
  {| maxlen := maxlen b;
     buf := deque_append (maxlen b) (buf b)
              {| log_ts := now; log_level := level; log_message := message |} |}.

(** The slice [l[-limit:]]: the last [limit] elements for a positive
    [limit], all of [l] for [limit = 0], and [l] without its first
    [-limit] elements for a negative [limit]. *)
Definition slice_last {A} (l : list A) (limit : Z) : list A :=
  if (0 <? limit)%Z then drop (length l - Z.to_nat limit) l
  else drop (Z.to_nat (- limit)) l.

(** [latest(limit)]. *)
Definition latest (limit : Z) (b : LogBuffer) : list LogRecord :=
  slice_last (buf b) limit.

End Shared.

(** ** More sample inputs *)

Module Samples.
Import Config Strategy Execution.

(** The gateway of [Scenario.holding_api], but refusing every order. *)
Definition rejecting_api : Api :=
  {| api_get_position := api_get_position Scenario.holding_api;
     api_list_positions := api_list_positions Scenario.holding_api;
     api_list_open_orders := Py.Return [];
     api_list_all_orders := api_list_all_orders Scenario.holding_api;
     api_submit_order := fun _ => Py.Raise Py.APIError;
     api_get_latest_quote := api_get_latest_quote Scenario.holding_api |}.

(** A pass at a time of day over a gateway and its listed assets, with the
    falling bars for every symbol. *)
Definition pass_at (time : Z) (api : Api) (assets : list Ranking.Asset)
  : Main.Tick :=
  {| Main.now := 0;
     Main.today := "2024-01-02";
     Main.time_of_day := time;
     Main.midnight := fun _ => Some 0%Z;
     Main.api := api;
     Main.account_equity := Py.Return 100000;
     Main.clock_is_open := Py.Return true;
     Main.get_bars := fun _ _ => Py.Return Scenario.falling;
     Main.list_assets := Py.Return assets |}.

(** A buy of XYZ filled at 51 with all three prices, listed behind a sell
    of XYZ, a buy of another symbol, a buy of XYZ that is not filled and a
    buy of XYZ filled before the day started, and ahead of an older buy of
    XYZ. *)
Definition full_fill : Order :=
  {| o_symbol := "XYZ"; o_side := "buy"; o_filled_at := Some 51%Z;
     o_filled_avg_price := Some 98; o_limit_price := Some 99;
     o_stop_price := Some 97 |}.

Definition order_book : list Order :=
  [ {| o_symbol := "XYZ"; o_side := "sell"; o_filled_at := Some 70%Z;
       o_filled_avg_price := Some 101; o_limit_price := None;
       o_stop_price := None |};
    {| o_symbol := "ABC"; o_side := "buy"; o_filled_at := Some 65%Z;
       o_filled_avg_price := Some 12; o_limit_price := None;
       o_stop_price := None |};
    {| o_symbol := "XYZ"; o_side := "buy"; o_filled_at := None;
       o_filled_avg_price := None; o_limit_price := Some 96;
       o_stop_price := None |};
    {| o_symbol := "XYZ"; o_side := "buy"; o_filled_at := Some (-5)%Z;
       o_filled_avg_price := Some 94; o_limit_price := None;
       o_stop_price := None |};
    full_fill;
    {| o_symbol := "XYZ"; o_side := "buy"; o_filled_at := Some 40%Z;
       o_filled_avg_price := Some 95; o_limit_price := None;
       o_stop_price := None |} ].

(** The gateway of [Scenario.holding_api] with that order book. *)
Definition busy_api : Api :=
  {| api_get_position := api_get_position Scenario.holding_api;
     api_list_positions := api_list_positions Scenario.holding_api;
     api_list_open_orders := Py.Return [];
     api_list_all_orders := fun _ => Py.Return order_book;
     api_submit_order := fun _ => Py.Return tt;
     api_get_latest_quote := api_get_latest_quote Scenario.holding_api |}.

(** A gateway that lists one filled buy of [symbol] with the given
    prices. *)
Definition one_fill_api (avg limit stop : option Q) : Api :=
  {| api_get_position := fun _ => Py.Raise Py.APIError;
     api_list_positions := Py.Return [];
     api_list_open_orders := Py.Return [];
     api_list_all_orders :=
       fun _ =>
         Py.Return [ {| o_symbol := "XYZ"; o_side := "buy";
                        o_filled_at := Some 51%Z;
                        o_filled_avg_price := avg; o_limit_price := limit;
                        o_stop_price := stop |} ];
     api_submit_order := fun _ => Py.Return tt;
     api_get_latest_quote := fun _ => Py.Raise Py.APIError |}.

(** Four listed assets: two eligible ones, one that is not tradable and one
    with a symbol of six characters. *)
Definition listed : list Ranking.Asset :=
  [ {| Ranking.a_tradable := true; Ranking.a_shortable := true;
       Ranking.a_easy_to_borrow := true; Ranking.a_symbol := Some "UP"%string |};
    {| Ranking.a_tradable := false; Ranking.a_shortable := true;
       Ranking.a_easy_to_borrow := true; Ranking.a_symbol := Some "DOWN"%string |};
    {| Ranking.a_tradable := true; Ranking.a_shortable := true;
       Ranking.a_easy_to_borrow := true; Ranking.a_symbol := Some "LONGER"%string |};
    {| Ranking.a_tradable := true; Ranking.a_shortable := true;
       Ranking.a_easy_to_borrow := true; Ranking.a_symbol := Some "UP2"%string |} ].

(** The store of a loop in which an earlier exit has bound [qty]. *)
Definition bound_loop : Main.Loop :=
  {| Main.world := snd (State.BotState_new State.NoFile);
     Main.accepted := [];
     Main.qty := Some 0%Z |}.

(** The store of a loop about to start its first pass. *)
Definition fresh_loop : Main.Loop :=
  {| Main.world := snd (State.BotState_new State.NoFile);
     Main.accepted := [];
     Main.qty := None |}.

End Samples.

(** ** Predicates on the store of the loop *)

Module Effects.

(** The accepted orders are [base] followed by sells only. *)
Definition sells_after (base accepted : list Execution.Submission) : Prop :=
  exists orders,
    accepted = base ++ orders
    /\ Forall (fun o => Execution.sub_side o = "sell"%string) orders.

(** The state object is halted and its trading day is [today]. *)
Definition halted_for (today : string) (w : State.World) : Prop :=
  State.trading_halted (State.state w) = true
  /\ State.trading_day (State.state w) = Some today.

(** Since [base], a pass has only sold. *)
Definition only_sold (base : list Execution.Submission) (s : Main.Loop)
  : Prop :=
  sells_after base (Main.accepted s).

(** Since [base], a pass has only sold, and the state object stayed halted
    for [today]. *)
Definition halted_and_only_sold (today : string)
    (base : list Execution.Submission) (s : Main.Loop) : Prop :=
  sells_after base (Main.accepted s) /\ halted_for today (Main.world s).

End Effects.

(** * Properties *)

Import Config.

(** ** Comparisons and rounding *)

Lemma Qlt_bool_iff x y : Py.Qlt_bool x y = true <-> x < y.
Proof.
  unfold Py.Qlt_bool. rewrite negb_true_iff.
  split; intros H.
  - apply Qnot_le_lt. intros Hle. apply Qle_bool_iff in Hle. congruence.
  - destruct (Qle_bool y x) eqn:E; [|reflexivity].
    apply Qle_bool_iff in E. exfalso; lra.
Qed.

Lemma Qlt_bool_false x y : Py.Qlt_bool x y = false <-> y <= x.
Proof.
  unfold Py.Qlt_bool. rewrite negb_false_iff. apply Qle_bool_iff.
Qed.

Lemma Qle_bool_false x y : Qle_bool x y = false <-> y < x.
Proof.
  split; intros H.
  - apply Qnot_le_lt. intros Hle. apply Qle_bool_iff in Hle. congruence.
  - destruct (Qle_bool x y) eqn:E; [|reflexivity].
    apply Qle_bool_iff in E. exfalso; lra.
Qed.

Lemma floor_frac x : 0 <= x - inject_Z (Qfloor x) /\ x - inject_Z (Qfloor x) < 1.
Proof.
  pose proof (Qfloor_le x). pose proof (Qlt_floor x).
  rewrite inject_Z_plus in H0. change (inject_Z 1) with 1 in H0. lra.
Qed.

Lemma round_half_even_cases x :
  Py.round_half_even x = Qfloor x /\ x - inject_Z (Qfloor x) <= 1 # 2
  \/ Py.round_half_even x = (Qfloor x + 1)%Z /\ 1 # 2 <= x - inject_Z (Qfloor x).
Proof.
  unfold Py.round_half_even.
  destruct (Qcompare_spec (x - inject_Z (Qfloor x)) (1 # 2)) as [E|E|E].
  - destruct (Z.even (Qfloor x)); [left | right]; split; auto; lra.
  - left. split; auto. lra.
  - right. split; auto. lra.
Qed.

Lemma round_half_even_near x :
  - (1 # 2) <= inject_Z (Py.round_half_even x) - x <= 1 # 2.
Proof.
  destruct (floor_frac x) as [H0 H1].
  destruct (round_half_even_cases x) as [[-> H]|[-> H]].
  - lra.
  - rewrite inject_Z_plus. change (inject_Z 1) with 1. lra.
Qed.

Lemma round_half_even_mono x y :
  x <= y -> (Py.round_half_even x <= Py.round_half_even y)%Z.
Proof.
  intros Hxy.
  pose proof (Qfloor_resp_le _ _ Hxy) as Hf.
  destruct (Z.eq_dec (Qfloor x) (Qfloor y)) as [E|N].
  - unfold Py.round_half_even. rewrite <- E.
    destruct (Qcompare_spec (x - inject_Z (Qfloor x)) (1 # 2)) as [Ex|Ex|Ex];
    destruct (Qcompare_spec (y - inject_Z (Qfloor x)) (1 # 2)) as [Ey|Ey|Ey];
    try destruct (Z.even (Qfloor x)); try lia; exfalso; lra.
  - destruct (round_half_even_cases x) as [[-> _]|[-> _]];
    destruct (round_half_even_cases y) as [[-> _]|[-> _]]; lia.
Qed.

Lemma round4_unfold x :
  Py.round x 4 == inject_Z (Py.round_half_even (x * 10000)) / 10000.
Proof.
  unfold Py.round. cbn [Z.of_nat Pos.of_succ_nat Pos.succ].
  change (10 ^ 4)%Z with 10000%Z. change (Z.to_pos 10000) with 10000%positive.
  rewrite <- (Qmake_Qdiv _ 10000). reflexivity.
Qed.

Lemma round4_near x :
  - (1 # 20000) <= Py.round x 4 - x <= 1 # 20000.
Proof.
  rewrite round4_unfold.
  pose proof (round_half_even_near (x * 10000)) as H.
  set (r := inject_Z (Py.round_half_even (x * 10000))) in *.
  assert (r / 10000 == r * (1 # 10000)) as -> by (field).
  lra.
Qed.

Lemma round4_mono x y : x <= y -> Py.round x 4 <= Py.round y 4.
Proof.
  intros H. rewrite !round4_unfold.
  assert (Hs : x * 10000 <= y * 10000) by lra.
  apply round_half_even_mono in Hs.
  rewrite Zle_Qle in Hs.
  set (a := inject_Z (Py.round_half_even (x * 10000))) in *.
  set (b := inject_Z (Py.round_half_even (y * 10000))) in *.
  assert (a / 10000 == a * (1 # 10000)) as -> by field.
  assert (b / 10000 == b * (1 # 10000)) as -> by field.
  lra.
Qed.

(** ** bot/risk.py *)

(** C1: the quantity is never negative; for an equity that is not negative
    its value [quantity * entry] stays within [equity * MAX_POSITION_PCT];
    and it is 0 whenever the equity, the entry price or the stop distance
    is not positive. *)
Theorem calculate_position_size_bounds (equity entry : Q) (aggressive : bool) :
  let qty := Risk.calculate_position_size equity entry aggressive in
  (0 <= qty)%Z
  /\ (0 <= equity -> inject_Z qty * entry <= equity * MAX_POSITION_PCT)
  /\ (equity <= 0 \/ entry <= 0 \/ entry * STOP_LOSS_PCT <= 0 -> qty = 0%Z).
Proof.
  unfold Risk.calculate_position_size, MAX_POSITION_PCT, STOP_LOSS_PCT.
  destruct (Qle_bool equity 0) eqn:He; cbn [orb].
  { split; [lia | split; [intros; change (inject_Z 0) with 0; lra | reflexivity]]. }
  destruct (Qle_bool entry 0) eqn:Hp; cbn [orb].
  { split; [lia | split; [intros; change (inject_Z 0) with 0; lra | reflexivity]]. }
  apply Qle_bool_false in He, Hp.
  destruct (Qle_bool (entry * (7 # 1000)) 0) eqn:Hs.
  { apply Qle_bool_iff in Hs. exfalso. lra. }
  set (risk_pct := if negb aggressive then _ else _).
  set (q0 := Qfloor (equity * risk_pct / (entry * (7 # 1000)))).
  assert (Hrisk : 0 <= risk_pct).
  { subst risk_pct. destruct aggressive; vm_compute; intros H; discriminate H. }
  assert (Hq0 : (0 <= q0)%Z).
  { subst q0. change 0%Z with (Qfloor 0). apply Qfloor_resp_le.
    apply Qle_shift_div_l; [lra|]. rewrite Qmult_0_l.
    apply Qmult_le_0_compat; lra. }
  assert (Hcap : (0 <= Qfloor (equity * (1 # 10) / entry))%Z).
  { change 0%Z with (Qfloor 0). apply Qfloor_resp_le.
    apply Qle_shift_div_l; [lra|]. lra. }
  assert (Hfloor : inject_Z (Qfloor (equity * (1 # 10) / entry)) * entry
                   <= equity * (1 # 10)).
  { pose proof (Qfloor_le (equity * (1 # 10) / entry)) as Hle.
    apply (Qmult_le_compat_r _ _ entry) in Hle; [|lra].
    assert (equity * (1 # 10) / entry * entry == equity * (1 # 10)) as E
      by (field; lra).
    rewrite E in Hle. exact Hle. }
  cbv zeta.
  destruct (Py.Qlt_bool (equity * (1 # 10)) (inject_Z q0 * entry)) eqn:Hc;
    cbn [andb].
  - assert (Py.Qlt_bool 0 entry = true) as -> by (apply Qlt_bool_iff; lra).
    rewrite Z.max_l by lia.
    repeat split; [lia | intros _; exact Hfloor | intros; exfalso; lra].
  - apply Qlt_bool_false in Hc. rewrite Z.max_l by lia.
    repeat split; [lia | intros _; exact Hc | intros; exfalso; lra].
Qed.

Lemma calculate_position_size_bounds_witness :
  inject_Z (Risk.calculate_position_size 100000 50 false) * 50
  <= 100000 * MAX_POSITION_PCT
  /\ Risk.calculate_position_size 0 50 false = 0%Z.
Proof.
  split.
  - apply (proj1 (proj2 (calculate_position_size_bounds 100000 50 false))).
    vm_compute. intros H; discriminate H.
  - apply (proj2 (proj2 (calculate_position_size_bounds 0 50 false))).
    left. vm_compute. intros H; discriminate H.
Defined.

(** For a negative equity the cap is negative and the quantity 0 is above
    it: equity -1, entry 1. *)
Lemma position_value_above_cap_for_negative_equity :
  ~ (forall equity entry aggressive,
       inject_Z (Risk.calculate_position_size equity entry aggressive) * entry
       <= equity * MAX_POSITION_PCT).
Proof.
  intros H. specialize (H (-1) 1 false). vm_compute in H. apply H. reflexivity.
Qed.

Lemma trailing_stop_price_active entry high :
  0 < entry -> entry * (1 + TRAIL_TRIGGER_PCT) <= high ->
  Risk.trailing_stop_price entry high
  = Some (Py.round (high * (1 - TRAIL_OFFSET_PCT)) 4).
Proof.
  unfold Risk.trailing_stop_price, TRAIL_TRIGGER_PCT. intros He Hh.
  assert (Qle_bool high 0 = false) as -> by (apply Qle_bool_false; lra).
  assert (Qle_bool entry 0 = false) as -> by (apply Qle_bool_false; lra).
  cbn [orb].
  assert (Py.Qlt_bool high (entry * (1 + (1 # 100))) = false) as ->
    by (apply Qlt_bool_false; lra).
  reflexivity.
Qed.

Lemma trailing_stop_price_some entry high v :
  Risk.trailing_stop_price entry high = Some v ->
  0 < high /\ 0 < entry /\ entry * (1 + TRAIL_TRIGGER_PCT) <= high
  /\ v = Py.round (high * (1 - TRAIL_OFFSET_PCT)) 4.
Proof.
  unfold Risk.trailing_stop_price.
  destruct (Qle_bool high 0) eqn:H1; [discriminate|].
  destruct (Qle_bool entry 0) eqn:H2; [discriminate|]. cbn [orb].
  destruct (Py.Qlt_bool _ _) eqn:H3; [discriminate|].
  intros [= <-].
  apply Qle_bool_false in H1, H2. apply Qlt_bool_false in H3. auto.
Qed.

(** C5: for a positive entry the trailing stop is inactive below the
    trigger [entry * (1 + TRAIL_TRIGGER_PCT)]; from the trigger on it is
    [high * (1 - TRAIL_OFFSET_PCT)] rounded to four decimals, within half a
    unit of the fourth decimal of the exact product, and strictly below
    [high] once the offset [high * TRAIL_OFFSET_PCT] exceeds that half
    unit; and it does not decrease when [high] increases. *)
Theorem trailing_stop_price_spec (entry high : Q) :
  0 < entry ->
  (high < entry * (1 + TRAIL_TRIGGER_PCT) ->
   Risk.trailing_stop_price entry high = None)
  /\ (entry * (1 + TRAIL_TRIGGER_PCT) <= high ->
      exists v,
        Risk.trailing_stop_price entry high = Some v
        /\ v = Py.round (high * (1 - TRAIL_OFFSET_PCT)) 4
        /\ - (1 # 20000) <= v - high * (1 - TRAIL_OFFSET_PCT) <= 1 # 20000
        /\ (1 # 20000 < high * TRAIL_OFFSET_PCT -> v < high))
  /\ (forall high' v,
        high <= high' -> Risk.trailing_stop_price entry high = Some v ->
        exists v', Risk.trailing_stop_price entry high' = Some v' /\ v <= v').
Proof.
  intros He. split; [|split].
  - intros Hh. unfold Risk.trailing_stop_price.
    destruct (Qle_bool high 0 || Qle_bool entry 0); [reflexivity|].
    apply Qlt_bool_iff in Hh. rewrite Hh. reflexivity.
  - intros Hh. eexists. split; [apply trailing_stop_price_active; assumption|].
    split; [reflexivity|].
    pose proof (round4_near (high * (1 - TRAIL_OFFSET_PCT))) as Hn.
    split; [exact Hn|]. intros Hbig. lra.
  - intros high' v Hle Hv.
    apply trailing_stop_price_some in Hv as (H0 & _ & Htrig & ->).
    eexists. split.
    + apply trailing_stop_price_active; [assumption | lra].
    + apply round4_mono. unfold TRAIL_OFFSET_PCT. lra.
Qed.

Lemma trailing_stop_price_spec_witness :
  Risk.trailing_stop_price 100 (1005 # 10) = None
  /\ (exists v, Risk.trailing_stop_price 100 (1015 # 10) = Some v
                /\ v < 1015 # 10)
  /\ (exists v', Risk.trailing_stop_price 100 102 = Some v'
                 /\ 1002820 # 10000 <= v').
Proof.
  assert (He : 0 < 100) by reflexivity.
  split; [|split].
  - apply (proj1 (trailing_stop_price_spec 100 (1005 # 10) He)). reflexivity.
  - destruct (proj1 (proj2 (trailing_stop_price_spec 100 (1015 # 10) He)))
      as (v & Hv & _ & _ & Hlt).
    + vm_compute. intros H; discriminate H.
    + exists v. split; [exact Hv|]. apply Hlt. reflexivity.
  - apply (proj2 (proj2 (trailing_stop_price_spec 100 (1015 # 10) He))).
    + vm_compute. intros H; discriminate H.
    + reflexivity.
Defined.

(** Below a high of about 0.004 the rounding can lift the trailing stop to
    the high or above it: entry 0.00005, high 0.00006, trailing stop
    0.0001. *)
Lemma trailing_stop_not_below_high :
  ~ (forall entry high,
       0 < entry -> entry * (1 + TRAIL_TRIGGER_PCT) <= high ->
       exists v, Risk.trailing_stop_price entry high = Some v /\ v < high).
Proof.
  intros H.
  destruct (H (5 # 100000) (6 # 100000)) as (v & Hv & Hlt).
  - reflexivity.
  - vm_compute. intros E; discriminate E.
  - vm_compute in Hv. injection Hv as <-. vm_compute in Hlt. discriminate Hlt.
Qed.

(** C7: for every entry, positive or not, [calculate_stop_price] returns a
    multiple of 0.0001 within half such a unit of
    [entry * (1 - STOP_LOSS_PCT)]; for a positive entry this is the stop
    price of the specification; for an entry that is not positive it is
    still a number, at most 0. *)
Theorem calculate_stop_price_total (entry : Q) :
  (exists ticks : Z, Risk.calculate_stop_price entry = ticks # 10000)
  /\ - (1 # 20000)
     <= Risk.calculate_stop_price entry - entry * (1 - STOP_LOSS_PCT)
     <= 1 # 20000
  /\ (0 < entry ->
      Risk.stop_price_spec entry = Some (Risk.calculate_stop_price entry))
  /\ (entry <= 0 -> Risk.calculate_stop_price entry <= 0).
Proof.
  unfold Risk.calculate_stop_price. split; [|split; [|split]].
  - eexists. reflexivity.
  - apply round4_near.
  - intros He. unfold Risk.stop_price_spec.
    apply Qlt_bool_iff in He. rewrite He. reflexivity.
  - intros He.
    assert (H0 : Py.round 0 4 == 0) by reflexivity.
    rewrite <- H0. apply round4_mono. unfold STOP_LOSS_PCT. lra.
Qed.

Lemma calculate_stop_price_total_witness :
  Risk.stop_price_spec 100 = Some (Risk.calculate_stop_price 100)
  /\ Risk.calculate_stop_price (-100) <= 0.
Proof.
  split.
  - apply (proj1 (proj2 (proj2 (calculate_stop_price_total 100)))). reflexivity.
  - apply (proj2 (proj2 (proj2 (calculate_stop_price_total (-100))))).
    vm_compute. intros H; discriminate H.
Defined.

(** At entry -100 the code returns -99.3 where the specification has no
    price. *)
Lemma stop_price_is_a_price_for_nonpositive_entry :
  ~ (forall entry,
       entry <= 0 ->
       Some (Risk.calculate_stop_price entry) = Risk.stop_price_spec entry).
Proof.
  intros H.
  assert (Hneg : -100 <= 0) by (vm_compute; intros E; discriminate E).
  specialize (H (-100) Hneg). vm_compute in H. discriminate H.
Qed.

(** The scenarios of the specification. *)

Example stop_price_scenario : Risk.calculate_stop_price 100 == 993 # 10.
Proof. reflexivity. Qed.

Example trailing_stop_scenario :
  Risk.trailing_stop_price 100 (1005 # 10) = None
  /\ Risk.trailing_stop_price 100 (1015 # 10) = Some (1002820 # 10000).
Proof. split; reflexivity. Qed.

Example position_size_scenario :
  Qfloor (100000 * RISK_PER_TRADE_PCT / (50 * STOP_LOSS_PCT)) = 2142%Z
  /\ Risk.calculate_position_size 100000 50 false = 200%Z.
Proof. split; reflexivity. Qed.

(** ** bot/strategy.py *)

Import Strategy.

Lemma length_ewm_from alpha prev xs :
  length (ewm_from alpha prev xs) = length xs.
Proof. revert prev. induction xs as [|x xs IH]; intros prev; cbn; auto. Qed.

Lemma length_ewm_mean span xs : length (ewm_mean span xs) = length xs.
Proof. destruct xs; cbn; [reflexivity|]. now rewrite length_ewm_from. Qed.

Lemma length_add_trend_columns bars :
  length (add_trend_columns bars) = length bars.
Proof.
  unfold add_trend_columns.
  rewrite length_zip_with, length_zip, !length_ewm_mean, length_map. lia.
Qed.

(** A row of the enriched frame carries the bar and the two averages of the
    same position. *)
Lemma iloc_back_add_trend_columns bars k r :
  iloc_back (add_trend_columns bars) k = Some r ->
  iloc_back bars k = Some (row r)
  /\ iloc_back (ewm_mean EMA_FAST (map b_close bars)) k = Some (ema21 r)
  /\ iloc_back (ewm_mean EMA_SLOW (map b_close bars)) k = Some (ema50 r).
Proof.
  unfold iloc_back.
  rewrite length_add_trend_columns, !length_ewm_mean, length_map.
  destruct (length bars <? k)%nat; [discriminate|].
  unfold add_trend_columns. intros H.
  apply lookup_zip_with_Some in H as (b & emas & -> & Hb & He).
  apply lookup_zip_with_Some in He as (f & s & -> & Hf & Hs).
  cbn. auto.
Qed.

Lemma iloc_back_is_Some {A} (l : list A) k :
  (1 <= k <= length l)%nat -> is_Some (iloc_back l k).
Proof.
  intros H. unfold iloc_back.
  destruct (Nat.ltb_spec (length l) k); [lia|].
  apply lookup_lt_is_Some. lia.
Qed.

(** [check_entry_signal] returns on every input. *)
Lemma check_entry_signal_returns bars benchmark_perf recent_metrics volume_ratio :
  exists verdict,
    check_entry_signal bars benchmark_perf recent_metrics volume_ratio
    = Py.Return verdict.
Proof.
  unfold check_entry_signal. destruct bars as [bars|]; [|eauto].
  destruct (Z.ltb_spec (Z.of_nat (length bars)) (EMA_SLOW + 2)) as [|Hlen];
    [eauto|].
  unfold EMA_SLOW in Hlen.
  destruct (iloc_back_is_Some (add_trend_columns bars) 1) as [last ->];
    [rewrite length_add_trend_columns; lia|].
  destruct (iloc_back_is_Some (add_trend_columns bars) 2) as [prev ->];
    [rewrite length_add_trend_columns; lia|].
  repeat match goal with
         | |- context [if ?b then _ else _] => destruct b
         | |- context [match ?o with Some _ => _ | None => _ end] => destruct o
         end; eauto.
Qed.

(** C6: a true signal implies enough history, the uptrend, the pullback of
    the previous bar to its fast average, the break above the previous
    high, a volume ratio of at least 1.2 and a day return above the
    benchmark; the returned entry price is the last close. *)
Theorem check_entry_signal_sound
    bars benchmark_perf recent_metrics volume_ratio price reason :
  check_entry_signal bars benchmark_perf recent_metrics volume_ratio
  = Py.Return (true, price, reason) ->
  exists rows last prev fast_last slow_last fast_prev,
    bars = Some rows
    /\ (EMA_SLOW + 2 <= Z.of_nat (length rows))%Z
    /\ iloc_back rows 1 = Some last
    /\ iloc_back rows 2 = Some prev
    /\ iloc_back (ewm_mean 21 (map b_close rows)) 1 = Some fast_last
    /\ iloc_back (ewm_mean 50 (map b_close rows)) 1 = Some slow_last
    /\ iloc_back (ewm_mean 21 (map b_close rows)) 2 = Some fast_prev
    /\ slow_last < fast_last
    /\ slow_last < b_close last
    /\ ~ fast_prev == 0
    /\ Qabs (b_low prev - fast_prev) / fast_prev <= PULLBACK_TOLERANCE_PCT
    /\ (0 < fast_prev ->
        Qabs (b_low prev - fast_prev) <= PULLBACK_TOLERANCE_PCT * fast_prev)
    /\ b_high prev < b_close last
    /\ (exists vr, volume_ratio = Some vr /\ 12 # 10 <= vr)
    /\ benchmark_perf < day_return recent_metrics
    /\ price = Some (b_close last).
Proof.
  unfold check_entry_signal. destruct bars as [rows|]; [|discriminate].
  destruct (Z.ltb_spec (Z.of_nat (length rows)) (EMA_SLOW + 2)) as [|Hlen];
    [discriminate|].
  destruct (iloc_back (add_trend_columns rows) 1) as [last|] eqn:Hlast;
    [|destruct (iloc_back (add_trend_columns rows) 2); discriminate].
  destruct (iloc_back (add_trend_columns rows) 2) as [prev|] eqn:Hprev;
    [|discriminate].
  apply iloc_back_add_trend_columns in Hlast as (Hl & Hfl & Hsl).
  apply iloc_back_add_trend_columns in Hprev as (Hp & Hfp & _).
  destruct (Qle_bool (ema21 last) (ema50 last)) eqn:Htrend; [discriminate|].
  destruct (Qle_bool (b_close (row last)) (ema50 last)) eqn:Habove;
    [discriminate|]. cbn [orb].
  unfold pullback_ok.
  destruct (Qeq_bool (ema21 prev) 0) eqn:Hzero; [discriminate|].
  destruct (Qle_bool _ PULLBACK_TOLERANCE_PCT) eqn:Hpull; [|discriminate].
  destruct (Py.Qlt_bool (b_high (row prev)) (b_close (row last))) eqn:Hbreak;
    [|discriminate]. cbn [andb negb].
  destruct volume_ratio as [vr|]; [|discriminate].
  destruct (Py.Qlt_bool vr (12 # 10)) eqn:Hvol; [discriminate|].
  destruct (Qle_bool (day_return recent_metrics) benchmark_perf) eqn:Hrs;
    [discriminate|].
  intros [= <- _].
  apply Qle_bool_false in Htrend, Habove, Hrs.
  apply Qle_bool_iff in Hpull. apply Qlt_bool_iff in Hbreak.
  apply Qlt_bool_false in Hvol.
  assert (Hnz : ~ ema21 prev == 0).
  { intros E. apply Qeq_bool_iff in E. congruence. }
  exists rows, (row last), (row prev), (ema21 last), (ema50 last), (ema21 prev).
  split; [reflexivity|]. repeat (split; [assumption|]).
  split.
  { intros Hpos.
    apply (Qmult_le_compat_r _ _ (ema21 prev)) in Hpull; [|lra].
    assert (E : Qabs (b_low (row prev) - ema21 prev) / ema21 prev * ema21 prev
                == Qabs (b_low (row prev) - ema21 prev)) by (field; exact Hnz).
    rewrite E in Hpull. exact Hpull. }
  split; [assumption|]. split; [eauto|]. split; [assumption|reflexivity].
Qed.

Lemma check_entry_signal_sound_witness :
  check_entry_signal (Some Scenario.rising) 0
    {[ "ret_day"%string := Some (1 # 2) ]} (Some 2)
  = Py.Return (true, Some 151, confirmed_reason)
  /\ exists last,
       iloc_back Scenario.rising 1 = Some last
       /\ b_high (Scenario.rising_bar 50) < b_close last.
Proof.
  assert (H : check_entry_signal (Some Scenario.rising) 0
                {[ "ret_day"%string := Some (1 # 2) ]} (Some 2)
              = Py.Return (true, Some 151, confirmed_reason))
    by (vm_compute; reflexivity).
  split; [exact H|].
  destruct (check_entry_signal_sound _ _ _ _ _ _ H)
    as (rows & last & prev & fl & sl & fp & Hrows & _ & Hlast & Hprev & _
        & _ & _ & _ & _ & _ & _ & _ & Hbreak & _).
  injection Hrows as <-.
  exists last. split; [exact Hlast|].
  vm_compute in Hprev. injection Hprev as <-. exact Hbreak.
Defined.

(** ** bot/state.py *)

Import State.

Section WorldAccess.
Context (w : World).

Lemma get_metrics_save : get_metrics (save w) = get_metrics w.
Proof. reflexivity. Qed.

Lemma get_traded_symbols_save :
  get_traded_symbols (save w) = get_traded_symbols w.
Proof. reflexivity. Qed.

Lemma get_metrics_mutate_metrics f :
  get_metrics (mutate_metrics f w) = f (get_metrics w).
Proof.
  unfold get_metrics, mutate_metrics.
  destruct (metrics (state w)) eqn:E; cbn; [rewrite E|]; reflexivity.
Qed.

Lemma get_traded_symbols_mutate_metrics f :
  get_traded_symbols (mutate_metrics f w) = get_traded_symbols w.
Proof.
  unfold get_traded_symbols, mutate_metrics.
  destruct (metrics (state w)); reflexivity.
Qed.

Lemma get_traded_symbols_mutate_traded_symbols f :
  get_traded_symbols (mutate_traded_symbols f w) = f (get_traded_symbols w).
Proof.
  unfold get_traded_symbols, mutate_traded_symbols.
  destruct (traded_symbols (state w)) eqn:E; cbn; [rewrite E|]; reflexivity.
Qed.

Lemma get_metrics_mutate_traded_symbols f :
  get_metrics (mutate_traded_symbols f w) = get_metrics w.
Proof.
  unfold get_metrics, mutate_traded_symbols.
  destruct (traded_symbols (state w)); reflexivity.
Qed.
End WorldAccess.

(** *** The drawdown within a day *)

Lemma py_min_le_l a b : Py.min a b <= a.
Proof.
  unfold Py.min. destruct (Py.Qlt_bool b a) eqn:E.
  - apply Qlt_bool_iff in E. lra.
  - lra.
Qed.

Lemma track_drawdown_le equity m :
  max_drawdown (track_drawdown equity m) <= max_drawdown m.
Proof.
  unfold track_drawdown; cbn.
  destruct (Py.truthy _); [apply py_min_le_l | lra].
Qed.

(** Each [update_drawdown] leaves the stored drawdown where it was or
    lowers it. *)
Lemma update_drawdown_le equity w :
  max_drawdown (get_metrics (update_drawdown equity w))
  <= max_drawdown (get_metrics w).
Proof.
  unfold update_drawdown.
  rewrite get_metrics_save, get_metrics_mutate_metrics.
  apply track_drawdown_le.
Qed.

(** Along any sequence of equity observations the drawdown stays at or
    below its starting value, hence at or below 0 once it is. *)
Lemma update_drawdown_sequence equities w :
  max_drawdown
    (get_metrics (fold_left (fun w e => update_drawdown e w) equities w))
  <= max_drawdown (get_metrics w).
Proof.
  revert w. induction equities as [|e es IH]; intros w; cbn; [lra|].
  eapply Qle_trans; [apply IH | apply update_drawdown_le].
Qed.

(** A call with the stored day changes nothing at all. *)
Lemma reset_for_day_same_day today equity w :
  trading_day (state w) = Some today -> reset_for_day today equity w = w.
Proof.
  intros H. unfold reset_for_day. rewrite bool_decide_eq_true_2; auto.
Qed.

(** On a new day the metrics become a copy of what [DEFAULT_STATE] holds at
    that moment. *)
Lemma reset_for_day_new_day today equity w :
  trading_day (state w) <> Some today ->
  get_metrics (reset_for_day today equity w) = DEFAULT_metrics w
  /\ trading_day (state (reset_for_day today equity w)) = Some today.
Proof.
  intros H. unfold reset_for_day. rewrite bool_decide_eq_false_2; auto.
Qed.

(** While the state still shares the metrics dict of [DEFAULT_STATE], a
    day change resets none of the metrics. *)
Lemma reset_for_day_shared_metrics today equity w :
  metrics (state w) = Shared ->
  get_metrics (reset_for_day today equity w) = get_metrics w.
Proof.
  intros Hs. unfold reset_for_day.
  destruct (bool_decide _); [reflexivity|].
  cbn. unfold get_metrics. now rewrite Hs.
Qed.

(** C4, the code at the failing input: a state object built without a state
    file observes the equities 100 and 90 and is then reset for a day it has
    not seen; the drawdown of -10% survives the reset. *)
Theorem reset_for_day_keeps_drawdown :
  let w0 := snd (BotState_new NoFile) in
  let w := update_drawdown 90 (update_drawdown 100 w0) in
  trading_day (state w) = None
  /\ max_drawdown (get_metrics w) == - (1 # 10)
  /\ max_drawdown (get_metrics (reset_for_day "2024-01-02" 90 w))
     == - (1 # 10).
Proof. vm_compute. repeat split. Qed.

(** The day change inside the loop: started from a state file that holds
    only the day and its starting equity, the loop observes 100000 and
    99000 on 2024-01-02 and 99500 on 2024-01-03; the reset for the new day
    leaves the drawdown of -1% and the peak of the day before in place. *)
Lemma trading_loop_day_change_keeps_drawdown :
  let run :=
    Main.trading_loop default_env Scenario.old_state_file
      [Scenario.idle_pass "2024-01-02" 100000;
       Scenario.idle_pass "2024-01-02" 99000;
       Scenario.idle_pass "2024-01-03" 99500] in
  fst run = Py.Return tt
  /\ trading_day (state (Main.world (snd run))) = Some "2024-01-03"%string
  /\ max_drawdown (get_metrics (Main.world (snd run))) == - (1 # 100)
  /\ max_equity (get_metrics (Main.world (snd run))) = Some 100000.
Proof. vm_compute. repeat split. Qed.

(** *** Loading the persisted state *)

(** The typed view of [load]: an absent file and unreadable or unparsable
    content leave the default state; from a parsed object every present key
    is taken and every missing key keeps its default. *)
Lemma load_merges_stored_keys (disk : File) :
  let w := snd (BotState_new disk) in
  (disk = NoFile \/ disk = Unreadable \/ disk = Unparsable ->
   trading_day (state w) = None
   /\ start_equity (state w) = None
   /\ trades_executed (state w) = 0%Z
   /\ trading_halted (state w) = false
   /\ get_traded_symbols w = ∅
   /\ get_metrics w = metrics_literal)
  /\ (forall stored, disk = Json stored ->
      trading_day (state w) = default None (st_trading_day stored)
      /\ start_equity (state w) = default None (st_start_equity stored)
      /\ trades_executed (state w) = default 0%Z (st_trades_executed stored)
      /\ trading_halted (state w) = default false (st_trading_halted stored)
      /\ get_traded_symbols w = default ∅ (st_traded_symbols stored)
      /\ get_metrics w = default metrics_literal (st_metrics stored)).
Proof.
  split.
  - intros [-> | [-> | ->]]; repeat split.
  - intros [day equity trades halted [ledger|] [m|]] ->; repeat split.
Qed.

Section Loading.
Import Persistence.

Lemma merge_dict_run (items : gmap string json) ks p :
  Py.for_each ks (merge_key (JDict items)) p
  = (Py.Return tt,
     with_state
       (foldl (fun st key =>
                 match items !! key with
                 | Some v => <[key := Loaded v]> st
                 | None => st
                 end) (Persistence.state p) ks) p).
Proof.
  revert p. induction ks as [|key ks IH]; intros p; cbn.
  - now destruct p.
  - unfold Py.bind at 1, merge_key, Py.bind, item.
    destruct (items !! key) as [v|]; cbn; rewrite IH; reflexivity.
Qed.

Lemma merge_dict_lookup (items : gmap string json) ks
    (st : gmap string object) key :
  foldl (fun st key =>
           match items !! key with
           | Some v => <[key := Loaded v]> st
           | None => st
           end) st ks !! key
  = if bool_decide (key ∈ ks)
    then match items !! key with
         | Some v => Some (Loaded v)
         | None => st !! key
         end
    else st !! key.
Proof.
  revert st. induction ks as [|k ks IH]; intros st; cbn; [reflexivity|].
  rewrite IH. destruct (decide (key = k)) as [->|Hne].
  - rewrite (bool_decide_eq_true_2 (k ∈ k :: ks)) by left.
    destruct (items !! k) as [v|] eqn:Hk.
    + rewrite lookup_insert_eq. now destruct (bool_decide _).
    + now destruct (bool_decide _).
  - assert (E : bool_decide (key ∈ k :: ks) = bool_decide (key ∈ ks)).
    { apply bool_decide_ext. rewrite elem_of_cons. tauto. }
    rewrite E. destruct (items !! k); [rewrite lookup_insert_ne by auto|];
      reflexivity.
Qed.

(** Merging touches neither [DEFAULT_STATE] nor the disk. *)
Lemma merge_keeps_rest stored ks p :
  DEFAULT_STATE (snd (Py.for_each ks (merge_key stored) p)) = DEFAULT_STATE p
  /\ disk (snd (Py.for_each ks (merge_key stored) p)) = disk p.
Proof.
  revert p. induction ks as [|key ks IH]; intros p; cbn; [auto|].
  set (rest := Py.for_each ks (merge_key stored)) in *.
  unfold Py.bind, merge_key.
  destruct (item stored key) as [[v|]|e]; cbn; auto.
  destruct (IH (with_state (<[key := Loaded v]> (Persistence.state p)) p))
    as [H1 H2].
  rewrite H1, H2. auto.
Qed.

(** Merging from a value that is no dict changes nothing in the state. *)
Lemma merge_other_keeps_state stored ks p :
  (forall items, stored <> JDict items) ->
  Persistence.state (snd (Py.for_each ks (merge_key stored) p))
  = Persistence.state p.
Proof.
  intros Hother. revert p. induction ks as [|key ks IH]; intros p; cbn;
    [reflexivity|].
  unfold Py.bind at 1, merge_key, Py.bind.
  assert (Hitem : item stored key = Py.Return None
                  \/ exists e, item stored key = Py.Raise e).
  { destruct stored; cbn; eauto.
    - destruct (contains_text _ _); eauto.
    - destruct (existsb _ _); eauto.
    - now destruct (Hother items). }
  destruct Hitem as [-> | [e ->]]; cbn; [apply IH | reflexivity].
Qed.

Lemma DEFAULT_STATE_copy_lookup p key :
  DEFAULT_STATE_copy p !! key
  = if bool_decide (key ∈ (DEFAULT_STATE p).*1) then Some (Default key)
    else None.
Proof.
  unfold DEFAULT_STATE_copy.
  induction (DEFAULT_STATE p) as [|[k v] l IH]; cbn; [reflexivity|].
  destruct (decide (key = k)) as [->|Hne].
  - rewrite lookup_insert_eq.
    now rewrite (bool_decide_eq_true_2 (k ∈ k :: l.*1)) by left.
  - rewrite lookup_insert_ne by auto. rewrite IH.
    apply f_equal with (f := fun b : bool => if b then _ else _).
    apply bool_decide_ext. rewrite elem_of_cons. tauto.
Qed.

(** The [try] block of [load], entered with the default state, always ends
    normally: with the default state again, or with the keys of a stored
    dict merged into it. *)
Lemma restore_returns p :
  Persistence.state p = DEFAULT_STATE_copy p ->
  exists p',
    restore p = (Py.Return tt, p')
    /\ DEFAULT_STATE p' = DEFAULT_STATE p
    /\ disk p' = disk p
    /\ ((forall items, content (disk p) <> Parsed (JDict items)) ->
        Persistence.state p' = DEFAULT_STATE_copy p)
    /\ (forall items, content (disk p) = Parsed (JDict items) ->
        forall key,
          Persistence.state p' !! key
          = if bool_decide (key ∈ (DEFAULT_STATE p).*1)
            then Some (match items !! key with
                       | Some v => Loaded v
                       | None => Default key
                       end)
            else None).
Proof.
  intros Hst. unfold restore.
  destruct (content (disk p)) as [|e|stored] eqn:Hc.
  - exists p. repeat split; auto. intros items [=].
  - exists (with_state (DEFAULT_STATE_copy p) p).
    unfold Py.try_except, Py.bind, read_state_file. rewrite Hc. cbn.
    repeat split; auto. intros items [=].
  - unfold Py.try_except, Py.bind at 1, read_state_file. rewrite Hc.
    destruct stored as [| b | n | x | text | l | items].
    7: { rewrite merge_dict_run. eexists. split; [reflexivity|].
         cbn. repeat split; auto.
         - intros H. now destruct (H items).
         - intros items' [= <-] key. rewrite merge_dict_lookup, Hst.
           rewrite DEFAULT_STATE_copy_lookup.
           destruct (bool_decide _); [|reflexivity].
           now destruct (items !! key). }
    all: match goal with
         | |- context [Py.for_each ?ks (merge_key ?j) ?q] =>
             pose proof (merge_keeps_rest j ks q) as [HD Hd];
             pose proof (merge_other_keeps_state j ks q
                           ltac:(intros items; discriminate)) as Hs;
             destruct (Py.for_each ks (merge_key j) q) as [[[]|e] p''];
             cbn in HD, Hd, Hs
         end.
    all: try (exists p''; split; [reflexivity|];
              repeat split; auto; [congruence | intros items [=]]).
    all: exists (with_state (DEFAULT_STATE_copy p'') p''); cbn;
         split; [reflexivity|]; repeat split; auto;
         [ intros _; unfold DEFAULT_STATE_copy; now rewrite HD
         | intros items [=] ].
Qed.

Lemma save_outcome p :
  fst (Persistence.save p)
  = (if writable (disk p) then Py.Return tt else Py.Raise Py.OSError)
  /\ DEFAULT_STATE (snd (Persistence.save p)) = DEFAULT_STATE p
  /\ Persistence.state (snd (Persistence.save p)) = Persistence.state p
  /\ disk (snd (Persistence.save p))
     = (if writable (disk p)
        then {| content := Parsed (dump p); writable := true |}
        else disk p).
Proof. unfold Persistence.save. destruct (writable (disk p)); auto. Qed.

(** What building the state object does, for every disk. *)
Lemma BotState_new_outcome (d : Disk) :
  let out := Persistence.BotState_new d in
  let st := Persistence.state (snd out) in
  fst out = (if writable d then Py.Return tt else Py.Raise Py.OSError)
  /\ DEFAULT_STATE (snd out) = DEFAULT_STATE_literal
  /\ ((forall items, content d <> Parsed (JDict items)) ->
      st = DEFAULT_STATE_copy (snd out)
      /\ dump (snd out) = JDict (list_to_map DEFAULT_STATE_literal))
  /\ (forall items, content d = Parsed (JDict items) ->
      forall key,
        st !! key
        = if bool_decide (key ∈ keys)
          then Some (match items !! key with
                     | Some v => Loaded v
                     | None => Default key
                     end)
          else None)
  /\ disk (snd out)
     = (if writable d
        then {| content := Parsed (dump (snd out)); writable := true |}
        else d).
Proof.
  cbv zeta.
  pose (p0 := {| DEFAULT_STATE := DEFAULT_STATE_literal;
                 Persistence.state := ∅; disk := d |}).
  pose (p1 := with_state (DEFAULT_STATE_copy p0) p0).
  destruct (restore_returns p1 eq_refl) as (p2 & Hrun & HD & Hd & Hdef & Hdict).
  assert (Hout : Persistence.BotState_new d = Persistence.save p2).
  { unfold Persistence.BotState_new, BotState_init, Persistence.load,
      Py.bind, Py.modify.
    change (restore _) with (restore p1). now rewrite Hrun. }
  rewrite Hout. clear Hout.
  destruct (save_outcome p2) as (Hr & HD' & Hs' & Hd').
  change (DEFAULT_STATE p1) with DEFAULT_STATE_literal in *.
  change (disk p1) with d in *.
  change (DEFAULT_STATE_copy p1)
    with (list_to_map ((fun entry : string * json => (entry.1, Default entry.1))
                         <$> DEFAULT_STATE_literal) : gmap string object) in *.
  rewrite Hd in Hr, Hd'. rewrite HD in HD'.
  assert (Hdump : dump (snd (Persistence.save p2)) = dump p2).
  { unfold dump, value. now rewrite HD', Hs', HD. }
  split; [exact Hr|]. split; [exact HD'|].
  split; [|split].
  - intros Hother. rewrite Hs', (Hdef Hother). split.
    + unfold DEFAULT_STATE_copy. now rewrite HD'.
    + rewrite Hdump. unfold dump, value. rewrite (Hdef Hother), HD.
      vm_compute. reflexivity.
  - intros items Hc key. rewrite Hs'. apply (Hdict items Hc).
  - rewrite Hd', Hdump. reflexivity.
Qed.

(** C8: building the state object fails only when the state file cannot be
    written: [save()] then raises out of [load()].  Whatever the file
    holds, the state is as follows.  Without a file, with a file that
    cannot be read or parsed, and with parsed content that is no dict, it is
    the default state: every key with the object of [DEFAULT_STATE], so
    that it reads as the module text gives it.  From a parsed dict every
    key of [DEFAULT_STATE] that is present is taken with its stored value
    as it is, and every missing key keeps the default object.  A disk that
    takes the write then holds the state, and one that refuses it is left
    as it was. *)
Theorem load_tolerates_stored_content (d : Disk) :
  let out := Persistence.BotState_new d in
  let st := Persistence.state (snd out) in
  fst out = (if writable d then Py.Return tt else Py.Raise Py.OSError)
  /\ DEFAULT_STATE (snd out) = DEFAULT_STATE_literal
  /\ ((forall items, content d <> Parsed (JDict items)) ->
      st = DEFAULT_STATE_copy (snd out)
      /\ dump (snd out) = JDict (list_to_map DEFAULT_STATE_literal))
  /\ (forall items, content d = Parsed (JDict items) ->
      forall key,
        st !! key
        = if bool_decide (key ∈ keys)
          then Some (match items !! key with
                     | Some v => Loaded v
                     | None => Default key
                     end)
          else None)
  /\ disk (snd out)
     = (if writable d
        then {| content := Parsed (dump (snd out)); writable := true |}
        else d).
Proof. exact (BotState_new_outcome d). Qed.

(** On a state file that can be neither read nor written (a directory at
    its path, a file without permissions) building the state object
    raises: the [try] of [load()] resets the state, and the [save()] behind
    it fails. *)
Lemma load_raises_when_file_cannot_be_written :
  fst (Persistence.BotState_new
         {| content := Failing Py.OSError; writable := false |})
  = Py.Raise Py.OSError.
Proof. reflexivity. Qed.

(** A state file that holds only the day and an empty [metrics] dict: the
    day and the empty dict are taken as they are, so no key of the metrics
    is defaulted, and the other keys keep the objects of [DEFAULT_STATE]. *)
Example load_takes_partial_metrics :
  let stored : gmap string json :=
    {[ "trading_day"%string := JStr "2024-01-02";
       "metrics"%string := JDict ∅ ]} in
  let out :=
    Persistence.BotState_new
      {| content := Parsed (JDict stored); writable := true |} in
  fst out = Py.Return tt
  /\ Persistence.state (snd out) !! "trading_day"%string
     = Some (Loaded (JStr "2024-01-02"))
  /\ Persistence.state (snd out) !! "metrics"%string = Some (Loaded (JDict ∅))
  /\ Persistence.state (snd out) !! "traded_symbols"%string
     = Some (Default "traded_symbols")
  /\ Persistence.state (snd out) !! "trading_halted"%string
     = Some (Default "trading_halted").
Proof. vm_compute. repeat split. Qed.

End Loading.

(** The typed start-up of [State] is the start-up of [Persistence] on a
    state file whose present keys have the shape [save()] writes: whether
    or not the disk takes the final write, the state object holds, key by
    key, what the typed state holds. *)
Lemma put_lookup_eq key v d :
  Encoding.put key v d !! key = match v with Some x => Some x | None => d !! key end.
Proof. destruct v; cbn; [apply lookup_insert_eq | reflexivity]. Qed.

Lemma put_lookup_ne key key' v d :
  key <> key' -> Encoding.put key' v d !! key = d !! key.
Proof. intros H. destruct v; cbn; [now apply lookup_insert_ne | reflexivity]. Qed.

Lemma typed_start_up_agrees
    (isoformat : Z -> string) (file : File) (can_write : bool) :
  Encoding.represents isoformat
    (state (snd (BotState_new file)))
    (snd (Persistence.BotState_new
            {| Persistence.content := Encoding.of_file isoformat file;
               Persistence.writable := can_write |})).
Proof.
  destruct file as [| | |stored].
  1-3: destruct can_write; vm_compute; repeat split; reflexivity.
  set (d := {| Persistence.content := _ |}).
  destruct (BotState_new_outcome d) as (_ & HD & _ & Hdict & _).
  specialize (Hdict _ eq_refl).
  unfold Encoding.represents, Persistence.value. rewrite !Hdict, HD.
  change (state (snd (BotState_new (Json stored))))
    with (merge_stored stored DEFAULT_STATE_copy).
  destruct stored as [day equity trades halted ledger m].
  cbn [merge_stored st_trading_day st_start_equity st_trades_executed
       st_trading_halted st_traded_symbols st_metrics trading_day
       start_equity trades_executed trading_halted traded_symbols metrics
       DEFAULT_STATE_copy].
  repeat split;
    repeat (rewrite put_lookup_ne by discriminate);
    rewrite put_lookup_eq;
    repeat (rewrite put_lookup_ne by discriminate);
    rewrite lookup_empty.
  - now destruct day.
  - now destruct equity.
  - now destruct trades.
  - now destruct halted.
  - now destruct ledger.
  - now destruct m.
Qed.


(** *** Cooldown after a loss *)

(** Without an entry [True] in the ledger, [symbol_in_cooldown] returns,
    and it returns true exactly for a parsable loss timestamp less than
    [cooldown_minutes] old. *)
Lemma symbol_in_cooldown_true_iff now symbol cooldown_minutes w :
  symbol_in_cooldown now symbol cooldown_minutes w = Py.Return true
  <-> exists d ts,
        get_traded_symbols w !! symbol = Some (EDict d)
        /\ d !! "last_loss_at"%string = Some (Iso ts)
        /\ (now - ts < cooldown_minutes * 60 * 1000000)%Z.
Proof.
  assert (Hcmp : forall ts,
    Py.Qlt_bool (inject_Z (now - ts) / 1000000)
                (inject_Z (cooldown_minutes * 60)) = true
    <-> (now - ts < cooldown_minutes * 60 * 1000000)%Z).
  { intros ts. rewrite Qlt_bool_iff, (Zlt_Qlt (now - ts)).
    rewrite (inject_Z_mult (cooldown_minutes * 60) 1000000).
    change (inject_Z 1000000) with 1000000.
    set (a := inject_Z (now - ts)). set (b := inject_Z (cooldown_minutes * 60)).
    assert (a / 1000000 == a * (1 # 1000000)) as -> by field.
    split; intros; lra. }
  unfold symbol_in_cooldown. split.
  - destruct (get_traded_symbols w !! symbol) as [[[]|d]|]; try discriminate.
    destruct (d !! "last_loss_at"%string) as [[ts|]|] eqn:Hd;
      try discriminate.
    cbn. intros [= H]. apply Hcmp in H. eauto.
  - intros (d & ts & -> & -> & H). cbn. f_equal. now apply Hcmp.
Qed.

Lemma symbol_in_cooldown_returns now symbol cooldown_minutes w :
  get_traded_symbols w !! symbol <> Some (EBool true) ->
  exists b, symbol_in_cooldown now symbol cooldown_minutes w = Py.Return b.
Proof.
  unfold symbol_in_cooldown. intros H.
  destruct (get_traded_symbols w !! symbol) as [[[]|d]|]; eauto;
    [congruence|].
  destruct (d !! "last_loss_at"%string) as [[ts|]|]; cbn; eauto.
Qed.

(** The bound is strict: a loss exactly sixty minutes old no longer cools
    the symbol down, one a microsecond younger does. *)
Example symbol_in_cooldown_boundary :
  let w := update_metrics 0 "AAPL" (-5) 100 95 (snd (BotState_new NoFile)) in
  symbol_in_cooldown 3600000000 "AAPL" 60 w = Py.Return false
  /\ symbol_in_cooldown 3599999999 "AAPL" 60 w = Py.Return true
  /\ symbol_in_cooldown 3600000000 "MSFT" 60 w = Py.Return false.
Proof. repeat split. Qed.

(** C9, the code at the failing input: for a symbol that [record_symbol_trade]
    marked as traded, and that has no loss timestamp, [symbol_in_cooldown]
    raises [TypeError] where false is due. *)
Theorem symbol_in_cooldown_raises_for_traded_symbol (now : Z) :
  let w := record_symbol_trade "AAPL" (snd (BotState_new NoFile)) in
  get_traded_symbols w !! "AAPL"%string = Some (EBool true)
  /\ symbol_in_cooldown now "AAPL" Config.SYMBOL_COOLDOWN_MIN w
     = Py.Raise Py.TypeError.
Proof. split; reflexivity. Qed.

(** *** Trade metrics *)

(** C10: a trade with zero profit counts as a win and writes no cooldown
    marker; the marker is written exactly for a strictly negative profit. *)
Theorem update_metrics_breakeven_is_win
    (now : Z) (symbol : string) (pnl entry exit : Q) (w : World) :
  let w' := update_metrics now symbol pnl entry exit w in
  (pnl == 0 ->
   wins (get_metrics w') = (wins (get_metrics w) + 1)%Z
   /\ losses (get_metrics w') = losses (get_metrics w)
   /\ gross_loss (get_metrics w') = gross_loss (get_metrics w)
   /\ gross_profit (get_metrics w') == gross_profit (get_metrics w)
   /\ get_traded_symbols w' = get_traded_symbols w)
  /\ (0 <= pnl -> get_traded_symbols w' = get_traded_symbols w)
  /\ (pnl < 0 ->
      get_traded_symbols w'
      = <[symbol := EDict {[ "last_loss_at"%string := Iso now ]}]>
          (get_traded_symbols w)).
Proof.
  cbv zeta. unfold update_metrics.
  destruct (Py.Qlt_bool pnl 0) eqn:Hneg.
  - apply Qlt_bool_iff in Hneg.
    split; [intros; exfalso; lra|]. split; [intros; exfalso; lra|].
    intros _.
    rewrite get_traded_symbols_save, get_traded_symbols_mutate_traded_symbols,
      get_traded_symbols_save, get_traded_symbols_mutate_metrics.
    reflexivity.
  - apply Qlt_bool_false in Hneg.
    rewrite get_metrics_save, get_metrics_mutate_metrics,
      get_traded_symbols_save, get_traded_symbols_mutate_metrics.
    split; [|split; [reflexivity | intros; exfalso; lra]].
    intros Hz. unfold count_trade; cbn.
    assert (Qle_bool 0 pnl = true) as -> by (apply Qle_bool_iff; lra).
    repeat split. rewrite Hz. ring.
Qed.

Lemma update_metrics_breakeven_is_win_witness :
  let w := snd (BotState_new NoFile) in
  wins (get_metrics (update_metrics 0 "AAPL" 0 100 100 w)) = 1%Z
  /\ get_traded_symbols (update_metrics 0 "AAPL" 0 100 100 w) = ∅
  /\ get_traded_symbols (update_metrics 7 "AAPL" (-5) 100 95 w)
     = {[ "AAPL"%string := EDict {[ "last_loss_at"%string := Iso 7 ]} ]}.
Proof.
  cbv zeta. set (w := snd (BotState_new NoFile)).
  pose proof (update_metrics_breakeven_is_win 0 "AAPL" 0 100 100 w) as H0.
  pose proof (update_metrics_breakeven_is_win 7 "AAPL" (-5) 100 95 w) as H5.
  cbv zeta in H0, H5.
  destruct H0 as (Hzero & Hwin & _). destruct H5 as (_ & _ & Hloss).
  split; [|split].
  - apply Hzero. reflexivity.
  - apply Hwin. vm_compute. intros H; discriminate H.
  - rewrite Hloss by reflexivity. reflexivity.
Defined.

(** ** bot/execution.py *)

Import Execution.

Lemma py_int_whole (q : Q) (n : Z) : q == inject_Z n -> Py.int q = n.
Proof.
  unfold Qeq, Py.int, inject_Z. cbn [Qnum Qden]. intros H.
  rewrite Z.mul_1_r in H. rewrite H. apply Z.quot_mul. discriminate.
Qed.

Lemma last_ema_is_Some span bars :
  bars <> [] -> is_Some (last_ema span bars).
Proof.
  intros H. unfold last_ema. apply iloc_back_is_Some.
  rewrite length_ewm_mean, length_map. destruct bars; [congruence|cbn; lia].
Qed.

Lemma stop_price_nonneg anchor :
  0 <= anchor -> 0 <= Risk.calculate_stop_price anchor.
Proof.
  intros H. unfold Risk.calculate_stop_price.
  assert (E : Py.round 0 4 == 0) by reflexivity.
  rewrite <- E. apply round4_mono. unfold STOP_LOSS_PCT. lra.
Qed.

(** A submitted sell is appended to the accepted orders when the gateway
    takes it. *)
Lemma sell_then_return api symbol qty (v : option exit_info) accepted :
  api_submit_order api
    {| sub_symbol := symbol; sub_qty := qty; sub_side := "sell" |}
  = Py.Return tt ->
  (submit_market_sell api symbol qty ;; Py.ret v) accepted
  = (Py.Return v,
     accepted ++ [{| sub_symbol := symbol; sub_qty := qty; sub_side := "sell" |}]).
Proof.
  intros H. unfold Py.bind, submit_market_sell, submit. now rewrite H.
Qed.

(** Whatever the gateway answers, one call adds at most one order. *)
Lemma manage_open_position_at_most_one_order
    api symbol bars day_start accepted :
  exists orders,
    snd (manage_open_position api symbol bars day_start accepted)
    = accepted ++ orders
    /\ (length orders <= 1)%nat.
Proof.
  assert (Hsell : forall qty (v : option exit_info),
    exists orders,
      snd ((submit_market_sell api symbol qty ;; Py.ret v) accepted)
      = accepted ++ orders /\ (length orders <= 1)%nat).
  { intros qty v. unfold Py.bind, submit_market_sell, submit.
    destruct (api_submit_order api _); cbn.
    - eexists [_]. split; [reflexivity | cbn; lia].
    - exists []. rewrite app_nil_r. split; [reflexivity | cbn; lia]. }
  assert (Hnone : exists orders : list Submission,
    accepted = accepted ++ orders /\ (length orders <= 1)%nat).
  { exists []. rewrite app_nil_r. split; [reflexivity | cbn; lia]. }
  unfold manage_open_position.
  destruct (get_position api symbol); [|exact Hnone].
  destruct (iloc_back bars 1); [|destruct bars; exact Hnone].
  destruct bars as [|first_bar rest]; [exact Hnone|].
  destruct (latest_buy_fill api symbol day_start) as [filled_price filled_at].
  cbv zeta.
  destruct (Qle_bool _ _); [apply Hsell|].
  destruct (match Risk.trailing_stop_price _ _ with
            | Some t => _ | None => false end); [apply Hsell|].
  destruct (last_ema 21 _); [|exact Hnone].
  destruct (last_ema 50 _); [|exact Hnone].
  destruct (Py.Qlt_bool _ _); [apply Hsell | exact Hnone].
Qed.

(** C3: with an open position and a gateway that takes the sell, one call
    fires the stop if the last close is at or below the stop price; else
    the trailing exit if a trailing price is active and the last close is at
    or below it; else the trend flip if the fast average is below the slow
    one; else nothing.  An exit submits one sell of the position's whole
    shares and returns the reason, the anchor price, the last close and
    that quantity. *)
Theorem manage_open_position_priority
    (api : Api) (symbol : string) (bars : list Bar) (day_start : option Z)
    (accepted : list Submission) (position : Position) (last_bar : Bar) :
  get_position api symbol = Some position ->
  iloc_back bars 1 = Some last_bar ->
  api_submit_order api (liquidation symbol position) = Py.Return tt ->
  let anchor := anchor_price api symbol day_start position in
  let high := highest_since_entry api symbol day_start bars in
  let last := b_close last_bar in
  let stop := Risk.calculate_stop_price anchor in
  let trailing := Risk.trailing_stop_price anchor high in
  let qty := whole_shares position in
  let out := manage_open_position api symbol bars day_start accepted in
  let exit reason :=
    (Py.Return (Some (reason, anchor, last, qty)),
     accepted ++ [liquidation symbol position]) in
  exists fast slow,
    last_ema 21 bars = Some fast
    /\ last_ema 50 bars = Some slow
    /\ (exists orders, snd out = accepted ++ orders /\ (length orders <= 1)%nat)
    /\ (forall n, pos_qty position == inject_Z n -> qty = Z.abs n)
    /\ (last <= stop -> out = exit "stop"%string)
    /\ (stop < last -> (exists t, trailing = Some t /\ last <= t) ->
        out = exit "trail"%string)
    /\ (stop < last -> (forall t, trailing = Some t -> t < last) ->
        fast < slow -> out = exit "trend_flip"%string)
    /\ (stop < last -> (forall t, trailing = Some t -> t < last) ->
        slow <= fast -> out = (Py.Return None, accepted)).
Proof.
  intros Hpos Hlast Hsell. cbv zeta.
  assert (Hne : bars <> []).
  { intros ->. discriminate Hlast. }
  destruct (last_ema_is_Some 21 bars Hne) as [fast Hfast].
  destruct (last_ema_is_Some 50 bars Hne) as [slow Hslow].
  exists fast, slow. split; [assumption|]. split; [assumption|].
  split; [apply manage_open_position_at_most_one_order|].
  split.
  { intros n Hn. unfold whole_shares. now rewrite (py_int_whole _ _ Hn). }
  unfold manage_open_position, anchor_price, highest_since_entry.
  rewrite Hpos, Hlast, Hfast, Hslow.
  destruct bars as [|first_bar rest]; [congruence|].
  destruct (latest_buy_fill api symbol day_start) as [filled_price filled_at].
  cbn [fst snd].
  set (anchor := Py.or_else filled_price (pos_avg_entry_price position)).
  set (high := match _ with [] => 0 | r :: rs => highest r rs end).
  set (stop := Risk.calculate_stop_price anchor).
  set (last := b_close last_bar).
  unfold liquidation in *.
  repeat split.
  - intros Hstop. apply Qle_bool_iff in Hstop. rewrite Hstop.
    now apply sell_then_return.
  - intros Hstop (t & Ht & Hle). apply Qle_bool_false in Hstop.
    rewrite Hstop, Ht.
    assert (Htruthy : Py.truthy t = true).
    { apply trailing_stop_price_some in Ht as (_ & Hanchor & _).
      pose proof (stop_price_nonneg anchor ltac:(lra)) as Hs.
      apply Qle_bool_false in Hstop. fold stop in Hs.
      unfold Py.truthy. apply negb_true_iff.
      destruct (Qeq_bool t 0) eqn:E; [|reflexivity].
      apply Qeq_bool_iff in E. exfalso. lra. }
    apply Qle_bool_iff in Hle. rewrite Htruthy, Hle.
    now apply sell_then_return.
  - intros Hstop Htrail Hflip. apply Qle_bool_false in Hstop. rewrite Hstop.
    assert (match Risk.trailing_stop_price anchor high with
            | Some t => Py.truthy t && Qle_bool last t
            | None => false
            end = false) as ->.
    { destruct (Risk.trailing_stop_price anchor high) as [t|]; [|reflexivity].
      specialize (Htrail t eq_refl). apply Qle_bool_false in Htrail.
      rewrite Htrail. apply andb_false_r. }
    apply Qlt_bool_iff in Hflip. rewrite Hflip.
    now apply sell_then_return.
  - intros Hstop Htrail Hhold. apply Qle_bool_false in Hstop. rewrite Hstop.
    assert (match Risk.trailing_stop_price anchor high with
            | Some t => Py.truthy t && Qle_bool last t
            | None => false
            end = false) as ->.
    { destruct (Risk.trailing_stop_price anchor high) as [t|]; [|reflexivity].
      specialize (Htrail t eq_refl). apply Qle_bool_false in Htrail.
      rewrite Htrail. apply andb_false_r. }
    apply Qlt_bool_false in Hhold. rewrite Hhold. reflexivity.
Qed.

Lemma manage_open_position_priority_witness :
  manage_open_position Scenario.holding_api "XYZ" Scenario.falling (Some 0%Z) []
  = (Py.Return (Some ("trend_flip"%string, 98, 100, 10%Z)),
     [liquidation "XYZ" Scenario.xyz_position]).
Proof.
  destruct (manage_open_position_priority
              Scenario.holding_api "XYZ" Scenario.falling (Some 0%Z) []
              Scenario.xyz_position (Scenario.falling_bar 51)
              eq_refl eq_refl eq_refl)
    as (fast & slow & Hfast & Hslow & _ & _ & _ & _ & Hflip & _).
  apply Hflip.
  - reflexivity.
  - intros t Ht. vm_compute in Ht. injection Ht as <-. reflexivity.
  - vm_compute in Hfast, Hslow.
    injection Hfast as <-. injection Hslow as <-. reflexivity.
Defined.

(** ** bot/main.py *)

(** A pass without candidates returns. *)
Lemma trading_loop_idle_pass_returns :
  fst (Main.trading_loop default_env NoFile
         [Scenario.idle_pass "2024-01-02" 100000])
  = Py.Return tt.
Proof. reflexivity. Qed.

(** A candidate that passes every guard before the exposure cap raises
    [UnboundLocalError] when no assignment has bound [qty] yet. *)
Lemma evaluate_candidate_unbound_qty
    env t equity benchmark_perf candidate s entry_price reason :
  Main.qty s = None ->
  has_traded_symbol (Data.c_symbol candidate) (Main.world s) = false ->
  get_position (Main.api t) (Data.c_symbol candidate) = None ->
  symbol_in_cooldown (Main.now t) (Data.c_symbol candidate)
    SYMBOL_COOLDOWN_MIN (Main.world s) = Py.Return false ->
  check_entry_signal (Some (Data.c_bars candidate)) benchmark_perf
    (<[ "ret_day"%string := Some (Data.c_ret_day candidate) ]>
     (<[ "ret_1h"%string := Data.c_ret_1h candidate ]>
      (<[ "ret_3h"%string := Data.c_ret_3h candidate ]> ∅)))
    (Some (Data.c_vol_ratio candidate))
  = Py.Return (true, Some entry_price, reason) ->
  Data.bar_meets_dollar_volume env (Data.c_bars candidate) = true ->
  Data.latest_spread_ok env (Main.api t) (Data.c_symbol candidate) = true ->
  has_open_order (Main.api t) (Data.c_symbol candidate) = false ->
  Main.evaluate_candidate env t equity benchmark_perf candidate s
  = (Py.Raise Py.UnboundLocalError, s).
Proof.
  intros Hqty Htraded Hpos Hcool Hsignal Hvol Hspread Horder.
  unfold Main.evaluate_candidate, Py.bind, Main.ask, Main.read_qty.
  rewrite Htraded, Hpos.
  rewrite bool_decide_eq_false_2 by (intros [p Hp]; discriminate Hp).
  rewrite Hcool, Hsignal, Hvol, Hspread, Horder. cbn [negb].
  cbv beta. rewrite Hqty. reflexivity.
Qed.

(** C2, the code at the failing input: a loop started without a state file
    whose first pass finds no position and a gateway that lists one asset
    with sixty rising bars.  [build_trending_universe] returns one candidate
    for it, the candidate passes the signal, liquidity, spread and open-order
    guards, and the pass ends with an uncaught [UnboundLocalError]; nothing
    was bought and [qty] is still unbound. *)
Theorem trading_loop_raises_at_exposure_cap :
  let run :=
    Main.trading_loop default_env NoFile [Scenario.first_pass] in
  (exists candidate,
     Ranking.build_trending_universe
       (Main.list_assets Scenario.first_pass)
       (fun sym => Main.get_bars Scenario.first_pass sym 120)
     = Py.Return [candidate]
     /\ Data.c_symbol candidate = "UP"%string
     /\ Data.c_bars candidate = Scenario.surging)
  /\ fst run = Py.Raise Py.UnboundLocalError
  /\ Main.accepted (snd run) = []
  /\ Main.qty (snd run) = None.
Proof.
  cbv zeta. split.
  - eexists. split; [vm_compute; reflexivity|]. split; reflexivity.
  - vm_compute. repeat split.
Qed.

(** * Further properties *)

(** ** bot/risk.py: sizing and the two stops *)

(** With the constants of the module the cap of [MAX_POSITION_PCT] is never
    above the risk-based quantity, so it decides the size. *)
Lemma position_size_is_capped equity entry aggressive :
  0 < equity -> 0 < entry ->
  Risk.calculate_position_size equity entry aggressive
  = Qfloor (equity * MAX_POSITION_PCT / entry).
Proof.
  intros He Hp.
  unfold Risk.calculate_position_size, MAX_POSITION_PCT, STOP_LOSS_PCT.
  assert (Qle_bool equity 0 = false) as -> by (apply Qle_bool_false; lra).
  assert (Qle_bool entry 0 = false) as -> by (apply Qle_bool_false; lra).
  cbn [orb].
  assert (Qle_bool (entry * (7 # 1000)) 0 = false) as ->
    by (apply Qle_bool_false; lra).
  set (risk_pct := if negb aggressive then _ else _).
  set (q0 := Qfloor (equity * risk_pct / (entry * (7 # 1000)))).
  set (qcap := Qfloor (equity * (1 # 10) / entry)).
  assert (Hrisk : RISK_PER_TRADE_PCT <= risk_pct).
  { subst risk_pct. destruct aggressive; vm_compute; intros H; discriminate H. }
  unfold RISK_PER_TRADE_PCT in Hrisk.
  assert (Hx : 0 < equity / entry) by (apply Qlt_shift_div_l; lra).
  assert (Hle : (qcap <= q0)%Z).
  { apply Qfloor_resp_le.
    assert (E1 : equity * (1 # 10) / entry == equity / entry * (1 # 10))
      by (field; lra).
    assert (E2 : equity * risk_pct / (entry * (7 # 1000))
                 == equity / entry * (risk_pct * (1000 # 7))) by (field; lra).
    rewrite E1, E2.
    apply Qmult_le_l; [exact Hx | lra]. }
  assert (Hcap0 : (0 <= qcap)%Z).
  { change 0%Z with (Qfloor 0). apply Qfloor_resp_le.
    apply Qle_shift_div_l; lra. }
  cbv zeta.
  destruct (Py.Qlt_bool (equity * (1 # 10)) (inject_Z q0 * entry)) eqn:Hc;
    cbn [andb].
  - assert (Py.Qlt_bool 0 entry = true) as -> by (apply Qlt_bool_iff; lra).
    fold qcap. lia.
  - apply Qlt_bool_false in Hc.
    assert (Hq : inject_Z q0 <= equity * (1 # 10) / entry)
      by (apply Qle_shift_div_l; lra).
    apply Qfloor_resp_le in Hq. rewrite Qfloor_Z in Hq. fold qcap in Hq. lia.
Qed.

(** X1: for a positive equity and entry price the quantity is
    [floor(equity * MAX_POSITION_PCT / entry)]: the 10% cap always decides,
    and the aggressive flag changes nothing. *)
Theorem position_size_ignores_risk_setting (equity entry : Q) :
  0 < equity -> 0 < entry ->
  Risk.calculate_position_size equity entry false
  = Qfloor (equity * MAX_POSITION_PCT / entry)
  /\ Risk.calculate_position_size equity entry true
     = Risk.calculate_position_size equity entry false.
Proof.
  intros He Hp. split.
  - now apply position_size_is_capped.
  - now rewrite !position_size_is_capped.
Qed.

Lemma position_size_ignores_risk_setting_witness :
  Risk.calculate_position_size 100000 50 false = Qfloor (100000 * (1 # 10) / 50)
  /\ Risk.calculate_position_size 100000 50 true
     = Risk.calculate_position_size 100000 50 false.
Proof.
  apply (position_size_ignores_risk_setting 100000 50); reflexivity.
Defined.

(** X2: whenever the trailing stop is active it is at or above the fixed
    stop of the same entry. *)
Theorem trailing_stop_not_below_fixed_stop (entry high t : Q) :
  Risk.trailing_stop_price entry high = Some t ->
  Risk.calculate_stop_price entry <= t.
Proof.
  intros H. apply trailing_stop_price_some in H as (_ & He & Htrig & ->).
  unfold Risk.calculate_stop_price. apply round4_mono.
  unfold TRAIL_TRIGGER_PCT in Htrig. unfold STOP_LOSS_PCT, TRAIL_OFFSET_PCT.
  lra.
Qed.

Lemma trailing_stop_not_below_fixed_stop_witness :
  Risk.calculate_stop_price 100 <= 1002820 # 10000.
Proof.
  apply (trailing_stop_not_below_fixed_stop 100 (1015 # 10)). reflexivity.
Defined.

(** X3: for an entry above 1/140 (so for every price of a cent or more) the
    fixed stop is strictly below the entry and within 0.00005 of 99.3% of
    it. *)
Theorem stop_price_below_entry (entry : Q) :
  1 # 20000 < entry * STOP_LOSS_PCT ->
  Risk.calculate_stop_price entry < entry
  /\ entry * (1 - STOP_LOSS_PCT) - (1 # 20000)
     <= Risk.calculate_stop_price entry.
Proof.
  intros H. unfold Risk.calculate_stop_price.
  pose proof (round4_near (entry * (1 - STOP_LOSS_PCT))) as Hn.
  split; lra.
Qed.

Lemma stop_price_below_entry_witness :
  Risk.calculate_stop_price (1 # 100) < 1 # 100.
Proof.
  apply (stop_price_below_entry (1 # 100)). reflexivity.
Defined.

(** ** bot/strategy.py: the moving average and the verdict *)

Lemma ewm_from_bounds alpha lo hi prev xs :
  0 <= alpha <= 1 -> lo <= prev <= hi ->
  Forall (fun x => lo <= x <= hi) xs ->
  Forall (fun y => lo <= y <= hi) (ewm_from alpha prev xs).
Proof.
  intros Ha Hp Hxs. revert prev Hp.
  induction Hxs as [|x xs Hx _ IH]; intros prev Hp; cbn; constructor.
  - split; nra.
  - apply IH. split; nra.
Qed.

(** X4: an exponential average of span at least 1 stays within the bounds
    of the series it averages, and has one value per value of the
    series. *)
Theorem ewm_mean_within_bounds (span : Z) (lo hi : Q) (xs : list Q) :
  (1 <= span)%Z ->
  Forall (fun x => lo <= x <= hi) xs ->
  Forall (fun y => lo <= y <= hi) (ewm_mean span xs)
  /\ length (ewm_mean span xs) = length xs.
Proof.
  intros Hspan Hxs. split; [|apply length_ewm_mean].
  destruct Hxs as [|x xs Hx Hxs]; cbn; constructor; [exact Hx|].
  apply ewm_from_bounds; [|exact Hx|exact Hxs].
  assert (Hs : 1 <= inject_Z span).
  { change 1 with (inject_Z 1). now rewrite <- Zle_Qle. }
  assert (Hd : 0 < inject_Z span + 1) by lra.
  split.
  - apply Qle_shift_div_l; lra.
  - apply Qle_shift_div_r; lra.
Qed.

Lemma ewm_mean_within_bounds_witness :
  Forall (fun y => 100 <= y <= 151)
         (ewm_mean 21 (map b_close Scenario.rising)).
Proof.
  apply (ewm_mean_within_bounds 21 100 151); [lia|].
  vm_compute.
  repeat (constructor;
          [split; intros H; discriminate H|]).
  constructor.
Defined.

(** X5: [check_entry_signal] returns a verdict on every input, and the
    verdict carries a price exactly when its signal is true. *)
Theorem check_entry_signal_price_iff_signal
    (bars : option (list Bar)) (benchmark_perf : Q)
    (recent_metrics : gmap string (option Q)) (volume_ratio : option Q) :
  exists signal price reason,
    check_entry_signal bars benchmark_perf recent_metrics volume_ratio
    = Py.Return (signal, price, reason)
    /\ (signal = true <-> is_Some price).
Proof.
  assert (Hno : forall reason : string,
    exists signal price reason',
      Py.Return (false, @None Q, reason) = Py.Return (signal, price, reason')
      /\ (signal = true <-> is_Some price)).
  { intros reason. exists false, None, reason. split; [reflexivity|].
    split; [discriminate | intros [x Hx]; discriminate Hx]. }
  unfold check_entry_signal. destruct bars as [bars|]; [|apply Hno].
  destruct (Z.ltb_spec (Z.of_nat (length bars)) (EMA_SLOW + 2)) as [|Hlen];
    [apply Hno|].
  unfold EMA_SLOW in Hlen.
  destruct (iloc_back_is_Some (add_trend_columns bars) 1) as [last ->];
    [rewrite length_add_trend_columns; lia|].
  destruct (iloc_back_is_Some (add_trend_columns bars) 2) as [prev ->];
    [rewrite length_add_trend_columns; lia|].
  destruct (_ || _); [apply Hno|].
  destruct (negb _); [apply Hno|].
  destruct volume_ratio as [vr|]; [|apply Hno].
  destruct (Py.Qlt_bool vr _); [apply Hno|].
  destruct (Qle_bool _ _); [apply Hno|].
  eexists true, _, _. split; [reflexivity|]. split; eauto.
Qed.

(** ** bot/state.py: persistence, the ledger and the accounts *)

(** X6: what [save] wrote is what a restarted process loads: a state object
    built over the saved file reads every key as it was, owns its two dicts
    instead of sharing those of [DEFAULT_STATE], and writes the file back
    as it found it. *)
Theorem save_then_restart (w : World) :
  let w' := snd (BotState_new (STATE_FILE (save w))) in
  trading_day (state w') = trading_day (state w)
  /\ start_equity (state w') = start_equity (state w)
  /\ trades_executed (state w') = trades_executed (state w)
  /\ trading_halted (state w') = trading_halted (state w)
  /\ traded_symbols (state w') = Owned (get_traded_symbols w)
  /\ metrics (state w') = Owned (get_metrics w)
  /\ STATE_FILE w' = STATE_FILE (save w).
Proof. repeat split. Qed.

(** X7: in a state restored from a saved file, the reset for a new day
    does zero the metrics, whatever they were. *)
Theorem reset_after_restart_zeroes_metrics
    (w : World) (today : string) (equity : Q) :
  trading_day (state w) <> Some today ->
  let w' := snd (BotState_new (STATE_FILE (save w))) in
  get_metrics (reset_for_day today equity w') = metrics_literal
  /\ get_traded_symbols (reset_for_day today equity w') = ∅
  /\ start_equity (state (reset_for_day today equity w')) = Some equity.
Proof.
  intros Hday. cbv zeta. unfold reset_for_day.
  rewrite bool_decide_eq_false_2 by exact Hday.
  repeat split.
Qed.

Lemma reset_after_restart_zeroes_metrics_witness :
  let w := update_drawdown 90 (update_drawdown 100 (snd (BotState_new NoFile))) in
  let w' := snd (BotState_new (STATE_FILE (save w))) in
  max_drawdown (get_metrics w') == - (1 # 10)
  /\ get_metrics (reset_for_day "2024-01-02" 90 w') = metrics_literal.
Proof.
  split; [reflexivity|].
  apply (reset_after_restart_zeroes_metrics
           (update_drawdown 90 (update_drawdown 100 (snd (BotState_new NoFile))))
           "2024-01-02" 90).
  discriminate.
Defined.

Lemma has_traded_symbol_insert symbol symbol' e w :
  has_traded_symbol symbol'
    (save (mutate_traded_symbols (fun t => <[symbol := e]> t) w))
  = if bool_decide (symbol' = symbol) then entry_truthy e
    else has_traded_symbol symbol' w.
Proof.
  unfold has_traded_symbol.
  rewrite get_traded_symbols_save, get_traded_symbols_mutate_traded_symbols.
  case_bool_decide as H.
  - subst. now rewrite lookup_insert_eq.
  - now rewrite lookup_insert_ne by congruence.
Qed.

(** X8: [record_symbol_trade] marks its symbol as traded and leaves every
    other symbol, the metrics, the day and the halt flag as they were. *)
Theorem record_symbol_trade_marks_one_symbol
    (symbol symbol' : string) (w : World) :
  let w' := record_symbol_trade symbol w in
  has_traded_symbol symbol' w'
  = (bool_decide (symbol' = symbol) || has_traded_symbol symbol' w)
  /\ get_metrics w' = get_metrics w
  /\ trading_day (state w') = trading_day (state w)
  /\ trades_executed (state w') = trades_executed (state w)
  /\ trading_halted (state w') = trading_halted (state w).
Proof.
  cbv zeta. unfold record_symbol_trade. split.
  - rewrite has_traded_symbol_insert. now case_bool_decide.
  - rewrite get_metrics_save, get_metrics_mutate_traded_symbols.
    unfold mutate_traded_symbols.
    destruct (traded_symbols (state w)); repeat split.
Qed.

(** X9: for a symbol that [has_traded_symbol] reports as not traded,
    [symbol_in_cooldown] returns false: behind the traded-today test of the
    loop the cooldown test never holds a symbol back and never raises. *)
Theorem untraded_symbol_is_not_cooling
    (now : Z) (symbol : string) (cooldown_minutes : Z) (w : World) :
  has_traded_symbol symbol w = false ->
  symbol_in_cooldown now symbol cooldown_minutes w = Py.Return false.
Proof.
  unfold has_traded_symbol, symbol_in_cooldown.
  destruct (get_traded_symbols w !! symbol) as [[[]|d]|]; cbn;
    try discriminate; try reflexivity.
  case_bool_decide as Hd; [|discriminate]. subst d. intros _.
  now rewrite lookup_empty.
Qed.

Lemma untraded_symbol_is_not_cooling_witness :
  symbol_in_cooldown 0 "MSFT" 60
    (update_metrics 0 "AAPL" (-5) 100 95 (snd (BotState_new NoFile)))
  = Py.Return false.
Proof.
  apply untraded_symbol_is_not_cooling. reflexivity.
Defined.

(** X10: a losing trade marks its symbol as traded for the day and starts
    its cooldown; a trade that does not lose changes no symbol's mark. *)
Theorem update_metrics_marks_loser
    (now : Z) (symbol symbol' : string) (pnl entry exit : Q) (w : World) :
  let w' := update_metrics now symbol pnl entry exit w in
  (pnl < 0 ->
   has_traded_symbol symbol w' = true
   /\ (forall minutes, (0 < minutes)%Z ->
       symbol_in_cooldown now symbol minutes w' = Py.Return true)
   /\ (symbol' <> symbol ->
       has_traded_symbol symbol' w' = has_traded_symbol symbol' w))
  /\ (0 <= pnl -> has_traded_symbol symbol' w' = has_traded_symbol symbol' w).
Proof.
  cbv zeta. unfold update_metrics.
  destruct (Py.Qlt_bool pnl 0) eqn:Hneg.
  - apply Qlt_bool_iff in Hneg. split; [|intros; exfalso; lra].
    intros _. split; [|split].
    + rewrite has_traded_symbol_insert, bool_decide_eq_true_2 by reflexivity.
      reflexivity.
    + intros minutes Hm. apply symbol_in_cooldown_true_iff.
      exists {[ "last_loss_at"%string := Iso now ]}, now.
      rewrite get_traded_symbols_save,
        get_traded_symbols_mutate_traded_symbols, lookup_insert_eq.
      split; [reflexivity|]. split; [reflexivity | lia].
    + intros Hne.
      rewrite has_traded_symbol_insert, bool_decide_eq_false_2 by exact Hne.
      unfold has_traded_symbol.
      now rewrite get_traded_symbols_save, get_traded_symbols_mutate_metrics.
  - apply Qlt_bool_false in Hneg. split; [intros; exfalso; lra|].
    intros _. unfold has_traded_symbol.
    now rewrite get_traded_symbols_save, get_traded_symbols_mutate_metrics.
Qed.

Lemma update_metrics_marks_loser_witness :
  let w := snd (BotState_new NoFile) in
  has_traded_symbol "AAPL" (update_metrics 0 "AAPL" (-5) 100 95 w) = true
  /\ has_traded_symbol "AAPL" (update_metrics 0 "AAPL" 5 100 105 w)
     = has_traded_symbol "AAPL" w.
Proof.
  cbv zeta. split.
  - apply (proj1 (update_metrics_marks_loser
                    0 "AAPL" "AAPL" (-5) 100 95 (snd (BotState_new NoFile)))).
    reflexivity.
  - apply (proj2 (update_metrics_marks_loser
                    0 "AAPL" "AAPL" 5 100 105 (snd (BotState_new NoFile)))).
    vm_compute. intros H; discriminate H.
Defined.

Import Dashboard.

Lemma count_trade_accounts symbol pnl m :
  accounts_ok m -> accounts_ok (count_trade symbol pnl m).
Proof.
  unfold accounts_ok, count_trade; cbn.
  intros (Hw & Hl & Ht & Hgp & Hgl & Hw0 & Hl0).
  destruct (Qle_bool 0 pnl) eqn:Hwin.
  - apply Qle_bool_iff in Hwin.
    repeat split; first [assumption | lia | lra | (intros; lia)].
  - apply Qle_bool_false in Hwin.
    repeat split; first [assumption | lia | lra | (intros; lia)].
Qed.

(** X11: [update_metrics] keeps the books consistent: wins and losses add
    up to the trades, gross profit is never negative and gross loss never
    positive, and a side without trades has no amount; each call adds its
    profit to the net of the two gross amounts and to the symbol's own
    total, and touches no other symbol's total. *)
Theorem update_metrics_keeps_accounts
    (now : Z) (symbol symbol' : string) (pnl entry exit : Q) (w : World) :
  accounts_ok (get_metrics w) ->
  let m := get_metrics w in
  let m' := get_metrics (update_metrics now symbol pnl entry exit w) in
  accounts_ok m'
  /\ total_trades m' = (total_trades m + 1)%Z
  /\ gross_profit m' + gross_loss m' == gross_profit m + gross_loss m + pnl
  /\ pnl_by_symbol m' !! symbol
     = Some (default 0 (pnl_by_symbol m !! symbol) + pnl)
  /\ (symbol' <> symbol -> pnl_by_symbol m' !! symbol' = pnl_by_symbol m !! symbol').
Proof.
  intros Hok. cbv zeta.
  assert (E : get_metrics (update_metrics now symbol pnl entry exit w)
              = count_trade symbol pnl (get_metrics w)).
  { unfold update_metrics. destruct (Py.Qlt_bool pnl 0).
    - now rewrite get_metrics_save, get_metrics_mutate_traded_symbols,
        get_metrics_save, get_metrics_mutate_metrics.
    - now rewrite get_metrics_save, get_metrics_mutate_metrics. }
  rewrite E. split; [now apply count_trade_accounts|].
  unfold count_trade; cbn. split; [reflexivity|]. split; [|split].
  - destruct (Qle_bool 0 pnl); ring.
  - apply lookup_insert_eq.
  - intros Hne. now rewrite lookup_insert_ne by congruence.
Qed.

Lemma update_metrics_keeps_accounts_witness :
  let w := snd (BotState_new NoFile) in
  let m' := get_metrics (update_metrics 0 "AAPL" (-5) 100 95 w) in
  accounts_ok m' /\ pnl_by_symbol m' !! "AAPL"%string = Some (0 + -5).
Proof.
  cbv zeta.
  assert (Hok : accounts_ok (get_metrics (snd (BotState_new NoFile)))).
  { unfold accounts_ok. cbn. repeat split; try lia; try reflexivity;
      intros H; discriminate H. }
  destruct (update_metrics_keeps_accounts
              0 "AAPL" "MSFT" (-5) 100 95 (snd (BotState_new NoFile)) Hok)
    as (H1 & _ & _ & H4 & _).
  split; [exact H1 | exact H4].
Defined.

Lemma track_drawdown_peak equity m :
  exists p,
    max_equity (track_drawdown equity m) = Some p
    /\ equity <= p
    /\ match max_equity m with
       | None => p = equity
       | Some e => e <= p /\ (p = e \/ p = equity)
       end.
Proof.
  unfold track_drawdown; cbn.
  destruct (max_equity m) as [e|].
  - destruct (Py.Qlt_bool e equity) eqn:H; eexists; (split; [reflexivity|]).
    + apply Qlt_bool_iff in H. split; [lra|]. split; [lra | now right].
    + apply Qlt_bool_false in H. split; [lra|]. split; [lra | now left].
  - eexists. split; [reflexivity|]. split; [lra | reflexivity].
Qed.

Lemma update_drawdown_peak_from equities : forall w e,
  max_equity (get_metrics w) = Some e ->
  exists p,
    max_equity
      (get_metrics (fold_left (fun w x => update_drawdown x w) equities w))
    = Some p
    /\ e <= p
    /\ Forall (fun x => x <= p) equities
    /\ (p = e \/ In p equities).
Proof.
  induction equities as [|x xs IH]; intros w e He; cbn.
  - exists e. split; [exact He|]. split; [lra|]. split; [constructor | now left].
  - destruct (track_drawdown_peak x (get_metrics w)) as (p1 & Hp1 & Hx & Hm).
    rewrite He in Hm. destruct Hm as (Hle & Hor).
    assert (H1 : max_equity (get_metrics (update_drawdown x w)) = Some p1).
    { unfold update_drawdown.
      now rewrite get_metrics_save, get_metrics_mutate_metrics. }
    destruct (IH _ _ H1) as (p & Hp & Hp1p & Hall & Hin).
    exists p. split; [exact Hp|]. split; [lra|]. split.
    + constructor; [lra | exact Hall].
    + destruct Hin as [-> | Hin]; [|right; now right].
      destruct Hor as [-> | ->]; [now left | right; now left].
Qed.

(** X12: starting without a peak, the stored [max_equity] after any
    non-empty run of [update_drawdown] calls is the largest equity of the
    run: one of the observed values, and none is above it. *)
Theorem update_drawdown_tracks_peak (equities : list Q) (w : World) :
  max_equity (get_metrics w) = None ->
  equities <> [] ->
  exists p,
    max_equity
      (get_metrics (fold_left (fun w x => update_drawdown x w) equities w))
    = Some p
    /\ In p equities
    /\ Forall (fun x => x <= p) equities.
Proof.
  intros Hnone Hne. destruct equities as [|x xs]; [congruence|]. cbn.
  destruct (track_drawdown_peak x (get_metrics w)) as (p1 & Hp1 & _ & Hm).
  rewrite Hnone in Hm. subst p1.
  assert (H1 : max_equity (get_metrics (update_drawdown x w)) = Some x).
  { unfold update_drawdown.
    now rewrite get_metrics_save, get_metrics_mutate_metrics. }
  destruct (update_drawdown_peak_from xs _ _ H1) as (p & Hp & Hxp & Hall & Hin).
  exists p. split; [exact Hp|]. split.
  - destruct Hin as [-> | Hin]; [now left | now right].
  - constructor; assumption.
Qed.

Lemma update_drawdown_tracks_peak_witness :
  exists p,
    max_equity
      (get_metrics
         (fold_left (fun w x => update_drawdown x w) [100; 90; 120; 110]
                    (snd (BotState_new NoFile))))
    = Some p
    /\ In p [100; 90; 120; 110].
Proof.
  destruct (update_drawdown_tracks_peak
              [100; 90; 120; 110] (snd (BotState_new NoFile)) eq_refl)
    as (p & Hp & Hin & _); [discriminate|].
  exists p. split; [exact Hp | exact Hin].
Defined.

(** X13: once set, the halt flag survives every other call on the state
    object, a reset for the stored day included; only the reset for another
    day clears it. *)
Theorem halt_survives_until_day_change
    (w : World) (now : Z) (symbol today : string) (x pnl entry exit : Q) :
  trading_halted (state w) = true ->
  trading_halted (state (halt_trading w)) = true
  /\ trading_halted (state (update_drawdown x w)) = true
  /\ trading_halted (state (update_metrics now symbol pnl entry exit w)) = true
  /\ trading_halted (state (record_trade w)) = true
  /\ trading_halted (state (record_symbol_trade symbol w)) = true
  /\ (trading_day (state w) = Some today ->
      trading_halted (state (reset_for_day today x w)) = true)
  /\ (trading_day (state w) <> Some today ->
      trading_halted (state (reset_for_day today x w)) = false).
Proof.
  intros H.
  assert (Hm : forall f, trading_halted (state (mutate_metrics f w)) = true).
  { intros f. unfold mutate_metrics. now destruct (metrics (state w)). }
  assert (Ht : forall f w0, trading_halted (state w0) = true ->
                 trading_halted (state (mutate_traded_symbols f w0)) = true).
  { intros f w0 H0. unfold mutate_traded_symbols.
    now destruct (traded_symbols (state w0)). }
  split; [reflexivity|]. split; [apply Hm|]. split.
  { unfold update_metrics. destruct (Py.Qlt_bool pnl 0); cbn; [|apply Hm].
    apply Ht. cbn. apply Hm. }
  split; [exact H|]. split; [cbn; now apply Ht|]. split.
  - intros Hd. now rewrite reset_for_day_same_day.
  - intros Hd. unfold reset_for_day.
    now rewrite bool_decide_eq_false_2 by exact Hd.
Qed.

Lemma halt_survives_until_day_change_witness :
  let w := halt_trading (reset_for_day "2024-01-02" 100 (snd (BotState_new NoFile))) in
  trading_halted (state (reset_for_day "2024-01-02" 90 w)) = true
  /\ trading_halted (state (reset_for_day "2024-01-03" 90 w)) = false.
Proof.
  cbv zeta.
  destruct (halt_survives_until_day_change
              (halt_trading
                 (reset_for_day "2024-01-02" 100 (snd (BotState_new NoFile))))
              0 "AAPL" "2024-01-02" 90 0 0 0 eq_refl)
    as (_ & _ & _ & _ & _ & Hsame & _).
  destruct (halt_survives_until_day_change
              (halt_trading
                 (reset_for_day "2024-01-02" 100 (snd (BotState_new NoFile))))
              0 "AAPL" "2024-01-03" 90 0 0 0 eq_refl)
    as (_ & _ & _ & _ & _ & _ & Hother).
  split; [apply Hsame; reflexivity | apply Hother; discriminate].
Defined.

(** ** bot/execution.py: fills, exits and liquidation *)

(** The fill [latest_buy_fill] reports is that of the first listed order
    that passes the tests of its loop. *)
Lemma latest_buy_fill_first_order
    (api : Api) (symbol : string) (day_start : option Z)
    (price : option Q) (filled_at : Z) :
  latest_buy_fill api symbol day_start = (price, Some filled_at) ->
  exists skipped order rest,
    api_list_all_orders api day_start = Py.Return (skipped ++ order :: rest)
    /\ o_symbol order = symbol
    /\ o_side order = "buy"%string
    /\ o_filled_at order = Some filled_at
    /\ (forall start, day_start = Some start -> (start <= filled_at)%Z)
    /\ price = order_price order
    /\ Forall (fun o =>
                 o_symbol o <> symbol \/ o_side o <> "buy"%string
                 \/ o_filled_at o = None
                 \/ exists t start,
                      o_filled_at o = Some t /\ day_start = Some start
                      /\ (t < start)%Z)
              skipped.
Proof.
  unfold latest_buy_fill.
  destruct (api_list_all_orders api day_start) as [orders|]; [|discriminate].
  intros H.
  enough (exists skipped order rest,
            orders = skipped ++ order :: rest
            /\ o_symbol order = symbol
            /\ o_side order = "buy"%string
            /\ o_filled_at order = Some filled_at
            /\ (forall start, day_start = Some start -> (start <= filled_at)%Z)
            /\ price = order_price order
            /\ Forall (fun o =>
                 o_symbol o <> symbol \/ o_side o <> "buy"%string
                 \/ o_filled_at o = None
                 \/ exists t start,
                      o_filled_at o = Some t /\ day_start = Some start
                      /\ (t < start)%Z)
              skipped)
    as (skipped & order & rest & -> & Hrest).
  { exists skipped, order, rest. split; [reflexivity | exact Hrest]. }
  induction orders as [|o orders IH]; cbn in H; [discriminate|].
  assert (Hskip : forall P : Prop, P ->
    first_buy_fill symbol day_start orders = (price, Some filled_at) ->
    (P -> o_symbol o <> symbol \/ o_side o <> "buy"%string
          \/ o_filled_at o = None
          \/ exists t start,
               o_filled_at o = Some t /\ day_start = Some start
               /\ (t < start)%Z) ->
    exists skipped order rest,
      o :: orders = skipped ++ order :: rest
      /\ o_symbol order = symbol
      /\ o_side order = "buy"%string
      /\ o_filled_at order = Some filled_at
      /\ (forall start, day_start = Some start -> (start <= filled_at)%Z)
      /\ price = order_price order
      /\ Forall (fun o =>
           o_symbol o <> symbol \/ o_side o <> "buy"%string
           \/ o_filled_at o = None
           \/ exists t start,
                o_filled_at o = Some t /\ day_start = Some start
                /\ (t < start)%Z)
        skipped).
  { intros P HP Hrec Hwhy.
    destruct (IH Hrec) as (skipped & order & rest & -> & Hrest).
    exists (o :: skipped), order, rest. split; [reflexivity|].
    destruct Hrest as (? & ? & ? & ? & ? & Hall).
    repeat (split; [assumption|]). constructor; [now apply Hwhy | exact Hall]. }
  case_bool_decide as Hsym; cbn [negb orb] in H.
  2: { apply (Hskip True I H). intros _. now left. }
  case_bool_decide as Hside; cbn [negb orb] in H.
  2: { apply (Hskip True I H). intros _. right. now left. }
  destruct (o_filled_at o) as [t|] eqn:Hfill.
  2: { apply (Hskip True I H). intros _. right. right. now left. }
  destruct day_start as [start|].
  - destruct (Z.ltb_spec t start) as [Hlt|Hge].
    + apply (Hskip True I H). intros _. right. right. right. eauto.
    + injection H as <- <-. exists [], o, orders.
      repeat split; try assumption; try constructor.
      intros start' [= <-]. exact Hge.
  - injection H as <- <-. exists [], o, orders.
    repeat split; try assumption; try constructor. intros start' [=].
Qed.

(** X14: the fill [latest_buy_fill] reports belongs to the first listed
    order that is a buy of the symbol, filled, and not filled before the
    start of the day: every order listed before it fails one of these
    tests.  The reported price is that order's average fill price when it
    has one, else its limit price when it has one, else its stop price. *)
Theorem latest_buy_fill_is_first_match
    (api : Api) (symbol : string) (day_start : option Z)
    (price : option Q) (filled_at : Z) :
  latest_buy_fill api symbol day_start = (price, Some filled_at) ->
  exists skipped order rest,
    api_list_all_orders api day_start = Py.Return (skipped ++ order :: rest)
    /\ o_symbol order = symbol
    /\ o_side order = "buy"%string
    /\ o_filled_at order = Some filled_at
    /\ (forall start, day_start = Some start -> (start <= filled_at)%Z)
    /\ (forall p, o_filled_avg_price order = Some p -> price = Some p)
    /\ (o_filled_avg_price order = None ->
        forall p, o_limit_price order = Some p -> price = Some p)
    /\ (o_filled_avg_price order = None -> o_limit_price order = None ->
        price = o_stop_price order)
    /\ Forall (fun o =>
                 o_symbol o <> symbol \/ o_side o <> "buy"%string
                 \/ o_filled_at o = None
                 \/ exists t start,
                      o_filled_at o = Some t /\ day_start = Some start
                      /\ (t < start)%Z)
              skipped.
Proof.
  intros H.
  destruct (latest_buy_fill_first_order api symbol day_start price filled_at H)
    as (skipped & order & rest & Hlist & Hsym & Hside & Hfill & Hday
        & Hprice & Hskipped).
  exists skipped, order, rest. repeat (split; [assumption|]).
  unfold order_price in Hprice.
  split; [|split; [|split; [|exact Hskipped]]].
  - intros p Hp. now rewrite Hp in Hprice.
  - intros Havg p Hp. now rewrite Havg, Hp in Hprice.
  - intros Havg Hlimit. now rewrite Havg, Hlimit in Hprice.
Qed.

Lemma latest_buy_fill_is_first_match_witness :
  latest_buy_fill Samples.busy_api "XYZ" (Some 0%Z) = (Some 98, Some 51%Z)
  /\ exists skipped rest,
       Samples.order_book = skipped ++ Samples.full_fill :: rest
       /\ Forall (fun o =>
                    o_symbol o <> "XYZ"%string \/ o_side o <> "buy"%string
                    \/ o_filled_at o = None
                    \/ exists t start,
                         o_filled_at o = Some t /\ Some 0%Z = Some start
                         /\ (t < start)%Z)
                 skipped.
Proof.
  split; [reflexivity|].
  destruct (latest_buy_fill_is_first_match
              Samples.busy_api "XYZ" (Some 0%Z) (Some 98) 51 eq_refl)
    as (skipped & order & rest & Hlist & _ & _ & Hfill & _ & _ & _ & _
        & Hskipped).
  injection Hlist as Hlist.
  assert (Hin : order ∈ Samples.order_book).
  { rewrite Hlist. apply elem_of_app. right. left. }
  assert (Horder : order = Samples.full_fill).
  { unfold Samples.order_book in Hin.
    repeat (apply elem_of_cons in Hin as [-> | Hin];
            [first [discriminate Hfill | reflexivity]|]).
    now apply elem_of_nil in Hin. }
  subst order. exists skipped, rest. split; assumption.
Defined.

(** Without an average fill price the limit price is reported, and without
    either the stop price. *)
Example latest_buy_fill_price_preference :
  latest_buy_fill (Samples.one_fill_api None (Some 99) (Some 97)) "XYZ" None
  = (Some 99, Some 51%Z)
  /\ latest_buy_fill (Samples.one_fill_api None None (Some 97)) "XYZ" None
     = (Some 97, Some 51%Z)
  /\ latest_buy_fill (Samples.one_fill_api None None None) "XYZ" None
     = (None, Some 51%Z).
Proof. repeat split. Qed.

(** X15: what [manage_open_position] returns and what it had the gateway
    sell agree: a reported exit comes with exactly one accepted sell, of the
    position's whole shares, and reports that quantity, the anchor price,
    the last close and one of the three reasons; without an exit, and when
    the call raises, no order was accepted. *)
Theorem manage_open_position_reports_its_sale
    (api : Api) (symbol : string) (bars : list Bar) (day_start : option Z)
    (accepted : list Submission) :
  match manage_open_position api symbol bars day_start accepted with
  | (Py.Return (Some (reason, anchor, last, qty)), accepted') =>
      exists position last_bar,
        get_position api symbol = Some position
        /\ iloc_back bars 1 = Some last_bar
        /\ accepted' = accepted ++ [liquidation symbol position]
        /\ qty = whole_shares position
        /\ anchor = anchor_price api symbol day_start position
        /\ last = b_close last_bar
        /\ (reason = "stop" \/ reason = "trail" \/ reason = "trend_flip")%string
  | (_, accepted') => accepted' = accepted
  end.
Proof.
  unfold manage_open_position.
  destruct (get_position api symbol) as [position|] eqn:Hpos; [|reflexivity].
  destruct (iloc_back bars 1) as [last_bar|] eqn:Hlast;
    [|destruct bars; reflexivity].
  destruct bars as [|first_bar rest]; [reflexivity|].
  unfold anchor_price.
  destruct (latest_buy_fill api symbol day_start) as [filled_price filled_at].
  cbn [fst]. cbv beta iota zeta.
  assert (Hsold : forall reason : string,
    (reason = "stop" \/ reason = "trail" \/ reason = "trend_flip")%string ->
    match (submit_market_sell api symbol (whole_shares position) ;;
           Py.ret (Some (reason,
                         Py.or_else filled_price (pos_avg_entry_price position),
                         b_close last_bar, whole_shares position))) accepted
    with
    | (Py.Return (Some (reason, anchor, last, qty)), accepted') =>
        exists position0 last_bar0,
          Some position = Some position0
          /\ Some last_bar = Some last_bar0
          /\ accepted' = accepted ++ [liquidation symbol position0]
          /\ qty = whole_shares position0
          /\ anchor = Py.or_else filled_price (pos_avg_entry_price position0)
          /\ last = b_close last_bar0
          /\ (reason = "stop" \/ reason = "trail" \/ reason = "trend_flip")%string
    | (_, accepted') => accepted' = accepted
    end).
  { intros reason Hreason. unfold Py.bind, submit_market_sell, submit, Py.ret.
    destruct (api_submit_order api _) as [[]|e]; [|reflexivity].
    exists position, last_bar. repeat split; auto. }
  destruct (Qle_bool _ _); [apply Hsold; auto|].
  destruct (match Risk.trailing_stop_price _ _ with
            | Some t => _ | None => false end); [apply Hsold; auto|].
  destruct (last_ema 21 _); [|reflexivity].
  destruct (last_ema 50 _); [|reflexivity].
  destruct (Py.Qlt_bool _ _); [apply Hsold; auto | reflexivity].
Qed.

(** *** Invariants of effectful code *)

Lemma bind_invariant {S A B} (I : S -> Prop) (m : Py.M S A) (k : A -> Py.M S B) :
  (forall s, I s -> I (snd (m s))) ->
  (forall a s, I s -> I (snd (k a s))) ->
  forall s, I s -> I (snd (Py.bind m k s)).
Proof.
  intros Hm Hk s Hs. unfold Py.bind.
  specialize (Hm s Hs). destruct (m s) as [[a|e] s']; cbn in *; auto.
Qed.

Lemma for_each_invariant {S A} (I : S -> Prop) (xs : list A)
    (body : A -> Py.M S unit) :
  (forall x s, I s -> I (snd (body x s))) ->
  forall s, I s -> I (snd (Py.for_each xs body s)).
Proof.
  intros Hbody. induction xs as [|x xs IH]; intros s Hs; cbn; [exact Hs|].
  apply bind_invariant; auto.
Qed.

Lemma try_except_invariant {S A} (I : S -> Prop) (m h : Py.M S A) :
  (forall s, I s -> I (snd (m s))) ->
  (forall s, I s -> I (snd (h s))) ->
  forall s, I s -> I (snd (Py.try_except m h s)).
Proof.
  intros Hm Hh s Hs. unfold Py.try_except.
  specialize (Hm s Hs). destruct (m s) as [[a|e] s']; cbn in *; auto.
Qed.

(** The accepted orders are [base] followed by sells only. *)
Lemma sells_after_refl (base : list Submission) :
  exists orders,
    base = base ++ orders
    /\ Forall (fun o => sub_side o = "sell"%string) orders.
Proof. exists []. now rewrite app_nil_r. Qed.

Lemma submit_market_sell_adds_a_sell api symbol qty base accepted :
  (exists orders, accepted = base ++ orders
                  /\ Forall (fun o => sub_side o = "sell"%string) orders) ->
  exists orders,
    snd (submit_market_sell api symbol qty accepted) = base ++ orders
    /\ Forall (fun o => sub_side o = "sell"%string) orders.
Proof.
  intros (orders & -> & Hall). unfold submit_market_sell, submit.
  destruct (api_submit_order api _); cbn; [|eauto].
  eexists. rewrite <- app_assoc. split; [reflexivity|].
  apply Forall_app. split; [exact Hall|]. now constructor.
Qed.

Lemma close_all_positions_adds_sells api base accepted :
  (exists orders, accepted = base ++ orders
                  /\ Forall (fun o => sub_side o = "sell"%string) orders) ->
  exists orders,
    snd (close_all_positions api accepted) = base ++ orders
    /\ Forall (fun o => sub_side o = "sell"%string) orders.
Proof.
  unfold close_all_positions.
  destruct (api_list_positions api) as [positions|]; [|auto].
  revert accepted.
  apply (for_each_invariant
           (fun acc => exists orders,
              acc = base ++ orders
              /\ Forall (fun o => sub_side o = "sell"%string) orders)).
  intros pos acc Hacc. unfold close_symbol.
  destruct (get_position api (pos_symbol pos)); [|exact Hacc].
  now apply submit_market_sell_adds_a_sell.
Qed.

Lemma manage_open_position_adds_sells api symbol bars day_start base accepted :
  (exists orders, accepted = base ++ orders
                  /\ Forall (fun o => sub_side o = "sell"%string) orders) ->
  exists orders,
    snd (manage_open_position api symbol bars day_start accepted)
    = base ++ orders
    /\ Forall (fun o => sub_side o = "sell"%string) orders.
Proof.
  intros (orders & -> & Hall).
  pose proof (manage_open_position_reports_its_sale
                api symbol bars day_start (base ++ orders)) as H.
  destruct (manage_open_position api symbol bars day_start (base ++ orders))
    as [[[[[[reason anchor] last] qty]|]|e] accepted']; cbn.
  - destruct H as (position & _ & _ & _ & -> & _).
    eexists. rewrite <- app_assoc. split; [reflexivity|].
    apply Forall_app. split; [exact Hall|]. now constructor.
  - subst. eauto.
  - subst. eauto.
Qed.

(** X16: [close_all_positions] returns without an order when the listing
    fails; when the gateway takes every sell it returns after one sell per
    listed position that [get_position] still reports, each for the whole
    shares of that report, in listing order. *)
Theorem close_all_positions_sells_each_position
    (api : Api) (accepted : list Submission) :
  (forall e, api_list_positions api = Py.Raise e ->
   close_all_positions api accepted = (Py.Return tt, accepted))
  /\ (forall positions,
      api_list_positions api = Py.Return positions ->
      (forall o, sub_side o = "sell"%string ->
                 api_submit_order api o = Py.Return tt) ->
      close_all_positions api accepted
      = (Py.Return tt,
         accepted
         ++ omap (fun pos =>
                    liquidation (pos_symbol pos)
                    <$> get_position api (pos_symbol pos))
                 positions)).
Proof.
  unfold close_all_positions. split.
  - intros e ->. reflexivity.
  - intros positions -> Htakes. revert accepted.
    induction positions as [|pos positions IH]; intros accepted; cbn.
    + now rewrite app_nil_r.
    + unfold Py.bind, close_symbol.
      destruct (get_position api (pos_symbol pos)) as [held|]; cbn.
      * unfold submit_market_sell, submit.
        rewrite (Htakes {| sub_symbol := pos_symbol pos;
                           sub_qty := whole_shares held;
                           sub_side := "sell" |} eq_refl).
        rewrite IH, <- app_assoc. reflexivity.
      * apply IH.
Qed.

Lemma close_all_positions_sells_each_position_witness :
  close_all_positions Scenario.holding_api []
  = (Py.Return tt, [liquidation "XYZ" Scenario.xyz_position]).
Proof.
  apply (proj2 (close_all_positions_sells_each_position Scenario.holding_api [])
           [Scenario.xyz_position] eq_refl).
  reflexivity.
Defined.

Lemma highest_is_max b rest :
  Forall (fun r => b_high r <= highest b rest) (b :: rest)
  /\ Exists (fun r => highest b rest = b_high r) (b :: rest).
Proof.
  unfold highest.
  enough (forall acc,
            acc <= fold_left (fun a r => Py.max a (b_high r)) rest acc
            /\ Forall (fun r => b_high r
                        <= fold_left (fun a r => Py.max a (b_high r)) rest acc)
                      rest
            /\ (fold_left (fun a r => Py.max a (b_high r)) rest acc = acc
                \/ Exists (fun r => fold_left (fun a r => Py.max a (b_high r))
                                      rest acc = b_high r) rest)) as H.
  { destruct (H (b_high b)) as (H1 & H2 & H3). split.
    - constructor; assumption.
    - destruct H3 as [E | E]; [left; exact E | right; exact E]. }
  induction rest as [|r rest IH]; intros acc; cbn.
  - split; [lra|]. split; [constructor | now left].
  - destruct (IH (Py.max acc (b_high r))) as (H1 & H2 & H3).
    assert (Hmax : acc <= Py.max acc (b_high r)
                   /\ b_high r <= Py.max acc (b_high r)
                   /\ (Py.max acc (b_high r) = acc
                       \/ Py.max acc (b_high r) = b_high r)).
    { unfold Py.max. destruct (Py.Qlt_bool acc (b_high r)) eqn:E.
      - apply Qlt_bool_iff in E. repeat split; try lra. now right.
      - apply Qlt_bool_false in E. repeat split; try lra. now left. }
    destruct Hmax as (Ha & Hr & Hor).
    split; [lra|]. split.
    + constructor; [lra | exact H2].
    + destruct H3 as [E | E]; [|right; now right].
      destruct Hor as [Eq | Eq].
      * left. now rewrite E.
      * right. left. now rewrite E.
Qed.

(** X17: the running high [manage_open_position] derives is the high of one
    of the bars, and no bar at or after the entry time has a higher
    high. *)
Theorem highest_since_entry_is_a_bound
    (api : Api) (symbol : string) (day_start : option Z)
    (first_bar : Bar) (rest : list Bar) :
  let bars := first_bar :: rest in
  let entry_time :=
    default (b_time first_bar) (snd (latest_buy_fill api symbol day_start)) in
  let high := highest_since_entry api symbol day_start bars in
  Exists (fun r => high = b_high r) bars
  /\ Forall (fun r => (entry_time <= b_time r)%Z -> b_high r <= high) bars.
Proof.
  cbv zeta. unfold highest_since_entry.
  set (entry_time := default _ _).
  set (recent := List.filter _ _).
  destruct recent as [|r rs] eqn:Hrecent.
  - destruct (highest_is_max first_bar rest) as (Hall & Hex).
    split; [exact Hex|].
    eapply Forall_impl; [exact Hall|]. auto.
  - destruct (highest_is_max r rs) as (Hall & Hex). split.
    + apply Exists_exists in Hex as (x & Hx & E).
      apply Exists_exists. exists x. split; [|exact E].
      rewrite <- Hrecent in Hx. subst recent.
      apply list_elem_of_In in Hx. apply list_elem_of_In.
      apply filter_In in Hx. tauto.
    + apply Forall_forall. intros x Hx Htime.
      rewrite Forall_forall in Hall. apply Hall.
      rewrite <- Hrecent. subst recent.
      apply list_elem_of_In in Hx. apply list_elem_of_In.
      apply filter_In. split; [exact Hx|]. now apply Z.leb_le.
Qed.

(** ** bot/data.py: guards and ranking *)

(** X18: [latest_spread_ok] accepts a quote only if the bid is positive, the
    ask is not below it, and the spread is within both [MAX_SPREAD_ABS] and
    [MAX_SPREAD_PCT] of the bid; a failing quote call is refused. *)
Theorem latest_spread_ok_sound (env : Env) (api : Api) (symbol : string) :
  Data.latest_spread_ok env api symbol = true ->
  exists bid ask,
    api_get_latest_quote api symbol = Py.Return (bid, ask)
    /\ 0 < bid
    /\ bid <= ask
    /\ ask - bid <= MAX_SPREAD_ABS env
    /\ ask - bid <= MAX_SPREAD_PCT env * bid.
Proof.
  unfold Data.latest_spread_ok.
  destruct (api_get_latest_quote api symbol) as [[bid ask]|]; [|discriminate].
  destruct (Qle_bool bid 0) eqn:Hb; [discriminate|].
  destruct (Qle_bool ask 0) eqn:Ha; [discriminate|].
  destruct (Py.Qlt_bool ask bid) eqn:Hab; [discriminate|]. cbn [orb].
  intros H. apply andb_true_iff in H as [Habs Hpct].
  apply Qle_bool_false in Hb. apply Qlt_bool_false in Hab.
  apply Qle_bool_iff in Habs, Hpct.
  exists bid, ask. repeat split; try assumption.
  apply (Qmult_le_compat_r _ _ bid) in Hpct; [|lra].
  assert (E : (ask - bid) / bid * bid == ask - bid) by (field; lra).
  rewrite E in Hpct. exact Hpct.
Qed.

Lemma latest_spread_ok_sound_witness :
  exists bid ask,
    api_get_latest_quote Scenario.flat_api "UP" = Py.Return (bid, ask)
    /\ 0 < bid.
Proof.
  destruct (latest_spread_ok_sound default_env Scenario.flat_api "UP" eq_refl)
    as (bid & ask & H1 & H2 & _).
  exists bid, ask. auto.
Defined.

(** [fetch_recent_bars] never hands out a frame without rows: it answers
    [None] for an empty frame and for a failing call, and otherwise the
    frame the gateway returned. *)
Lemma fetch_recent_bars_has_rows
    (get_bars : string -> Py.result (list Bar)) (symbol : string) :
  match Data.fetch_recent_bars get_bars symbol with
  | Some bars => bars <> [] /\ get_bars symbol = Py.Return bars
  | None => get_bars symbol = Py.Return [] \/ exists e, get_bars symbol = Py.Raise e
  end.
Proof.
  unfold Data.fetch_recent_bars.
  destruct (get_bars symbol) as [[|b bars]|e]; eauto.
Qed.

(** X19: with a frame that [fetch_recent_bars] hands on,
    [manage_open_position] raises only what the gateway raised on the sell
    of the position: it meets no missing row, and no order was accepted. *)
Theorem manage_open_position_raises_only_rejections
    (api : Api) (get_bars : string -> Py.result (list Bar)) (symbol : string)
    (bars : list Bar) (day_start : option Z) (accepted : list Submission)
    (e : Py.exn) :
  Data.fetch_recent_bars get_bars symbol = Some bars ->
  fst (manage_open_position api symbol bars day_start accepted) = Py.Raise e ->
  exists position,
    get_position api symbol = Some position
    /\ api_submit_order api (liquidation symbol position) = Py.Raise e
    /\ snd (manage_open_position api symbol bars day_start accepted) = accepted.
Proof.
  intros Hfetch.
  pose proof (fetch_recent_bars_has_rows get_bars symbol) as Hb.
  rewrite Hfetch in Hb. destruct Hb as [Hne _].
  unfold manage_open_position.
  destruct (get_position api symbol) as [position|]; [|discriminate].
  destruct (iloc_back_is_Some bars 1) as [last_bar ->].
  { destruct bars; [congruence | cbn; lia]. }
  destruct bars as [|first_bar rest]; [congruence|].
  destruct (latest_buy_fill _ _ _) as [fp fa]. cbv beta iota zeta.
  assert (Hs : forall v : option exit_info,
    fst ((submit_market_sell api symbol (whole_shares position) ;; Py.ret v)
           accepted) = Py.Raise e ->
    exists position0,
      Some position = Some position0
      /\ api_submit_order api (liquidation symbol position0) = Py.Raise e
      /\ snd ((submit_market_sell api symbol (whole_shares position) ;;
               Py.ret v) accepted) = accepted).
  { intros v. unfold Py.bind, submit_market_sell, submit, liquidation.
    destruct (api_submit_order api _) as [[]|e1] eqn:Hsub; cbn;
      [discriminate|].
    intros [= <-]. exists position. rewrite Hsub. auto. }
  destruct (Qle_bool _ _); [apply Hs|].
  destruct (match Risk.trailing_stop_price _ _ with
            | Some t => _ | None => false end); [apply Hs|].
  destruct (last_ema_is_Some 21 (first_bar :: rest)) as [e21 ->];
    [discriminate|].
  destruct (last_ema_is_Some 50 (first_bar :: rest)) as [e50 ->];
    [discriminate|].
  destruct (Py.Qlt_bool _ _); [apply Hs | discriminate].
Qed.

Lemma manage_open_position_raises_only_rejections_witness :
  exists position,
    get_position Samples.rejecting_api "XYZ" = Some position
    /\ api_submit_order Samples.rejecting_api (liquidation "XYZ" position)
       = Py.Raise Py.APIError
    /\ snd (manage_open_position Samples.rejecting_api "XYZ" Scenario.falling
              (Some 0%Z) [])
       = [].
Proof.
  apply (manage_open_position_raises_only_rejections
           Samples.rejecting_api (fun _ => Py.Return Scenario.falling) "XYZ"
           Scenario.falling (Some 0%Z) [] Py.APIError).
  - reflexivity.
  - vm_compute. reflexivity.
Defined.

Import Ranking.

Lemma scan_assets_take assets : forall candidates,
  (length candidates <= UNIVERSE_SCAN_LIMIT)%nat ->
  scan_assets assets candidates
  = candidates
    ++ take (UNIVERSE_SCAN_LIMIT - length candidates) (omap eligible assets).
Proof.
  induction assets as [|asset assets IH]; intros candidates Hlen;
    cbn [scan_assets omap list_omap].
  - now rewrite take_nil, app_nil_r.
  - destruct (Nat.leb_spec UNIVERSE_SCAN_LIMIT (length candidates)) as [Hfull|Hroom].
    + replace (UNIVERSE_SCAN_LIMIT - length candidates)%nat with 0%nat by lia.
      now rewrite take_0, app_nil_r.
    + destruct (eligible asset) as [symbol|]; [|now apply IH].
      rewrite IH by (rewrite length_app; cbn; lia).
      rewrite length_app; cbn [length].
      replace (UNIVERSE_SCAN_LIMIT - length candidates)%nat
        with (S (UNIVERSE_SCAN_LIMIT - (length candidates + 1)))%nat by lia.
      cbn [take]. now rewrite <- app_assoc.
Qed.

(** X20: the symbols [build_trending_universe] goes on to fetch are the
    first [UNIVERSE_SCAN_LIMIT] eligible ones in listing order: never more
    than 40, each the symbol of a tradable, shortable, easy-to-borrow asset
    and at most four characters long. *)
Theorem scan_assets_is_first_forty (assets : list Asset) :
  scan_assets assets [] = take UNIVERSE_SCAN_LIMIT (omap eligible assets)
  /\ (length (scan_assets assets []) <= UNIVERSE_SCAN_LIMIT)%nat
  /\ Forall (fun symbol =>
               (String.length symbol <= 4)%nat
               /\ exists asset,
                    asset ∈ assets
                    /\ a_symbol asset = Some symbol
                    /\ a_tradable asset = true
                    /\ a_shortable asset = true
                    /\ a_easy_to_borrow asset = true)
            (scan_assets assets []).
Proof.
  assert (E : scan_assets assets []
              = take UNIVERSE_SCAN_LIMIT (omap eligible assets)).
  { rewrite scan_assets_take by (cbn; lia).
    cbn [length app]. now rewrite Nat.sub_0_r. }
  rewrite E. split; [reflexivity|]. split.
  - rewrite length_take. lia.
  - apply Forall_take. apply Forall_forall. intros symbol Hin.
    apply list_elem_of_omap in Hin as (asset & Hasset & Hel).
    unfold eligible in Hel.
    destruct (a_tradable asset) eqn:Ht; [|discriminate].
    destruct (a_shortable asset) eqn:Hs; [|discriminate].
    destruct (a_easy_to_borrow asset) eqn:Hb; [|discriminate].
    cbn [negb orb] in Hel.
    destruct (a_symbol asset) as [sym|] eqn:Hsym; [|discriminate].
    destruct (Nat.ltb_spec 4 (String.length sym)); [discriminate|].
    injection Hel as <-. split; [lia|]. exists asset. auto.
Qed.

Lemma insert_by_score_Forall (P : Data.Candidate -> Prop) c sorted :
  Forall P (insert_by_score c sorted) <-> P c /\ Forall P sorted.
Proof.
  induction sorted as [|d rest IH]; cbn.
  - rewrite Forall_cons. tauto.
  - destruct (Py.Qlt_bool _ _).
    + rewrite !Forall_cons, IH. tauto.
    + rewrite !Forall_cons. tauto.
Qed.

Lemma insert_by_score_sorted c sorted :
  StronglySorted (fun a b => Data.c_score b <= Data.c_score a) sorted ->
  StronglySorted (fun a b => Data.c_score b <= Data.c_score a)
                 (insert_by_score c sorted).
Proof.
  induction 1 as [|d rest Hsorted IH Hd]; cbn.
  - repeat constructor.
  - destruct (Py.Qlt_bool (Data.c_score c) (Data.c_score d)) eqn:E.
    + apply Qlt_bool_iff in E. constructor; [exact IH|].
      apply insert_by_score_Forall. split; [lra | exact Hd].
    + apply Qlt_bool_false in E. constructor.
      * now constructor.
      * constructor; [exact E|].
        eapply Forall_impl; [exact Hd|]. cbn. intros x Hx. lra.
Qed.

Lemma sort_by_score_sorted ranked :
  StronglySorted (fun a b => Data.c_score b <= Data.c_score a)
                 (sort_by_score ranked).
Proof.
  induction ranked as [|c ranked IH]; cbn; [constructor|].
  now apply insert_by_score_sorted.
Qed.

Lemma sort_by_score_Forall (P : Data.Candidate -> Prop) ranked :
  Forall P (sort_by_score ranked) <-> Forall P ranked.
Proof.
  induction ranked as [|c ranked IH]; cbn; [tauto|].
  rewrite insert_by_score_Forall, Forall_cons, IH. tauto.
Qed.

Lemma insert_by_score_perm c sorted :
  Permutation (insert_by_score c sorted) (c :: sorted).
Proof.
  induction sorted as [|d rest IH]; cbn; [reflexivity|].
  destruct (Py.Qlt_bool _ _); [|reflexivity].
  rewrite IH. apply perm_swap.
Qed.

Lemma sort_by_score_perm ranked : Permutation (sort_by_score ranked) ranked.
Proof.
  induction ranked as [|c ranked IH]; cbn; [reflexivity|].
  rewrite insert_by_score_perm. now constructor.
Qed.

Lemma StronglySorted_take {A} (R : A -> A -> Prop) n l :
  StronglySorted R l -> StronglySorted R (take n l).
Proof.
  intros H. revert n. induction H as [|x l Hl IH Hx]; intros [|n]; cbn;
    try constructor; auto.
  now apply Forall_take.
Qed.

(** The tests a listed symbol passed before it was ranked. *)
Lemma rank_symbol_passed get_bars sym c :
  rank_symbol get_bars sym = Py.Return (Some c) ->
  Data.c_symbol c = sym
  /\ Data.fetch_recent_bars get_bars sym = Some (Data.c_bars c)
  /\ (60 <= length (Data.c_bars c))%nat
  /\ VOLUME_ACCEL_THRESHOLD <= Data.c_vol_ratio c
  /\ compute_volume_ratio (Data.c_bars c)
     = Py.Return (Some (Data.c_vol_ratio c))
  /\ exists e21 e50,
       compute_trend (Data.c_bars c) = Py.Return (true, e21, e50).
Proof.
  unfold rank_symbol.
  destruct (Data.fetch_recent_bars get_bars sym) as [bars|]; [|discriminate].
  destruct (Nat.ltb_spec (length bars) 60) as [|Hlen]; [discriminate|].
  destruct (compute_intraday_performance bars) as [perf|]; [|discriminate].
  destruct (compute_volume_ratio bars) as [[vr|]|] eqn:Hvol;
    [| destruct (compute_trend bars) as [[[? ?] ?]|]; discriminate
     | discriminate].
  destruct (compute_trend bars) as [[[strong e21] e50]|] eqn:Htrend;
    [|discriminate].
  destruct strong; [|discriminate]. cbn [negb orb].
  destruct (Py.Qlt_bool vr VOLUME_ACCEL_THRESHOLD) eqn:Hvr; [discriminate|].
  apply Qlt_bool_false in Hvr. intros [= <-]. cbn. eauto 10.
Qed.

Lemma rank_symbol_returns get_bars sym :
  exists r, rank_symbol get_bars sym = Py.Return r.
Proof.
  unfold rank_symbol.
  destruct (Data.fetch_recent_bars get_bars sym) as [bars|]; [|eauto].
  destruct (Nat.ltb_spec (length bars) 60) as [|Hlen]; [eauto|].
  assert (Hrow : forall k, (1 <= k <= 60)%nat -> is_Some (iloc_back bars k))
    by (intros k Hk; apply iloc_back_is_Some; lia).
  assert (Hperf : exists perf,
            compute_intraday_performance bars = Py.Return perf).
  { unfold compute_intraday_performance, _returns_from_bars.
    destruct (Nat.ltb_spec (length bars) (12 + 1)); [lia|].
    destruct (Nat.ltb_spec (length bars) (36 + 1)); [lia|].
    destruct (Hrow 1%nat) as [r1 Hr1]; [lia|]. rewrite Hr1.
    destruct (Hrow (12 + 1)%nat) as [r13 ->]; [lia|].
    destruct (Hrow (36 + 1)%nat) as [r37 ->]; [lia|].
    destruct bars as [|first rest]; [cbn in Hlen; lia|].
    destruct (Qle_bool (b_close r13) 0), (Qle_bool (b_close r37) 0);
      rewrite Hr1; eauto. }
  destruct Hperf as [perf ->].
  assert (Hvol : exists v, compute_volume_ratio bars = Py.Return v).
  { unfold compute_volume_ratio.
    destruct (Nat.ltb_spec (length bars) 21); [lia|].
    destruct (Hrow 1%nat) as [r1 ->]; [lia|].
    destruct (Qle_bool _ 0); eauto. }
  destruct Hvol as [v ->].
  assert (Htrend : exists tr, compute_trend bars = Py.Return tr).
  { unfold compute_trend.
    destruct (last_ema_is_Some 21 bars) as [e21 He21];
      [destruct bars; [cbn in Hlen; lia | discriminate]|].
    destruct (last_ema_is_Some 50 bars) as [e50 He50];
      [destruct bars; [cbn in Hlen; lia | discriminate]|].
    unfold last_ema in He21, He50. rewrite He21, He50.
    destruct (Hrow 1%nat) as [r1 ->]; [lia|]. eauto. }
  destruct Htrend as [[[strong e21] e50] ->].
  destruct v as [vr|]; [|eauto].
  destruct (negb strong || Py.Qlt_bool vr VOLUME_ACCEL_THRESHOLD); eauto.
Qed.

Lemma rank_symbols_spec get_bars candidates :
  exists ranked,
    rank_symbols get_bars candidates = Py.Return ranked
    /\ Forall (fun c => Data.c_symbol c ∈ candidates
                        /\ rank_symbol get_bars (Data.c_symbol c)
                           = Py.Return (Some c))
              ranked.
Proof.
  induction candidates as [|sym rest (more & Hmore & Hall)]; cbn.
  - exists []. split; [reflexivity | constructor].
  - destruct (rank_symbol_returns get_bars sym) as [r Hr]. rewrite Hr, Hmore.
    assert (Hall' : Forall (fun c => Data.c_symbol c ∈ sym :: rest
                                     /\ rank_symbol get_bars (Data.c_symbol c)
                                        = Py.Return (Some c)) more).
    { eapply Forall_impl; [exact Hall|]. cbn. intros c [Hin Hc].
      split; [now right | exact Hc]. }
    destruct r as [c|]; eexists; (split; [reflexivity|]); [|exact Hall'].
    constructor; [|exact Hall'].
    destruct (rank_symbol_passed _ _ _ Hr) as (Hsym & _).
    rewrite Hsym. split; [now left | exact Hr].
Qed.

(** X21: [build_trending_universe] always returns: the empty list when the
    asset listing fails, and otherwise at most [TOP_TRENDING_LIMIT]
    candidates in order of falling score. *)
Theorem build_trending_universe_is_ranked
    (list_assets : Py.result (list Asset))
    (get_bars : string -> Py.result (list Bar)) :
  exists ranked,
    build_trending_universe list_assets get_bars = Py.Return ranked
    /\ (length ranked <= TOP_TRENDING_LIMIT)%nat
    /\ StronglySorted (fun a b => Data.c_score b <= Data.c_score a) ranked
    /\ ((exists e, list_assets = Py.Raise e) -> ranked = []).
Proof.
  unfold build_trending_universe.
  destruct list_assets as [assets|e].
  - destruct (rank_symbols_spec get_bars (scan_assets assets []))
      as (ranked & -> & _).
    eexists. split; [reflexivity|]. split; [rewrite length_take; lia|].
    split; [apply StronglySorted_take, sort_by_score_sorted|].
    intros [e He]. discriminate He.
  - exists []. repeat split; [cbn; lia | constructor].
Qed.

Lemma build_trending_universe_is_ranked_witness :
  build_trending_universe (Py.Raise Py.APIError)
    (fun _ => Py.Return Scenario.surging)
  = Py.Return [].
Proof.
  destruct (build_trending_universe_is_ranked
              (Py.Raise Py.APIError) (fun _ => Py.Return Scenario.surging))
    as (ranked & Hrun & _ & _ & Hempty).
  rewrite Hrun, Hempty; [reflexivity | eauto].
Defined.

(** The two eligible symbols of the sample listing are ranked, in listing
    order as their scores are equal. *)
Example build_trending_universe_sample :
  exists ranked,
    build_trending_universe (Py.Return Samples.listed)
      (fun _ => Py.Return Scenario.surging)
    = Py.Return ranked
    /\ map Data.c_symbol ranked = ["UP"; "UP2"]%string
    /\ Forall (fun c => Data.c_vol_ratio c == 2) ranked.
Proof.
  eexists. split; [vm_compute; reflexivity|]. split; [reflexivity|].
  repeat (constructor; [vm_compute; reflexivity|]). constructor.
Qed.

(** X22: every candidate [build_trending_universe] returns carries the bars
    fetched for its symbol, at least 60 of them, a volume ratio of at least
    [VOLUME_ACCEL_THRESHOLD] computed from those bars, and a strong trend
    on them; its symbol is one of the scanned ones. *)
Theorem build_trending_universe_candidates_passed
    (assets : list Asset) (get_bars : string -> Py.result (list Bar)) :
  exists ranked,
    build_trending_universe (Py.Return assets) get_bars = Py.Return ranked
    /\ Forall (fun c =>
                 Data.c_symbol c ∈ scan_assets assets []
                 /\ Data.fetch_recent_bars get_bars (Data.c_symbol c)
                    = Some (Data.c_bars c)
                 /\ (60 <= length (Data.c_bars c))%nat
                 /\ VOLUME_ACCEL_THRESHOLD <= Data.c_vol_ratio c
                 /\ compute_volume_ratio (Data.c_bars c)
                    = Py.Return (Some (Data.c_vol_ratio c))
                 /\ exists e21 e50,
                      compute_trend (Data.c_bars c)
                      = Py.Return (true, e21, e50))
              ranked.
Proof.
  unfold build_trending_universe.
  destruct (rank_symbols_spec get_bars (scan_assets assets []))
    as (ranked & -> & Hall).
  eexists. split; [reflexivity|].
  apply Forall_take, sort_by_score_Forall.
  eapply Forall_impl; [exact Hall|]. cbn. intros c [Hin Hc].
  destruct (rank_symbol_passed _ _ _ Hc) as (_ & Hrest).
  split; [exact Hin | exact Hrest].
Qed.

(** ** bot/main.py: what a pass can and cannot do *)

(** The price of a true signal is the close of the last bar. *)
Lemma check_entry_signal_price bars benchmark_perf recent_metrics volume_ratio
    price reason :
  check_entry_signal (Some bars) benchmark_perf recent_metrics volume_ratio
  = Py.Return (true, Some price, reason) ->
  exists last, iloc_back bars 1 = Some last /\ price = b_close last.
Proof.
  unfold check_entry_signal.
  destruct (_ <? _)%Z; [discriminate|].
  destruct (iloc_back (add_trend_columns bars) 1) as [last|] eqn:Hlast;
    [|destruct (iloc_back (add_trend_columns bars) 2); discriminate].
  destruct (iloc_back (add_trend_columns bars) 2); [|discriminate].
  apply iloc_back_add_trend_columns in Hlast as (Hl & _).
  destruct (_ || _); [discriminate|].
  destruct (negb _); [discriminate|].
  destruct volume_ratio as [vr|]; [|discriminate].
  destruct (Py.Qlt_bool vr _); [discriminate|].
  destruct (Qle_bool _ _); [discriminate|].
  intros [= <- _]. eauto.
Qed.

(** A positive quantity is worth at most [MAX_POSITION_PCT] of the
    equity. *)
Lemma positive_size_within_cap equity entry aggressive :
  (0 < Risk.calculate_position_size equity entry aggressive)%Z ->
  0 < equity /\ 0 < entry
  /\ inject_Z (Risk.calculate_position_size equity entry aggressive) * entry
     <= equity * MAX_POSITION_PCT.
Proof.
  intros Hpos.
  assert (He : 0 < equity /\ 0 < entry).
  { unfold Risk.calculate_position_size in Hpos.
    destruct (Qle_bool equity 0) eqn:H1; [cbn in Hpos; lia|].
    destruct (Qle_bool entry 0) eqn:H2; [cbn in Hpos; lia|].
    apply Qle_bool_false in H1, H2. auto. }
  destruct He as [He Hp]. split; [exact He|]. split; [exact Hp|].
  rewrite position_size_is_capped by assumption.
  pose proof (Qfloor_le (equity * MAX_POSITION_PCT / entry)) as Hle.
  apply (Qmult_le_compat_r _ _ entry) in Hle; [|lra].
  assert (E : equity * MAX_POSITION_PCT / entry * entry
              == equity * MAX_POSITION_PCT) by (field; lra).
  rewrite E in Hle. exact Hle.
Qed.

(** What one candidate does to the store: nothing to the orders and the
    state object, or one accepted buy of a symbol not yet traded, recorded
    in the state object. *)
Lemma evaluate_candidate_outcome env t equity benchmark_perf candidate s :
  let s' := snd (Main.evaluate_candidate env t equity benchmark_perf candidate s) in
  let symbol := Data.c_symbol candidate in
  (Main.world s' = Main.world s /\ Main.accepted s' = Main.accepted s)
  \/ (has_traded_symbol symbol (Main.world s) = false
      /\ exists last,
           iloc_back (Data.c_bars candidate) 1 = Some last
           /\ let size :=
                Risk.calculate_position_size equity (b_close last) false in
              (0 < size)%Z
              /\ Main.accepted s'
                 = Main.accepted s
                   ++ [{| sub_symbol := symbol; sub_qty := size;
                          sub_side := "buy" |}]
              /\ Main.world s'
                 = record_symbol_trade symbol (record_trade (Main.world s))).
Proof.
  cbv zeta. unfold Main.evaluate_candidate, Py.bind, Main.ask.
  destruct (has_traded_symbol _ _) eqn:Htraded; [now left|].
  destruct (bool_decide _); [now left|].
  destruct (symbol_in_cooldown _ _ _ _) as [[]|]; [now left| |now left].
  destruct (check_entry_signal _ _ _ _) as [[[[] [entry|]] reason]|] eqn:Hsig;
    try (now left).
  destruct (negb (Data.bar_meets_dollar_volume _ _)); [now left|].
  destruct (negb (Data.latest_spread_ok _ _ _)); [now left|].
  destruct (has_open_order _ _); [now left|].
  unfold Main.read_qty. destruct (Main.qty s) as [stale|]; [|now left].
  destruct (Py.Qlt_bool _ _); [now left|].
  apply check_entry_signal_price in Hsig as (last & Hlast & ->).
  unfold Main.bind_qty, Py.modify. cbv beta iota.
  destruct (Z.leb_spec (Risk.calculate_position_size equity (b_close last) false) 0)
    as [|Hsize]; [now left|].
  unfold Py.try_except, Py.bind, Main.gateway, Main.on_world, Py.modify,
    submit_market_buy, submit. cbn [Main.accepted Main.world Main.qty].
  destruct (api_submit_order _ _); cbn; [|now left].
  right. split; [reflexivity|]. exists last. auto.
Qed.

Lemma for_each_invariant_in {S A} (I : S -> Prop) (xs : list A)
    (body : A -> Py.M S unit) :
  (forall x, x ∈ xs -> forall s, I s -> I (snd (body x s))) ->
  forall s, I s -> I (snd (Py.for_each xs body s)).
Proof.
  induction xs as [|x xs IH]; intros Hbody s Hs; cbn; [exact Hs|].
  apply bind_invariant; [|intros _|exact Hs].
  - apply Hbody. now left.
  - apply IH. intros y Hy. apply Hbody. now right.
Qed.

Lemma has_traded_symbol_after_buy symbol symbol' w :
  has_traded_symbol symbol' (record_symbol_trade symbol (record_trade w))
  = (bool_decide (symbol' = symbol) || has_traded_symbol symbol' w).
Proof.
  unfold record_symbol_trade. rewrite has_traded_symbol_insert.
  assert (E : has_traded_symbol symbol' (record_trade w)
              = has_traded_symbol symbol' w).
  { unfold has_traded_symbol, record_trade, get_traded_symbols.
    cbn. now destruct (traded_symbols (state w)). }
  rewrite E. now case_bool_decide.
Qed.

(** X23: however often a symbol appears in the universe, the candidate loop
    of one pass buys it at most once, buys no symbol that was already
    marked as traded, and leaves every symbol it bought marked as traded;
    it submits no sell and unmarks no symbol. *)
Theorem candidate_loop_buys_each_symbol_once
    (env : Env) (t : Main.Tick) (equity benchmark_perf : Q)
    (universe : list Data.Candidate) (s : Main.Loop) :
  let s' :=
    snd (Py.for_each universe
           (Main.evaluate_candidate env t equity benchmark_perf) s) in
  exists buys,
    Main.accepted s' = Main.accepted s ++ buys
    /\ Forall (fun o => sub_side o = "buy"%string) buys
    /\ NoDup (sub_symbol <$> buys)
    /\ Forall (fun o =>
                 has_traded_symbol (sub_symbol o) (Main.world s) = false
                 /\ has_traded_symbol (sub_symbol o) (Main.world s') = true)
              buys
    /\ (forall symbol,
          has_traded_symbol symbol (Main.world s) = true ->
          has_traded_symbol symbol (Main.world s') = true).
Proof.
  cbv zeta.
  set (I := fun s1 : Main.Loop =>
    exists buys,
      Main.accepted s1 = Main.accepted s ++ buys
      /\ Forall (fun o => sub_side o = "buy"%string) buys
      /\ NoDup (sub_symbol <$> buys)
      /\ Forall (fun o =>
                   has_traded_symbol (sub_symbol o) (Main.world s) = false
                   /\ has_traded_symbol (sub_symbol o) (Main.world s1) = true)
                buys
      /\ (forall symbol,
            has_traded_symbol symbol (Main.world s) = true ->
            has_traded_symbol symbol (Main.world s1) = true)).
  change (I (snd (Py.for_each universe
                    (Main.evaluate_candidate env t equity benchmark_perf) s))).
  apply for_each_invariant.
  - intros candidate s1 (buys & Hacc & Hbuy & Hnodup & Hmarks & Hmono).
    destruct (evaluate_candidate_outcome env t equity benchmark_perf candidate s1)
      as [[Hw Ha] | (Hfresh & last & _ & _ & Ha & Hw)].
    + exists buys. rewrite Ha, Hw. auto.
    + set (symbol := Data.c_symbol candidate) in *.
      set (o := {| sub_symbol := symbol; sub_qty := _; sub_side := "buy" |}) in Ha.
      exists (buys ++ [o]). rewrite Ha, Hacc, Hw, <- app_assoc.
      split; [reflexivity|]. split.
      { apply Forall_app. split; [exact Hbuy | now constructor]. }
      split.
      { rewrite fmap_app. apply NoDup_app. split; [exact Hnodup|]. split.
        - intros x Hx Hin. apply list_elem_of_singleton in Hin. subst x.
          apply list_elem_of_fmap in Hx as (b & Hb & Hin).
          rewrite Forall_forall in Hmarks.
          destruct (Hmarks b Hin) as [_ Htr]. cbn in Hb. rewrite <- Hb in Htr.
          congruence.
        - cbn. apply NoDup_singleton. }
      split.
      { apply Forall_app. split.
        - eapply Forall_impl; [exact Hmarks|]. cbn. intros b [H0 H1].
          split; [exact H0|]. rewrite has_traded_symbol_after_buy, H1.
          apply orb_true_r.
        - constructor; [|constructor]. cbn. split.
          + destruct (has_traded_symbol symbol (Main.world s)) eqn:E;
              [|reflexivity].
            apply Hmono in E. congruence.
          + rewrite has_traded_symbol_after_buy.
            now rewrite bool_decide_eq_true_2. }
      intros sym Hsym. rewrite has_traded_symbol_after_buy, (Hmono sym Hsym).
      apply orb_true_r.
  - exists []. rewrite app_nil_r. repeat split; auto; constructor.
Qed.

(** With [qty] bound, a universe that lists the candidate of
    [Scenario.first_pass] twice leads to one buy of 62 shares: 10% of 100000
    at a close of 159. *)
Example candidate_loop_sample :
  Main.accepted
    (snd (Py.for_each (Scenario.first_universe ++ Scenario.first_universe)
            (Main.evaluate_candidate default_env Scenario.first_pass 100000 0)
            Samples.bound_loop))
  = [{| sub_symbol := "UP"; sub_qty := 62; sub_side := "buy" |}].
Proof. vm_compute. reflexivity. Qed.

(** X24: every buy of the candidate loop is for a positive quantity, the
    one [calculate_position_size] gives for the equity of the pass and the
    last close of the candidate's bars, and at that close it is worth at
    most [MAX_POSITION_PCT] of the equity. *)
Theorem candidate_loop_buys_within_cap
    (env : Env) (t : Main.Tick) (equity benchmark_perf : Q)
    (universe : list Data.Candidate) (s : Main.Loop) :
  let s' :=
    snd (Py.for_each universe
           (Main.evaluate_candidate env t equity benchmark_perf) s) in
  exists buys,
    Main.accepted s' = Main.accepted s ++ buys
    /\ Forall (fun o =>
                 exists candidate last,
                   candidate ∈ universe
                   /\ sub_symbol o = Data.c_symbol candidate
                   /\ sub_side o = "buy"%string
                   /\ iloc_back (Data.c_bars candidate) 1 = Some last
                   /\ sub_qty o
                      = Risk.calculate_position_size equity (b_close last) false
                   /\ (0 < sub_qty o)%Z
                   /\ inject_Z (sub_qty o) * b_close last
                      <= equity * MAX_POSITION_PCT)
              buys.
Proof.
  cbv zeta.
  set (I := fun s1 : Main.Loop =>
    exists buys,
      Main.accepted s1 = Main.accepted s ++ buys
      /\ Forall (fun o =>
                   exists candidate last,
                     candidate ∈ universe
                     /\ sub_symbol o = Data.c_symbol candidate
                     /\ sub_side o = "buy"%string
                     /\ iloc_back (Data.c_bars candidate) 1 = Some last
                     /\ sub_qty o
                        = Risk.calculate_position_size equity (b_close last) false
                     /\ (0 < sub_qty o)%Z
                     /\ inject_Z (sub_qty o) * b_close last
                        <= equity * MAX_POSITION_PCT)
                buys).
  change (I (snd (Py.for_each universe
                    (Main.evaluate_candidate env t equity benchmark_perf) s))).
  apply for_each_invariant_in.
  - intros candidate Hin s1 (buys & Hacc & Hall).
    destruct (evaluate_candidate_outcome env t equity benchmark_perf candidate s1)
      as [[Hw Ha] | (_ & last & Hlast & Hsize & Ha & _)].
    + exists buys. rewrite Ha. auto.
    + eexists. rewrite Ha, Hacc, <- app_assoc. split; [reflexivity|].
      apply Forall_app. split; [exact Hall|].
      constructor; [|constructor]. exists candidate, last. cbn.
      destruct (positive_size_within_cap _ _ _ Hsize) as (_ & _ & Hcap).
      repeat split; auto.
  - exists []. rewrite app_nil_r. split; [reflexivity | constructor].
Qed.

Import Effects.

Lemma bind_Return_inv {S A B} (m : Py.M S A) (k : A -> Py.M S B) s b s' :
  Py.bind m k s = (Py.Return b, s') ->
  exists a s1, m s = (Py.Return a, s1) /\ k a s1 = (Py.Return b, s').
Proof.
  unfold Py.bind. destruct (m s) as [[a|e] s1]; [eauto | discriminate].
Qed.

Lemma state_after_mutate_metrics f w :
  trading_halted (state (mutate_metrics f w)) = trading_halted (state w)
  /\ trading_day (state (mutate_metrics f w)) = trading_day (state w).
Proof. unfold mutate_metrics. now destruct (metrics (state w)). Qed.

Lemma state_after_mutate_traded_symbols f w :
  trading_halted (state (mutate_traded_symbols f w)) = trading_halted (state w)
  /\ trading_day (state (mutate_traded_symbols f w)) = trading_day (state w).
Proof. unfold mutate_traded_symbols. now destruct (traded_symbols (state w)). Qed.

Lemma halted_for_update_drawdown today equity w :
  halted_for today w -> halted_for today (update_drawdown equity w).
Proof.
  unfold halted_for, update_drawdown. cbn.
  destruct (state_after_mutate_metrics (track_drawdown equity) w) as [-> ->].
  auto.
Qed.

Lemma halted_for_update_metrics today now symbol pnl entry exit w :
  halted_for today w ->
  halted_for today (update_metrics now symbol pnl entry exit w).
Proof.
  unfold halted_for, update_metrics.
  destruct (Py.Qlt_bool pnl 0); cbn.
  - destruct (state_after_mutate_traded_symbols
                (fun t => <[symbol := EDict {[ "last_loss_at"%string := Iso now ]}]> t)
                (save (mutate_metrics (count_trade symbol pnl) w))) as [-> ->].
    cbn.
    destruct (state_after_mutate_metrics (count_trade symbol pnl) w) as [-> ->].
    auto.
  - destruct (state_after_mutate_metrics (count_trade symbol pnl) w) as [-> ->].
    auto.
Qed.

Lemma halted_for_halt_trading today w :
  trading_day (state w) = Some today -> halted_for today (halt_trading w).
Proof. unfold halted_for. cbn. auto. Qed.

Lemma on_world_keeps today base f s :
  (halted_for today (Main.world s) -> halted_for today (f (Main.world s))) ->
  halted_and_only_sold today base s ->
  halted_and_only_sold today base (snd (Main.on_world f s)).
Proof. intros Hf [Ha Hw]. split; cbn; auto. Qed.

Lemma gateway_keeps {A} today base (m : Py.M (list Submission) A) s :
  (sells_after base (Main.accepted s) ->
   sells_after base (snd (m (Main.accepted s)))) ->
  halted_and_only_sold today base s ->
  halted_and_only_sold today base (snd (Main.gateway m s)).
Proof.
  intros Hm [Ha Hw]. unfold Main.gateway.
  specialize (Hm Ha). destruct (m (Main.accepted s)) as [r acc]. split; auto.
Qed.

Lemma check_limits_keeps today base t equity s :
  halted_and_only_sold today base s ->
  halted_and_only_sold today base (snd (Main.check_limits t equity s)).
Proof.
  intros Hs. unfold Main.check_limits, Py.bind at 1, Py.get.
  destruct (start_equity _) as [start|]; [|exact Hs].
  destruct (negb (Py.truthy start)); [exact Hs|].
  revert s Hs. apply bind_invariant.
  - intros s Hs. unfold Main.when. destruct (_ && _); [|exact Hs].
    apply on_world_keeps; [|exact Hs].
    intros [_ Hd]. now apply halted_for_halt_trading.
  - intros _ s Hs. unfold Main.when. destruct (Qle_bool _ _); [|exact Hs].
    revert s Hs. apply bind_invariant; [intros s Hs; exact Hs|].
    intros s0. apply bind_invariant.
    + intros s Hs. destruct (negb _); [|exact Hs].
      apply on_world_keeps; [|exact Hs].
      intros [_ Hd]. now apply halted_for_halt_trading.
    + intros _ s Hs. apply gateway_keeps; [|exact Hs].
      apply close_all_positions_adds_sells.
Qed.

Lemma manage_position_keeps today base t day_start pos s :
  halted_and_only_sold today base s ->
  halted_and_only_sold today base (snd (Main.manage_position t day_start pos s)).
Proof.
  unfold Main.manage_position.
  destruct (Data.fetch_recent_bars _ _) as [bars|]; [|auto].
  revert s. apply bind_invariant.
  - intros s Hs. apply gateway_keeps; [|exact Hs].
    apply manage_open_position_adds_sells.
  - intros [[[[reason entry_px] exit_px] q]|] s Hs; [|exact Hs].
    revert s Hs. apply bind_invariant.
    + intros s [Ha Hw]. split; assumption.
    + intros _ s Hs. apply on_world_keeps; [|exact Hs].
      apply halted_for_update_metrics.
Qed.

(** X25: a pass that starts halted on the stored trading day buys nothing:
    whatever the gateway answers and whatever the universe holds, the
    orders it adds are sells, and it ends halted. *)
Theorem halted_pass_buys_nothing
    (env : Env) (t : Main.Tick) (s : Main.Loop) :
  trading_halted (state (Main.world s)) = true ->
  trading_day (state (Main.world s)) = Some (Main.today t) ->
  let s' := snd (Main.iteration env t s) in
  (exists orders,
     Main.accepted s' = Main.accepted s ++ orders
     /\ Forall (fun o => sub_side o = "sell"%string) orders)
  /\ trading_halted (state (Main.world s')) = true.
Proof.
  intros Hhalted Hday. cbv zeta.
  enough (halted_and_only_sold (Main.today t) (Main.accepted s)
            (snd (Main.iteration env t s))) as [Ha [Hh _]] by (split; assumption).
  assert (Hs : halted_and_only_sold (Main.today t) (Main.accepted s) s).
  { split; [apply sells_after_refl | split; assumption]. }
  revert Hs. generalize (Main.accepted s) as base. intros base. revert s Hhalted Hday.
  intros s0 _ _. revert s0.
  unfold Main.iteration.
  destruct (Main.account_equity t) as [equity|]; [|auto].
  apply bind_invariant.
  { intros s Hs. apply on_world_keeps; [|exact Hs].
    apply halted_for_update_drawdown. }
  intros _. apply bind_invariant.
  { intros s Hs. apply on_world_keeps; [|exact Hs].
    intros Hw. rewrite reset_for_day_same_day; [exact Hw | apply Hw]. }
  intros _. apply bind_invariant; [intros s Hs; exact Hs|].
  intros day_start. apply bind_invariant; [apply check_limits_keeps|].
  intros _ s Hs.
  destruct (_ <=? _)%Z.
  { revert s Hs. apply bind_invariant.
    - intros s Hs. apply gateway_keeps; [|exact Hs].
      apply close_all_positions_adds_sells.
    - intros _ s Hs. apply on_world_keeps; [|exact Hs].
      intros [_ Hd]. now apply halted_for_halt_trading. }
  destruct (negb (Data.is_market_open _)); [exact Hs|].
  destruct (negb (Data.within_trading_window _)); [exact Hs|].
  destruct (api_list_positions _) as [positions|]; [|exact Hs].
  revert s Hs. apply bind_invariant.
  { apply for_each_invariant. intros pos s. apply manage_position_keeps. }
  intros _ s Hs. unfold Py.bind, Py.get.
  destruct Hs as [Ha [Hh Hd]]. rewrite Hh. split; [exact Ha | split; assumption].
Qed.

Lemma halted_pass_buys_nothing_witness :
  let s :=
    {| Main.world :=
         halt_trading
           (reset_for_day "2024-01-02" 100000 (snd (BotState_new NoFile)));
       Main.accepted := []; Main.qty := None |} in
  trading_halted
    (state (Main.world (snd (Main.iteration default_env Scenario.first_pass s))))
  = true.
Proof.
  cbv zeta.
  apply (halted_pass_buys_nothing default_env Scenario.first_pass); reflexivity.
Defined.

Lemma on_world_only_sold base f s :
  only_sold base s -> only_sold base (snd (Main.on_world f s)).
Proof. auto. Qed.

Lemma gateway_only_sold {A} base (m : Py.M (list Submission) A) s :
  (sells_after base (Main.accepted s) ->
   sells_after base (snd (m (Main.accepted s)))) ->
  only_sold base s -> only_sold base (snd (Main.gateway m s)).
Proof.
  intros Hm Ha. unfold Main.gateway, only_sold in *.
  specialize (Hm Ha). now destruct (m (Main.accepted s)) as [r acc].
Qed.

Lemma check_limits_only_sold base t equity s :
  only_sold base s -> only_sold base (snd (Main.check_limits t equity s)).
Proof.
  intros Hs. unfold Main.check_limits, Py.bind at 1, Py.get.
  destruct (start_equity _) as [start|]; [|exact Hs].
  destruct (negb (Py.truthy start)); [exact Hs|].
  revert s Hs. apply bind_invariant.
  - intros s Hs. unfold Main.when. destruct (_ && _); [|exact Hs].
    now apply on_world_only_sold.
  - intros _ s Hs. unfold Main.when. destruct (Qle_bool _ _); [|exact Hs].
    revert s Hs. apply bind_invariant; [intros s Hs; exact Hs|].
    intros s0. apply bind_invariant.
    + intros s Hs. destruct (negb _); [|exact Hs]. now apply on_world_only_sold.
    + intros _ s Hs. apply gateway_only_sold; [|exact Hs].
      apply close_all_positions_adds_sells.
Qed.

(** X26: a pass at or after [TRADING_WINDOW_END] only sells, and when the
    equity was read and the pass ends without an exception the state object
    is halted. *)
Theorem pass_after_cutoff_sells_and_halts
    (env : Env) (t : Main.Tick) (s : Main.Loop) :
  (TRADING_WINDOW_END <= Main.time_of_day t)%Z ->
  let out := Main.iteration env t s in
  (exists orders,
     Main.accepted (snd out) = Main.accepted s ++ orders
     /\ Forall (fun o => sub_side o = "sell"%string) orders)
  /\ (forall equity,
        Main.account_equity t = Py.Return equity ->
        fst out = Py.Return tt ->
        trading_halted (state (Main.world (snd out))) = true).
Proof.
  intros Hcut. cbv zeta. apply Z.leb_le in Hcut. split.
  - enough (only_sold (Main.accepted s) (snd (Main.iteration env t s)))
      as H by exact H.
    assert (Hs : only_sold (Main.accepted s) s) by apply sells_after_refl.
    revert Hs. generalize (Main.accepted s) as base. intros base. revert s.
    unfold Main.iteration.
    destruct (Main.account_equity t) as [equity|]; [|auto].
    apply bind_invariant; [intros s; apply on_world_only_sold|].
    intros _. apply bind_invariant; [intros s; apply on_world_only_sold|].
    intros _. apply bind_invariant; [intros s Hs; exact Hs|].
    intros day_start. apply bind_invariant; [apply check_limits_only_sold|].
    intros _. rewrite Hcut. apply bind_invariant.
    + intros s Hs. apply gateway_only_sold; [|exact Hs].
      apply close_all_positions_adds_sells.
    + intros _ s. apply on_world_only_sold.
  - intros equity Heq. unfold Main.iteration. rewrite Heq.
    match goal with
    | |- context [fst (?m s)] => destruct (m s) as [r s'] eqn:Hrun
    end.
    cbn. intros ->.
    apply bind_Return_inv in Hrun as (_ & s1 & _ & Hrun).
    apply bind_Return_inv in Hrun as (_ & s2 & _ & Hrun).
    apply bind_Return_inv in Hrun as (day_start & s3 & _ & Hrun).
    apply bind_Return_inv in Hrun as (_ & s4 & _ & Hrun).
    rewrite Hcut in Hrun.
    apply bind_Return_inv in Hrun as (_ & s5 & _ & Hrun).
    unfold Main.on_world, Py.modify in Hrun. injection Hrun as <-.
    reflexivity.
Qed.

Lemma pass_after_cutoff_sells_and_halts_witness :
  let out :=
    Main.iteration default_env
      (Samples.pass_at (dt_time 15 30) Scenario.holding_api [])
      Samples.fresh_loop in
  Main.accepted (snd out) = [liquidation "XYZ" Scenario.xyz_position]
  /\ trading_halted (state (Main.world (snd out))) = true.
Proof.
  cbv zeta. split; [reflexivity|].
  eapply (proj2 (pass_after_cutoff_sells_and_halts
                   default_env
                   (Samples.pass_at (dt_time 15 30) Scenario.holding_api [])
                   Samples.fresh_loop ltac:(vm_compute; discriminate))).
  - reflexivity.
  - reflexivity.
Defined.

(** ** bot/main.py: the dashboard *)

(** X27: with the books as [update_metrics] keeps them and at least one
    trade, the expectancy of the dashboard is the net profit per trade, and
    the win rate lies between 0 and 100. *)
Theorem dashboard_expectancy_is_net_per_trade (m : Metrics) (equity : Q) :
  accounts_ok m ->
  total_trades m <> 0%Z ->
  f_expectancy (figures m equity) * inject_Z (total_trades m)
  == gross_profit m + gross_loss m
  /\ 0 <= f_win_rate (figures m equity) <= 100.
Proof.
  intros (Hw & Hl & Ht & Hgp & Hgl & Hw0 & Hl0) Htotal.
  unfold figures; cbn. unfold nonzero.
  rewrite Ht in *. rewrite inject_Z_plus.
  apply Z.eqb_neq in Htotal. rewrite Htotal. cbn [negb].
  apply Z.eqb_neq in Htotal.
  assert (HW : 0 <= inject_Z (wins m)).
  { change 0 with (inject_Z 0). now rewrite <- Zle_Qle. }
  assert (HL : 0 <= inject_Z (losses m)).
  { change 0 with (inject_Z 0). now rewrite <- Zle_Qle. }
  assert (HT : 0 < inject_Z (wins m) + inject_Z (losses m)).
  { rewrite <- inject_Z_plus. change 0 with (inject_Z 0).
    rewrite <- Zlt_Qlt. lia. }
  set (W := inject_Z (wins m)) in *. set (L := inject_Z (losses m)) in *.
  assert (HWpos : wins m <> 0%Z -> 0 < W).
  { intros E. subst W. change 0 with (inject_Z 0). rewrite <- Zlt_Qlt. lia. }
  assert (HLpos : losses m <> 0%Z -> 0 < L).
  { intros E. subst L. change 0 with (inject_Z 0). rewrite <- Zlt_Qlt. lia. }
  split.
  - destruct (Z.eqb_spec (wins m) 0) as [Ew|Ew];
    destruct (Z.eqb_spec (losses m) 0) as [El|El]; cbn [negb].
    + lia.
    + rewrite (Hw0 Ew). specialize (HLpos El). field. split; lra.
    + rewrite (Hl0 El). specialize (HWpos Ew). field. split; lra.
    + specialize (HWpos Ew). specialize (HLpos El). field. repeat split; lra.
  - assert (E : W / (W + L) * 100 == 100 * (W / (W + L))) by (field; lra).
    rewrite E.
    assert (H0 : 0 <= W / (W + L)) by (apply Qle_shift_div_l; lra).
    assert (H1 : W / (W + L) <= 1) by (apply Qle_shift_div_r; lra).
    split; lra.
Qed.

Lemma dashboard_expectancy_is_net_per_trade_witness :
  let m :=
    get_metrics
      (update_metrics 0 "MSFT" 20 100 120
         (update_metrics 0 "AAPL" (-5) 100 95 (snd (BotState_new NoFile)))) in
  f_expectancy (figures m 100000) * inject_Z (total_trades m)
  == gross_profit m + gross_loss m.
Proof.
  cbv zeta.
  apply (dashboard_expectancy_is_net_per_trade _ 100000).
  - unfold accounts_ok. vm_compute.
    repeat split; intros H; discriminate H.
  - discriminate.
Defined.

(** ** bot/shared.py: the log buffer *)

Import Shared.

(** X28: [add] grows the buffer by one record up to [maxlen] and then keeps
    its length; it only drops records from the old end, and the record it
    added is the newest one (unless [maxlen] is 0, when the buffer stays
    empty). *)
Theorem log_buffer_add_keeps_newest
    (now : Z) (level message : string) (b : LogBuffer) :
  let record :=
    {| log_ts := now; log_level := level; log_message := message |} in
  let b' := add now level message b in
  maxlen b' = maxlen b
  /\ length (buf b') = Nat.min (length (buf b) + 1) (maxlen b)
  /\ (exists dropped, buf b ++ [record] = dropped ++ buf b')
  /\ last (buf b') = match maxlen b with O => None | S _ => Some record end.
Proof.
  cbv zeta. unfold add, deque_append; cbn [maxlen buf]. cbv zeta.
  set (record := {| log_ts := now; log_level := level; log_message := message |}).
  split; [reflexivity|]. split.
  { rewrite length_drop, length_app. cbn. lia. }
  split.
  { eexists. symmetry. apply take_drop. }
  destruct (maxlen b) as [|n] eqn:Hmax.
  - rewrite drop_ge by lia. reflexivity.
  - rewrite length_app; cbn [length].
    rewrite drop_app_le by lia. apply last_snoc.
Qed.

(** X29: [latest(limit)] with a positive limit returns the newest
    [min(limit, length)] records in their order; with limit 0 it returns
    every record, not none; and right after an [add] into a buffer that can
    hold a record, [latest(1)] is the record just added. *)
Theorem log_buffer_latest
    (now : Z) (level message : string) (limit : Z) (b : LogBuffer) :
  ((0 < limit)%Z ->
   (exists older, buf b = older ++ latest limit b)
   /\ length (latest limit b) = Nat.min (Z.to_nat limit) (length (buf b)))
  /\ latest 0 b = buf b
  /\ (maxlen b <> O ->
      latest 1 (add now level message b)
      = [{| log_ts := now; log_level := level; log_message := message |}]).
Proof.
  unfold latest, slice_last. split; [|split].
  - intros Hpos. apply Z.ltb_lt in Hpos. rewrite Hpos. split.
    + eexists. symmetry. apply take_drop.
    + rewrite length_drop. lia.
  - reflexivity.
  - intros Hmax. cbn [Z.ltb Z.compare Z.to_nat Pos.to_nat Pos.iter_op Nat.add].
    unfold add, deque_append; cbn [buf maxlen]. cbv zeta.
    set (record := {| log_ts := now; log_level := level; log_message := message |}).
    rewrite length_drop, length_app; cbn [length].
    rewrite drop_drop, drop_app_le by lia.
    change (Z.to_nat 1) with 1%nat. rewrite drop_ge by lia. reflexivity.
Qed.

Lemma log_buffer_latest_witness :
  let b := add 1 "INFO" "started" (LogBuffer_new 500) in
  length (latest 200 b) = 1%nat
  /\ latest 1 (add 2 "INFO" "tick" b)
     = [{| log_ts := 2; log_level := "INFO"; log_message := "tick" |}].
Proof.
  cbv zeta.
  destruct (log_buffer_latest
              2 "INFO" "tick" 200
              (add 1 "INFO" "started" (LogBuffer_new 500)))
    as (Hpos & _ & Hadd).
  split.
  - rewrite (proj2 (Hpos ltac:(lia))). reflexivity.
  - apply Hadd. discriminate.
Defined.
